(** * Authentication and session lifecycle of the freelance-marketplace backend

    A shallow embedding of [src/utils/auth.ts] (the [AuthService] class),
    [src/middleware/auth.ts], [src/middleware/errorHandler.ts] and
    [src/routes/auth.ts].

    - The relational store behind the Prisma client is a record of tables;
      every table is a list of rows, and the primary keys and unique indexes
      of [migration.sql] are representation invariants ([wf]).
    - Code that awaits store calls and may throw lives in a small
      state-and-exception monad [M]: an exception does not undo the writes
      made before it.
    - The libraries the code calls (jsonwebtoken, bcryptjs,
      express-validator, the JS string built-ins) are an interface
      ([External]); the theorems say which of their properties they use.
    - Clock readings, generated row ids, the uuid and the bcrypt salt of one
      request are collected in [Ambient]. *)

From Stdlib Require Import ZArith String Ascii List Bool Lia.
From stdpp Require Import gmap strings list fin_maps.
Import ListNotations.

Local Open Scope string_scope.

(** ** JSON values and JS objects *)

(** A JS object is an association list: keys keep their insertion order.
    A property whose value is [undefined] is dropped by [res.json], so it is
    simply not listed. *)
Unset Elimination Schemes.
Inductive JSON : Type :=
| JNull
| JBool (b : bool)
| JNum (n : Z)
| JDate (ms : Z)
| JStr (s : string)
| JArr (l : list JSON)
| JObj (o : list (string * JSON)).
Set Elimination Schemes.

Definition Obj : Type := list (string * JSON).

Fixpoint field (k : string) (o : Obj) : option JSON :=
  match o with
  | [] => None
  | (k', v) :: o' => if String.eqb k' k then Some v else field k o'
  end.

(** [const { k, ...rest } = o]: the rest object. *)
Definition omit (k : string) (o : Obj) : Obj :=
  List.filter (fun kv => negb (String.eqb (fst kv) k)) o.

(** A property that is listed only when its value is not [undefined]. *)
Definition opt_field (k : string) (v : option JSON) : Obj :=
  match v with
  | Some j => [(k, j)]
  | None => []
  end.

Definition nullable {A : Type} (f : A -> JSON) (v : option A) : JSON :=
  match v with
  | Some a => f a
  | None => JNull
  end.

(** JS truthiness of a string: [''] is falsy. *)
Definition truthy (s : string) : bool := negb (String.eqb s "").

(** [typeof] *)
Definition typeof (j : JSON) : string :=
  match j with
  | JBool _ => "boolean"
  | JNum _ => "number"
  | JStr _ => "string"
  | _ => "object"
  end.

(** [a || b] on possibly undefined strings. *)
Definition js_or (a : option string) (b : option string) : option string :=
  match a with
  | Some x => if truthy x then Some x else b
  | None => b
  end.

(** ** Errors and responses *)

(** [error.meta.target] of a Prisma error: the fields of the index, or one
    string. *)
Inductive Target : Type :=
| TField (f : string)
| TFields (fs : list string).

(** What can be thrown. [AppError] is the class of
    [middleware/errorHandler.ts]. Any other error carries its [name], its
    [message] and the two properties that [errorHandler] reads of whatever
    it is given: [statusCode] ([None] when the error has none, as an
    [Error] of bcryptjs; [Some 413] for body-parser's
    [PayloadTooLargeError]) and [errors] (the empty list when it has
    none). *)
Inductive JsError : Type :=
| AppError (message : string) (statusCode : Z) (errors : list JSON)
| PrismaClientKnownRequestError (code : string) (target : option Target)
                                (message : string)
| PrismaClientValidationError (message : string)
| TypeError (message : string)
| OtherError (name : string) (message : string) (statusCode : option Z)
             (errors : list JSON).

Definition error_name (e : JsError) : string :=
  match e with
  | AppError _ _ _ => "Error"
  | PrismaClientKnownRequestError _ _ _ => "PrismaClientKnownRequestError"
  | PrismaClientValidationError _ => "PrismaClientValidationError"
  | TypeError _ => "TypeError"
  | OtherError n _ _ _ => n
  end.

Definition error_message (e : JsError) : string :=
  match e with
  | AppError m _ _ => m
  | PrismaClientKnownRequestError _ _ m => m
  | PrismaClientValidationError m => m
  | TypeError m => m
  | OtherError _ m _ _ => m
  end.

Record Response : Type := mkResponse {
  status : Z;
  body : Obj
}.

Inductive Result (A : Type) : Type :=
| Ok (a : A)
| Throw (e : JsError).
Arguments Ok {A} a.
Arguments Throw {A} e.

(** ** The store *)

(** The REAL columns hold numbers that this code only stores and returns;
    they are carried as integers. DATETIME columns are milliseconds. *)
Module User.
Record t : Type := mk {
  id : string;
  email : string;
  firstName : string;
  lastName : string;
  avatar : option string;
  bio : option string;
  hourlyRate : option Z;
  location : option string;
  timezone : option string;
  role : string;
  isEmailVerified : bool;
  isOnline : bool;
  lastSeen : Z;
  passwordHash : string;
  companyName : option string;
  companySize : option string;
  website : option string;
  github : option string;
  linkedin : option string;
  portfolioData : option string;
  averageRating : Z;
  totalReviews : Z;
  totalEarnings : Z;
  totalSpent : Z;
  createdAt : Z;
  updatedAt : Z
}.
End User.

Module RefreshToken.
Record t : Type := mk {
  id : string;
  token : string;
  userId : string;
  expiresAt : Z;
  createdAt : Z
}.
End RefreshToken.

Module PasswordResetToken.
Record t : Type := mk {
  id : string;
  token : string;
  userId : string;
  expiresAt : Z;
  createdAt : Z
}.
End PasswordResetToken.

Module UserSkill.
Record t : Type := mk {
  id : string;
  userId : string;
  skill : string
}.
End UserSkill.

Record Store : Type := mkStore {
  users : list User.t;
  refreshTokens : list RefreshToken.t;
  passwordResetTokens : list PasswordResetToken.t;
  userSkills : list UserSkill.t
}.

Definition set_users (f : list User.t -> list User.t) (s : Store) : Store :=
  mkStore (f (users s)) (refreshTokens s) (passwordResetTokens s) (userSkills s).
Definition set_refreshTokens (f : list RefreshToken.t -> list RefreshToken.t)
    (s : Store) : Store :=
  mkStore (users s) (f (refreshTokens s)) (passwordResetTokens s) (userSkills s).
Definition set_passwordResetTokens
    (f : list PasswordResetToken.t -> list PasswordResetToken.t)
    (s : Store) : Store :=
  mkStore (users s) (refreshTokens s) (f (passwordResetTokens s)) (userSkills s).
Definition set_userSkills (f : list UserSkill.t -> list UserSkill.t)
    (s : Store) : Store :=
  mkStore (users s) (refreshTokens s) (passwordResetTokens s) (f (userSkills s)).

(** Primary keys and unique indexes of the schema, for the four tables that
    the routes write. *)
Record wf (s : Store) : Prop := mkWf {
  wf_user_id : NoDup (map User.id (users s));
  wf_user_email : NoDup (map User.email (users s));
  wf_rt_id : NoDup (map RefreshToken.id (refreshTokens s));
  wf_rt_token : NoDup (map RefreshToken.token (refreshTokens s));
  wf_prt_id : NoDup (map PasswordResetToken.id (passwordResetTokens s));
  wf_prt_token : NoDup (map PasswordResetToken.token (passwordResetTokens s));
  wf_skill_id : NoDup (map UserSkill.id (userSkills s));
  wf_skill_pair :
    NoDup (map (fun r => (UserSkill.userId r, UserSkill.skill r))
             (userSkills s))
}.

(** ** Store calls that may throw *)

Definition M (A : Type) : Type := Store -> Result A * Store.

Definition ret {A : Type} (a : A) : M A := fun s => (Ok a, s).
Definition throw {A : Type} (e : JsError) : M A := fun s => (Throw e, s).
Definition bind {A B : Type} (m : M A) (k : A -> M B) : M B :=
  fun s =>
    match m s with
    | (Ok a, s') => k a s'
    | (Throw e, s') => (Throw e, s')
    end.
Definition try_catch {A : Type} (m : M A) (h : JsError -> M A) : M A :=
  fun s =>
    match m s with
    | (Ok a, s') => (Ok a, s')
    | (Throw e, s') => h e s'
    end.
(** [prisma.$transaction]: a throw inside rolls the store back. *)
Definition transaction {A : Type} (m : M A) : M A :=
  fun s =>
    match m s with
    | (Ok a, s') => (Ok a, s')
    | (Throw e, _) => (Throw e, s)
    end.

Declare Scope store_scope.
Delimit Scope store_scope with store.
Notation "'await' x := m 'in' k" := (bind m (fun x => k))
  (at level 10, x name, m at level 100, k at level 200) : store_scope.
Notation "'await_' m 'in' k" := (bind m (fun _ => k))
  (at level 10, m at level 100, k at level 200) : store_scope.
Local Open Scope store_scope.

Definition P2002 (target : list string) : JsError :=
  PrismaClientKnownRequestError "P2002" (Some (TFields target))
    "Unique constraint failed".
Definition P2025 : JsError :=
  PrismaClientKnownRequestError "P2025" None
    "Record to delete does not exist.".

(** A store call that fails for a reason of the store's own (connection
    lost, timeout) when [down] holds: it throws and writes nothing. *)
Definition unreachable_if {A : Type} (down : bool) (call : M A) : M A :=
  if down
  then throw (OtherError "PrismaClientInitializationError"
                "Can't reach database server" None [])
  else call.

(** [await Promise.all([a, b, c])]: the three calls are started together
    and none is cancelled when another one rejects; the result rejects with
    the first rejection. The calls made this way write to three different
    tables, so they are run here in the order of the array. *)
Definition promise_all3 {A B C : Type} (a : M A) (b : M B) (c : M C)
  : M (A * B * C) :=
  fun s =>
    let '(ra, s1) := a s in
    let '(rb, s2) := b s1 in
    let '(rc, s3) := c s2 in
    (match ra, rb, rc with
     | Ok x, Ok y, Ok z => Ok (x, y, z)
     | Throw e, _, _ => Throw e
     | _, Throw e, _ => Throw e
     | _, _, Throw e => Throw e
     end, s3).

(** [await Promise.all([a, b])], as [promise_all3]. *)
Definition promise_all2 {A B : Type} (a : M A) (b : M B) : M (A * B) :=
  fun s =>
    let '(ra, s1) := a s in
    let '(rb, s2) := b s1 in
    (match ra, rb with
     | Ok x, Ok y => Ok (x, y)
     | Throw e, _ => Throw e
     | _, Throw e => Throw e
     end, s2).

(** The rows of [user_languages]; the routes modelled here only read
    them. *)
Module UserLanguage.
Record t : Type := mk {
  userId : string;
  language : string
}.
End UserLanguage.

Module prisma.

Module user.
Definition by_email (e : string) (u : User.t) : bool :=
  String.eqb (User.email u) e.
Definition by_id (i : string) (u : User.t) : bool :=
  String.eqb (User.id u) i.

Definition findUnique_email (e : string) : M (option User.t) :=
  fun s => (Ok (List.find (by_email e) (users s)), s).
Definition findUnique_id (i : string) : M (option User.t) :=
  fun s => (Ok (List.find (by_id i) (users s)), s).

Definition create (u : User.t) : M User.t :=
  fun s =>
    if existsb (by_id (User.id u)) (users s) then (Throw (P2002 ["id"]), s)
    else if existsb (by_email (User.email u)) (users s)
         then (Throw (P2002 ["email"]), s)
         else (Ok u, set_users (fun l => (l ++ [u])%list) s).

(** [update({ where: { id }, data })]: [data] is the function applied to
    the row. *)
Definition update (i : string) (data : User.t -> User.t) : M User.t :=
  fun s =>
    match List.find (by_id i) (users s) with
    | Some u =>
        (Ok (data u),
         set_users (map (fun x => if by_id i x then data x else x)) s)
    | None => (Throw P2025, s)
    end.

(** [findUnique({ where: { id }, include: { skills: true, languages: true } })];
    [languages] is the table of languages. *)
Definition findUnique_id_include (languages : list UserLanguage.t) (i : string)
  : M (option (User.t * list UserSkill.t * list UserLanguage.t)) :=
  fun s =>
    (Ok (match List.find (by_id i) (users s) with
         | Some u =>
             Some (u,
                   List.filter
                     (fun r => String.eqb (UserSkill.userId r) (User.id u))
                     (userSkills s),
                   List.filter
                     (fun r => String.eqb (UserLanguage.userId r) (User.id u))
                     languages)
         | None => None
         end), s).
End user.

Module refreshToken.
Definition by_token (t : string) (r : RefreshToken.t) : bool :=
  String.eqb (RefreshToken.token r) t.
Definition by_id (i : string) (r : RefreshToken.t) : bool :=
  String.eqb (RefreshToken.id r) i.
Definition by_userId (u : string) (r : RefreshToken.t) : bool :=
  String.eqb (RefreshToken.userId r) u.

Definition create (r : RefreshToken.t) : M unit :=
  fun s =>
    if existsb (by_id (RefreshToken.id r)) (refreshTokens s)
    then (Throw (P2002 ["id"]), s)
    else if existsb (by_token (RefreshToken.token r)) (refreshTokens s)
         then (Throw (P2002 ["token"]), s)
         else (Ok tt, set_refreshTokens (fun l => (l ++ [r])%list) s).

(** [findUnique({ where: { token }, include: { user: true } })] *)
Definition findUnique_token_include_user (t : string)
  : M (option (RefreshToken.t * option User.t)) :=
  fun s =>
    (Ok (match List.find (by_token t) (refreshTokens s) with
         | Some r =>
             Some (r, List.find (user.by_id (RefreshToken.userId r))
                                (users s))
         | None => None
         end), s).

Definition delete_id (i : string) : M unit :=
  fun s =>
    if existsb (by_id i) (refreshTokens s)
    then (Ok tt,
          set_refreshTokens (List.filter (fun r => negb (by_id i r))) s)
    else (Throw P2025, s).

Definition delete_token (t : string) : M unit :=
  fun s =>
    if existsb (by_token t) (refreshTokens s)
    then (Ok tt,
          set_refreshTokens (List.filter (fun r => negb (by_token t r))) s)
    else (Throw P2025, s).

(** [deleteMany] returns the number of deleted rows and does not throw
    when there is none. *)
Definition deleteMany_userId (u : string) : M nat :=
  fun s =>
    (Ok (List.length (List.filter (by_userId u) (refreshTokens s))),
     set_refreshTokens (List.filter (fun r => negb (by_userId u r))) s).
(** [deleteMany({ where: { expiresAt: { lt: now } } })] *)
Definition deleteMany_expired (now : Z) : M nat :=
  fun s =>
    (Ok (List.length
           (List.filter (fun r => (RefreshToken.expiresAt r <? now)%Z)
              (refreshTokens s))),
     set_refreshTokens
       (List.filter (fun r => negb (RefreshToken.expiresAt r <? now)%Z)) s).
End refreshToken.

Module passwordResetToken.
Definition by_token (t : string) (r : PasswordResetToken.t) : bool :=
  String.eqb (PasswordResetToken.token r) t.
Definition by_id (i : string) (r : PasswordResetToken.t) : bool :=
  String.eqb (PasswordResetToken.id r) i.

Definition create (r : PasswordResetToken.t) : M unit :=
  fun s =>
    if existsb (by_id (PasswordResetToken.id r)) (passwordResetTokens s)
    then (Throw (P2002 ["id"]), s)
    else if existsb (by_token (PasswordResetToken.token r))
                    (passwordResetTokens s)
         then (Throw (P2002 ["token"]), s)
         else (Ok tt, set_passwordResetTokens (fun l => (l ++ [r])%list) s).

Definition findUnique_token_include_user (t : string)
  : M (option (PasswordResetToken.t * option User.t)) :=
  fun s =>
    (Ok (match List.find (by_token t) (passwordResetTokens s) with
         | Some r =>
             Some (r, List.find (user.by_id (PasswordResetToken.userId r))
                                (users s))
         | None => None
         end), s).

Definition delete_id (i : string) : M unit :=
  fun s =>
    if existsb (by_id i) (passwordResetTokens s)
    then (Ok tt,
          set_passwordResetTokens
            (List.filter (fun r => negb (by_id i r))) s)
    else (Throw P2025, s).

Definition delete_token (t : string) : M unit :=
  fun s =>
    if existsb (by_token t) (passwordResetTokens s)
    then (Ok tt,
          set_passwordResetTokens
            (List.filter (fun r => negb (by_token t r))) s)
    else (Throw P2025, s).

Definition deleteMany_expired (now : Z) : M nat :=
  fun s =>
    (Ok (List.length
           (List.filter (fun r => (PasswordResetToken.expiresAt r <? now)%Z)
              (passwordResetTokens s))),
     set_passwordResetTokens
       (List.filter (fun r => negb (PasswordResetToken.expiresAt r <? now)%Z))
       s).
End passwordResetToken.

Module userSkill.
Definition by_id (i : string) (r : UserSkill.t) : bool :=
  String.eqb (UserSkill.id r) i.
Definition same (a b : UserSkill.t) : bool :=
  String.eqb (UserSkill.userId a) (UserSkill.userId b)
  && String.eqb (UserSkill.skill a) (UserSkill.skill b).

(** The rows of one [createMany]: the [data] are pairs of a [userId] and a
    [skill], and the n-th row gets the n-th generated id, counted from
    [n]. *)
Fixpoint rows_of (ids : nat -> string) (n : nat)
    (data : list (string * string)) : list UserSkill.t :=
  match data with
  | [] => []
  | (userId, skill) :: rest =>
      UserSkill.mk (ids n) userId skill :: rows_of ids (S n) rest
  end.

(** The rows go in in their order; the primary key rejects a repeated id
    and the unique index on (userId, skill) a repeated pair. *)
Fixpoint insert_rows (rows : list UserSkill.t) : M unit :=
  match rows with
  | [] => ret tt
  | r :: rest =>
      fun s =>
        if existsb (by_id (UserSkill.id r)) (userSkills s)
        then (Throw (P2002 ["id"]), s)
        else if existsb (same r) (userSkills s)
        then (Throw (P2002 ["userId"; "skill"]), s)
        else insert_rows rest (set_userSkills (fun l => (l ++ [r])%list) s)
  end.

(** [createMany({ data })] is one statement: when a row is rejected, none
    is stored. *)
Definition createMany (ids : nat -> string) (data : list (string * string))
  : M unit :=
  fun s =>
    match insert_rows (rows_of ids 0 data) s with
    | (Ok u, s') => (Ok u, s')
    | (Throw e, _) => (Throw e, s)
    end.
End userSkill.

End prisma.

(** ** Configuration, libraries and the surroundings of a request *)

Module JWTPayload.
Record t : Type := mk {
  userId : string;
  email : string;
  role : string
}.
End JWTPayload.

Record SignOptions : Type := mkSignOptions {
  expiresIn : string;
  sign_issuer : string;
  sign_audience : string
}.

Record VerifyOptions : Type := mkVerifyOptions {
  issuer : string;
  audience : string
}.

Record TokenPair : Type := mkTokenPair {
  accessToken : string;
  refreshToken : string
}.

(** The static fields of [AuthService] and [process.env.NODE_ENV]. *)
Record Config : Type := mkConfig {
  NODE_ENV : option string;
  SALT_ROUNDS : Z;
  JWT_SECRET : string;
  JWT_REFRESH_SECRET : string;
  JWT_EXPIRES_IN : string;
  JWT_REFRESH_EXPIRES_IN : string
}.

(** The library calls of the code. [jwt_sign] and [jwt_verify] read the
    clock, passed as their last argument; [bcrypt_hash] draws a salt, passed
    as its last argument; a throwing call returns [Throw]. *)
Class External : Type := mkExternal {
  jwt_sign : JWTPayload.t -> string -> SignOptions -> Z -> string;
  jwt_verify : string -> string -> VerifyOptions -> Z -> Result JWTPayload.t;
  bcrypt_hash : string -> Z -> string -> string;
  bcrypt_compare : string -> string -> bool;
  isEmail : string -> bool;
  normalizeEmail : string -> string;
  trim : string -> string;
  isFloat_min5 : JSON -> bool;
  parseFloat : JSON -> Z
}.

(** What the runtime hands to one request: the clock reading, the ids of
    the rows it creates, the output of [uuidv4] and the bcrypt salt. *)
Record Ambient : Type := mkAmbient {
  now : Z;
  new_user_id : string;
  new_token_id : string;
  new_skill_id : nat -> string;
  uuid : string;
  salt : string
}.

(** ** [AuthService] *)

Module AuthService.
Section AuthService.
Context `{External} (cfg : Config).

Definition hashPassword (password : string) (salt : string) : string :=
  bcrypt_hash password (SALT_ROUNDS cfg) salt.

(** [bcryptjs.compare] rejects when the password is not a string: the
    TypeScript type of [password] is not checked when the code runs. *)
Definition comparePassword (password : JSON) (hash : string) : Result bool :=
  match password with
  | JStr p => Ok (bcrypt_compare p hash)
  | _ =>
      Throw (OtherError "Error"
               ("Illegal arguments: " ++ typeof password ++ ", string")
               None [])
  end.

Definition generateAccessToken (payload : JWTPayload.t) (now : Z) : string :=
  jwt_sign payload (JWT_SECRET cfg)
    (mkSignOptions (JWT_EXPIRES_IN cfg)
       "freelance-marketplace" "freelance-marketplace-app") now.

Definition generateRefreshToken (payload : JWTPayload.t) (now : Z) : string :=
  jwt_sign payload (JWT_REFRESH_SECRET cfg)
    (mkSignOptions (JWT_REFRESH_EXPIRES_IN cfg)
       "freelance-marketplace" "freelance-marketplace-app") now.

(** The argument is the part of [user] that the function reads. *)
Definition generateTokenPair (user_id user_email user_role : string)
    (amb : Ambient) : M TokenPair :=
  let payload := JWTPayload.mk user_id user_email user_role in
  let accessToken := generateAccessToken payload (now amb) in
  let refreshToken := generateRefreshToken payload (now amb) in
  await_ prisma.refreshToken.create
           (RefreshToken.mk (new_token_id amb) refreshToken user_id
              (now amb + 7 * 24 * 60 * 60 * 1000) (now amb)) in
  ret (mkTokenPair accessToken refreshToken).

Definition verifyAccessToken (token : string) (now : Z)
  : option JWTPayload.t :=
  match jwt_verify token (JWT_SECRET cfg)
          (mkVerifyOptions "freelance-marketplace"
             "freelance-marketplace-app") now with
  | Ok p => Some p
  | Throw _ => None
  end.

Definition verifyRefreshToken (token : string) (now : Z)
  : option JWTPayload.t :=
  match jwt_verify token (JWT_REFRESH_SECRET cfg)
          (mkVerifyOptions "freelance-marketplace"
             "freelance-marketplace-app") now with
  | Ok p => Some p
  | Throw _ => None
  end.

Definition refreshAccessToken (refreshToken : string) (now : Z)
  : M (option string) :=
  match verifyRefreshToken refreshToken now with
  | None => ret None
  | Some payload =>
      await storedToken :=
        prisma.refreshToken.findUnique_token_include_user refreshToken in
      match storedToken with
      | None => ret None
      | Some (row, user) =>
          if (RefreshToken.expiresAt row <? now)%Z then
            await_ prisma.refreshToken.delete_id (RefreshToken.id row) in
            ret None
          else
            match user with
            | Some u =>
                ret (Some (generateAccessToken
                             (JWTPayload.mk (User.id u) (User.email u)
                                (User.role u)) now))
            | None =>
                throw (TypeError "Cannot read properties of null")
            end
      end
  end.

(** [revokeRefreshToken]; [down] says whether the store call fails
    for a reason of the store's own. *)
Definition revokeRefreshToken_when (down : bool) (token : string) : M bool :=
  try_catch
    (await_ unreachable_if down (prisma.refreshToken.delete_token token) in
     ret true)
    (fun _ => ret false).

Definition revokeRefreshToken : string -> M bool :=
  revokeRefreshToken_when false.

Definition revokeAllUserTokens_when (down : bool) (userId : string)
  : M bool :=
  try_catch
    (await_ unreachable_if down
              (prisma.refreshToken.deleteMany_userId userId) in
     ret true)
    (fun _ => ret false).

Definition revokeAllUserTokens : string -> M bool :=
  revokeAllUserTokens_when false.

Definition generatePasswordResetToken (userId : string) (amb : Ambient)
  : M string :=
  let token := uuid amb in
  let expiresAt := (now amb + 60 * 60 * 1000)%Z in
  await_ prisma.passwordResetToken.create
           (PasswordResetToken.mk (new_token_id amb) token userId
              expiresAt (now amb)) in
  ret token.

Definition verifyPasswordResetToken (token : string) (now : Z)
  : M (option User.t) :=
  await resetToken :=
    prisma.passwordResetToken.findUnique_token_include_user token in
  match resetToken with
  | None => ret None
  | Some (row, user) =>
      if (PasswordResetToken.expiresAt row <? now)%Z then
        await_ prisma.passwordResetToken.delete_id
                 (PasswordResetToken.id row) in
        ret None
      else ret user
  end.

Definition consumePasswordResetToken_when (down : bool) (token : string)
  : M bool :=
  try_catch
    (await_ unreachable_if down
              (prisma.passwordResetToken.delete_token token) in
     ret true)
    (fun _ => ret false).

Definition consumePasswordResetToken : string -> M bool :=
  consumePasswordResetToken_when false.

Definition cleanupExpiredTokens (now : Z) : M unit :=
  await_ promise_all2 (prisma.refreshToken.deleteMany_expired now)
           (prisma.passwordResetToken.deleteMany_expired now) in
  ret tt.

End AuthService.
End AuthService.

(** ** [errorHandler] and [asyncHandler] *)

Definition eq_env (v : option string) (x : string) : bool :=
  match v with
  | Some y => String.eqb y x
  | None => false
  end.

(** [error.statusCode] and [error.errors], of any error. *)
Definition error_statusCode (e : JsError) : option Z :=
  match e with
  | AppError _ c _ => Some c
  | OtherError _ _ c _ => c
  | _ => None
  end.

Definition error_errors (e : JsError) : list JSON :=
  match e with
  | AppError _ _ l => l
  | OtherError _ _ _ l => l
  | _ => []
  end.

(** [Array.isArray(target) ? target[0] : target], in a template literal. *)
Definition target_field (t : Target) : string :=
  match t with
  | TField f => f
  | TFields (f :: _) => f
  | TFields [] => "undefined"
  end.

Definition target_truthy (t : Target) : bool :=
  match t with
  | TField f => truthy f
  | TFields _ => true
  end.

Definition errorHandler (cfg : Config) (error : JsError) : Response :=
  let statusCode :=
    match error_statusCode error with
    | Some c => if (c =? 0)%Z then 500%Z else c
    | None => 500%Z
    end in
  let message :=
    if truthy (error_message error) then error_message error
    else "Internal Server Error" in
  let errors := error_errors error in
  let '(statusCode, message) :=
    match error with
    | PrismaClientKnownRequestError code target _ =>
        if String.eqb code "P2002" then
          (409%Z, match target with
                  | Some t =>
                      if target_truthy t
                      then target_field t ++ " already exists"
                      else "Resource already exists"
                  | None => "Resource already exists"
                  end)
        else if String.eqb code "P2025" then (404%Z, "Resource not found")
        else if String.eqb code "P2003" then (400%Z, "Invalid reference")
        else (500%Z, "Database error")
    | _ => (statusCode, message)
    end in
  let '(statusCode, message) :=
    match error with
    | PrismaClientValidationError _ => (400%Z, "Validation error")
    | _ => (statusCode, message)
    end in
  let '(statusCode, message) :=
    if String.eqb (error_name error) "JsonWebTokenError"
    then (401%Z, "Invalid token") else (statusCode, message) in
  let '(statusCode, message) :=
    if String.eqb (error_name error) "TokenExpiredError"
    then (401%Z, "Token expired") else (statusCode, message) in
  let '(statusCode, message) :=
    if String.eqb (error_name error) "ValidationError"
    then (400%Z, "Validation failed") else (statusCode, message) in
  let '(statusCode, message) :=
    if String.eqb (error_name error) "MulterError" then
      (400%Z,
       if String.eqb (error_message error) "LIMIT_FILE_SIZE"
       then "File too large"
       else if String.eqb (error_message error) "LIMIT_FILE_COUNT"
       then "Too many files"
       else if String.eqb (error_message error) "LIMIT_UNEXPECTED_FILE"
       then "Unexpected file field"
       else "File upload error")
    else (statusCode, message) in
  let '(message, errors) :=
    if eq_env (NODE_ENV cfg) "production" && (statusCode =? 500)%Z
    then ("Something went wrong", []) else (message, errors) in
  mkResponse statusCode
    ([("success", JBool false); ("message", JStr message)]
       ++ match errors with
          | [] => []
          | _ => [("errors", JArr errors)]
          end)%list.

(** The console output of the handler in development is not modelled. *)

(** A route wrapped in [asyncHandler]: what the handler throws goes to
    [errorHandler]; the store keeps the writes made before the throw. *)
Definition asyncHandler (cfg : Config) (handler : M Response)
  : Store -> Response * Store :=
  fun s =>
    match handler s with
    | (Ok r, s') => (r, s')
    | (Throw e, s') => (errorHandler cfg e, s')
    end.

(** ** The middleware of [middleware/auth.ts] *)

Module ReqUser.
Record t : Type := mk {
  id : string;
  email : string;
  firstName : string;
  lastName : string;
  role : string;
  isEmailVerified : bool
}.
End ReqUser.

Record Request : Type := mkRequest {
  authorization : option string;
  req_user : option ReqUser.t;
  ip : option string
}.

(** A middleware either calls [next()] with the request as it left it, or
    ends the request with a response. *)
Inductive Outcome : Type :=
| Next (req : Request)
| Respond (res : Response).

Definition with_user (req : Request) (u : ReqUser.t) : Request :=
  mkRequest (authorization req) (Some u) (ip req).

(** The [select] of the two middlewares. *)
Definition select_identity (u : User.t) : ReqUser.t :=
  ReqUser.mk (User.id u) (User.email u) (User.firstName u) (User.lastName u)
    (User.role u) (User.isEmailVerified u).

Definition failure (code : Z) (message : string) : Response :=
  mkResponse code [("success", JBool false); ("message", JStr message)].

Definition bearer (authHeader : option string) : option string :=
  match authHeader with
  | Some h =>
      if truthy h && String.prefix "Bearer " h
      then Some (String.substring 7 (String.length h - 7) h)
      else None
  | None => None
  end.

Section Middleware.
Context `{External} (cfg : Config).

Definition authenticate (req : Request) (now : Z) : M Outcome :=
  try_catch
    (match bearer (authorization req) with
     | None => ret (Respond (failure 401 "Access token required"))
     | Some token =>
         match AuthService.verifyAccessToken cfg token now with
         | None => ret (Respond (failure 401 "Invalid or expired token"))
         | Some payload =>
             await user :=
               prisma.user.findUnique_id (JWTPayload.userId payload) in
             match user with
             | None => ret (Respond (failure 401 "User not found"))
             | Some u => ret (Next (with_user req (select_identity u)))
             end
         end
     end)
    (fun _ => ret (Respond (failure 500 "Authentication error"))).

Definition optionalAuth (req : Request) (now : Z) : M Outcome :=
  try_catch
    (match bearer (authorization req) with
     | None => ret (Next req)
     | Some token =>
         match AuthService.verifyAccessToken cfg token now with
         | Some payload =>
             await user :=
               prisma.user.findUnique_id (JWTPayload.userId payload) in
             match user with
             | Some u => ret (Next (with_user req (select_identity u)))
             | None => ret (Next req)
             end
         | None => ret (Next req)
         end
     end)
    (fun _ => ret (Next req)).

End Middleware.

(** *** The guards *)

Definition authorize (roles : list string) (req : Request) : Outcome :=
  match req_user req with
  | None => Respond (failure 401 "Authentication required")
  | Some user =>
      if existsb (String.eqb (ReqUser.role user)) roles
      then Next req
      else Respond (failure 403 "Insufficient permissions")
  end.

Definition adminOnly : Request -> Outcome := authorize ["ADMIN"].
Definition freelancerOnly : Request -> Outcome := authorize ["FREELANCER"].
Definition clientOnly : Request -> Outcome := authorize ["CLIENT"].
Definition freelancerOrClient : Request -> Outcome :=
  authorize ["FREELANCER"; "CLIENT"].

Definition verifiedOnly (req : Request) : Outcome :=
  match req_user req with
  | None => Respond (failure 401 "Authentication required")
  | Some user =>
      if ReqUser.isEmailVerified user
      then Next req
      else Respond (failure 403 "Email verification required")
  end.

(** [checkOwnership(resourceIdParam, userIdField)]; [params] is
    [req.params]. The resource id is read and not used. *)
Definition checkOwnership (resourceIdParam userIdField : string)
    (params : list (string * string)) (req : Request) : Outcome :=
  match req_user req with
  | None => Respond (failure 401 "Authentication required")
  | Some user =>
      if String.eqb (ReqUser.role user) "ADMIN" then Next req
      else
        let resourceId :=
          option_map snd
            (List.find (fun kv => String.eqb (fst kv) resourceIdParam) params) in
        Next req
  end.

(** ** [rateLimitByUser] *)

Module RateLimit.

Record Entry : Type := mkEntry {
  count : Z;
  resetTime : Z
}.

Inductive Verdict : Type :=
| Pass
| TooMany (res : Response).

(** [req.user?.id || req.ip || 'anonymous'] *)
Definition key (req : Request) : string :=
  match js_or (js_or (option_map ReqUser.id (req_user req)) (ip req))
              (Some "anonymous") with
  | Some k => k
  | None => "anonymous"
  end.

(** One call of the middleware returned by
    [rateLimitByUser(maxRequests, windowMs)]; [requests] is the map of
    its closure. [userRequests.count++] writes through the entry the map
    holds. *)
Definition rateLimitByUser (maxRequests windowMs : Z)
    (requests : gmap string Entry) (req : Request) (now : Z)
  : Verdict * gmap string Entry :=
  let userId := key req in
  match requests !! userId with
  | Some userRequests =>
      if (resetTime userRequests <? now)%Z then
        (Pass, <[userId := mkEntry 1 (now + windowMs)]> requests)
      else if (maxRequests <=? count userRequests)%Z then
        (TooMany (failure 429 "Too many requests"), requests)
      else
        (Pass, <[userId := mkEntry (count userRequests + 1)
                             (resetTime userRequests)]> requests)
  | None => (Pass, <[userId := mkEntry 1 (now + windowMs)]> requests)
  end.

(** A sequence of calls, in arrival order. *)
Fixpoint run (maxRequests windowMs : Z) (requests : gmap string Entry)
    (calls : list (Request * Z)) : list Verdict * gmap string Entry :=
  match calls with
  | [] => ([], requests)
  | (req, now) :: rest =>
      let '(v, requests') :=
        rateLimitByUser maxRequests windowMs requests req now in
      let '(vs, requests'') := run maxRequests windowMs requests' rest in
      (v :: vs, requests'')
  end.

Definition is_pass (v : Verdict) : bool :=
  match v with
  | Pass => true
  | TooMany _ => false
  end.

(** The number of calls of key [k] that were passed on. *)
Fixpoint passed (k : string) (calls : list (Request * Z))
    (vs : list Verdict) : Z :=
  match calls, vs with
  | (req, _) :: calls', v :: vs' =>
      ((if String.eqb (key req) k && is_pass v then 1 else 0)
       + passed k calls' vs')%Z
  | _, _ => 0%Z
  end.

(** Every call of key [k] arrives no later than [reset]. *)
Definition within (k : string) (reset : Z) (calls : list (Request * Z))
  : Prop :=
  Forall (fun c => key (fst c) = k -> (snd c <= reset)%Z) calls.

(** The verdicts that the calls of key [k] got. *)
Fixpoint verdicts_for (k : string) (calls : list (Request * Z))
    (vs : list Verdict) : list Verdict :=
  match calls, vs with
  | (req, _) :: calls', v :: vs' =>
      if String.eqb (key req) k then v :: verdicts_for k calls' vs'
      else verdicts_for k calls' vs'
  | _, _ => []
  end.

Definition calls_of (k : string) (calls : list (Request * Z))
  : list (Request * Z) :=
  List.filter (fun c => String.eqb (key (fst c)) k) calls.

(** Every count is at least 1 and at most [maxRequests], or 1 when
    [maxRequests] is smaller. *)
Definition bounded (maxRequests : Z) (requests : gmap string Entry) : Prop :=
  forall k e, requests !! k = Some e ->
              (1 <= count e <= Z.max 1 maxRequests)%Z.

End RateLimit.

(** ** The routes of [routes/auth.ts] *)

(** *** Rows as JSON *)

Definition user_obj (u : User.t) : Obj :=
  [ ("id", JStr (User.id u));
    ("email", JStr (User.email u));
    ("firstName", JStr (User.firstName u));
    ("lastName", JStr (User.lastName u));
    ("avatar", nullable JStr (User.avatar u));
    ("bio", nullable JStr (User.bio u));
    ("hourlyRate", nullable JNum (User.hourlyRate u));
    ("location", nullable JStr (User.location u));
    ("timezone", nullable JStr (User.timezone u));
    ("role", JStr (User.role u));
    ("isEmailVerified", JBool (User.isEmailVerified u));
    ("isOnline", JBool (User.isOnline u));
    ("lastSeen", JDate (User.lastSeen u));
    ("passwordHash", JStr (User.passwordHash u));
    ("companyName", nullable JStr (User.companyName u));
    ("companySize", nullable JStr (User.companySize u));
    ("website", nullable JStr (User.website u));
    ("github", nullable JStr (User.github u));
    ("linkedin", nullable JStr (User.linkedin u));
    ("portfolioData", nullable JStr (User.portfolioData u));
    ("averageRating", JNum (User.averageRating u));
    ("totalReviews", JNum (User.totalReviews u));
    ("totalEarnings", JNum (User.totalEarnings u));
    ("totalSpent", JNum (User.totalSpent u));
    ("createdAt", JDate (User.createdAt u));
    ("updatedAt", JDate (User.updatedAt u)) ].

(** The [select] of [tx.user.create] in the register route. *)
Definition select_registered (u : User.t) : Obj :=
  [ ("id", JStr (User.id u));
    ("email", JStr (User.email u));
    ("firstName", JStr (User.firstName u));
    ("lastName", JStr (User.lastName u));
    ("role", JStr (User.role u));
    ("avatar", nullable JStr (User.avatar u));
    ("bio", nullable JStr (User.bio u));
    ("isEmailVerified", JBool (User.isEmailVerified u));
    ("averageRating", JNum (User.averageRating u));
    ("totalReviews", JNum (User.totalReviews u));
    ("hourlyRate", nullable JNum (User.hourlyRate u));
    ("companyName", nullable JStr (User.companyName u));
    ("companySize", nullable JStr (User.companySize u));
    ("createdAt", JDate (User.createdAt u)) ].

(** [data: { lastSeen: new Date(), isOnline: true }] *)
Definition seen_online (now : Z) (u : User.t) : User.t :=
  User.mk (User.id u) (User.email u) (User.firstName u) (User.lastName u)
    (User.avatar u) (User.bio u) (User.hourlyRate u) (User.location u)
    (User.timezone u) (User.role u) (User.isEmailVerified u) true now
    (User.passwordHash u) (User.companyName u) (User.companySize u)
    (User.website u) (User.github u) (User.linkedin u) (User.portfolioData u)
    (User.averageRating u) (User.totalReviews u) (User.totalEarnings u)
    (User.totalSpent u) (User.createdAt u) now.

(** [data: { passwordHash }] *)
Definition with_passwordHash (hash : string) (now : Z) (u : User.t) : User.t :=
  User.mk (User.id u) (User.email u) (User.firstName u) (User.lastName u)
    (User.avatar u) (User.bio u) (User.hourlyRate u) (User.location u)
    (User.timezone u) (User.role u) (User.isEmailVerified u) (User.isOnline u)
    (User.lastSeen u) hash (User.companyName u) (User.companySize u)
    (User.website u) (User.github u) (User.linkedin u) (User.portfolioData u)
    (User.averageRating u) (User.totalReviews u) (User.totalEarnings u)
    (User.totalSpent u) (User.createdAt u) now.

(** *** Validators *)

Definition code (c : ascii) : nat := nat_of_ascii c.
Definition is_lower (c : ascii) : bool :=
  (97 <=? code c)%nat && (code c <=? 122)%nat.
Definition is_upper (c : ascii) : bool :=
  (65 <=? code c)%nat && (code c <=? 90)%nat.
Definition is_digit (c : ascii) : bool :=
  (48 <=? code c)%nat && (code c <=? 57)%nat.
Definition is_line_terminator (c : ascii) : bool :=
  (code c =? 10)%nat || (code c =? 13)%nat.

(** A string is held as the bytes of its UTF-8 encoding. [starts a b c s]:
    the string starts with the three bytes. *)
Definition starts (a b c : nat) (s : string) : bool :=
  match s with
  | String x (String y (String z _)) =>
      (code x =? a)%nat && (code y =? b)%nat && (code z =? c)%nat
  | _ => false
  end.

(** U+2028 and U+2029, the line terminators outside ASCII. *)
Definition at_separator (s : string) : bool :=
  starts 226 128 168 s || starts 226 128 169 s.

(** What [.*] can cross from the start of the string: [.] stops at a line
    feed, a carriage return, U+2028 and U+2029. *)
Fixpoint first_line (s : string) : list ascii :=
  match s with
  | EmptyString => []
  | String c r =>
      if is_line_terminator c || at_separator s then []
      else c :: first_line r
  end.

(** [/^(?=.*[a-z])(?=.*[A-Z])(?=.*\d)/] *)
Definition matches_complexity (s : string) : bool :=
  existsb is_lower (first_line s)
  && existsb is_upper (first_line s)
  && existsb is_digit (first_line s).

(** The bytes [10xxxxxx], which continue a character. *)
Definition is_continuation (c : ascii) : bool :=
  (128 <=? code c)%nat && (code c <=? 191)%nat.

Fixpoint code_points (s : string) : nat :=
  match s with
  | EmptyString => 0
  | String c r => (if is_continuation c then 0 else 1) + code_points r
  end.

(** The variation selectors U+FE0E and U+FE0F in the string. *)
Fixpoint selectors (s : string) : nat :=
  match s with
  | EmptyString => 0
  | String _ r =>
      (if starts 239 184 142 s || starts 239 184 143 s then 1 else 0)
      + selectors r
  end.

(** The length that validator.js compares in [isLength]:
    [str.length - presentationSequences.length - surrogatePairs.length],
    the characters of the string that are not a variation selector. *)
Definition validator_length (s : string) : nat :=
  code_points s - selectors s.

Definition isLength (lo : nat) (hi : option nat) (s : string) : bool :=
  (lo <=? validator_length s)%nat
  && match hi with
     | Some h => (validator_length s <=? h)%nat
     | None => true
     end.

Definition isIn (l : list string) (s : string) : bool :=
  existsb (String.eqb s) l.

Definition check (ok : bool) (message : string) : list string :=
  if ok then [] else [message].

(** [.optional()]: an undefined field is not validated. *)
Definition optional {A : Type} (v : option A) (f : A -> list string)
  : list string :=
  match v with
  | Some a => f a
  | None => []
  end.

Definition json_truthy (j : JSON) : bool :=
  match j with
  | JNull => false
  | JBool b => b
  | JNum n => negb (n =? 0)%Z
  | JStr s => truthy s
  | _ => true
  end.

Definition some_truthy (v : option string) : bool :=
  match v with
  | Some s => truthy s
  | None => false
  end.

(** express-validator turns a value into a string before it validates it;
    [stringifies_empty j]: that string is empty. A number, a boolean and an
    object never give the empty string; an array gives the strings of its
    items joined by commas. *)
Fixpoint stringifies_empty (j : JSON) : bool :=
  match j with
  | JNull => true
  | JStr s => negb (truthy s)
  | JArr [] => true
  | JArr [x] => stringifies_empty x
  | _ => false
  end.

(** [.notEmpty()]: the items of an array are validated one by one. *)
Definition notEmpty (j : JSON) : bool :=
  match j with
  | JArr l => forallb (fun x => negb (stringifies_empty x)) l
  | _ => negb (stringifies_empty j)
  end.

Definition password_errors (p : string) : list string :=
  (check (isLength 8 None p) "Password must be at least 8 characters long"
   ++ check (matches_complexity p)
        "Password must contain at least one lowercase letter, one uppercase letter, and one number")%list.

(** *** Request bodies *)

(** A field that the body lacks reads as the empty string where the
    validators see it as such, and as [None] where [.optional()] or the
    handler tells the two apart. The items of [errors.array()] are carried
    as their messages. The password of a login is whatever JSON value the
    body holds ([JNull] when it holds none); the other fields are carried
    at the type that their validators let through. *)

Module LoginBody.
Record t : Type := mk {
  email : string;
  password : JSON
}.
End LoginBody.

Module RegisterBody.
Record t : Type := mk {
  email : string;
  password : string;
  firstName : string;
  lastName : string;
  role : string;
  hourlyRate : option JSON;
  bio : option string;
  skills : option JSON;
  companyName : option string;
  companySize : option string
}.
End RegisterBody.

Module ResetBody.
Record t : Type := mk {
  token : string;
  newPassword : string
}.
End ResetBody.

(** Which of the three store calls of the reset route fail for a reason of
    the store's own. *)
Record Outage : Type := mkOutage {
  update_down : bool;
  consume_down : bool;
  revoke_down : bool
}.


Definition success (code : Z) (message : string) (rest : Obj) : Response :=
  mkResponse code
    ([("success", JBool true); ("message", JStr message)] ++ rest)%list.

(** [skills.map(skill => ({ userId, skill: skill.trim() }))]: the first
    item that is not a string makes the call throw. *)
Fixpoint skill_rows `{External} (userId : string) (skills : list JSON)
  : Result (list (string * string)) :=
  match skills with
  | [] => Ok []
  | JStr sk :: rest =>
      match skill_rows userId rest with
      | Ok rows => Ok ((userId, trim sk) :: rows)
      | Throw e => Throw e
      end
  | JNull :: _ =>
      Throw (TypeError "Cannot read properties of null (reading 'trim')")
  | _ :: _ => Throw (TypeError "skill.trim is not a function")
  end.

Module Routes.
Section Routes.
Context `{External} (cfg : Config).

Definition validate_register (b : RegisterBody.t) : list string :=
  (check (isEmail (RegisterBody.email b)) "Valid email is required"
   ++ password_errors (RegisterBody.password b)
   ++ check (isLength 1 (Some 50%nat) (trim (RegisterBody.firstName b)))
        "First name is required and must be less than 50 characters"
   ++ check (isLength 1 (Some 50%nat) (trim (RegisterBody.lastName b)))
        "Last name is required and must be less than 50 characters"
   ++ check (isIn ["FREELANCER"; "CLIENT"] (RegisterBody.role b))
        "Role must be either FREELANCER or CLIENT"
   ++ optional (RegisterBody.hourlyRate b) (fun v =>
        check (isFloat_min5 v) "Hourly rate must be at least $5")
   ++ optional (RegisterBody.bio b) (fun v =>
        check (isLength 50 (Some 1000%nat) v)
          "Bio must be between 50 and 1000 characters")
   ++ optional (RegisterBody.skills b) (fun v =>
        check (match v with JArr _ => true | _ => false end)
          "Skills must be an array")
   ++ optional (RegisterBody.companyName b) (fun v =>
        check (isLength 1 (Some 100%nat) (trim v))
          "Company name must be less than 100 characters")
   ++ optional (RegisterBody.companySize b) (fun v =>
        check (isIn ["1-10"; "11-50"; "51-200"; "201-500"; "500+"] v)
          "Invalid company size"))%list.

(** The row that [tx.user.create({ data: userData })] inserts: the
    columns of [userData], the defaults of the schema elsewhere. *)
Definition userData (b : RegisterBody.t) (passwordHash : string)
    (amb : Ambient) : User.t :=
  let role := RegisterBody.role b in
  let companyName := option_map trim (RegisterBody.companyName b) in
  let freelancer := String.eqb role "FREELANCER" in
  let client := String.eqb role "CLIENT" && some_truthy companyName in
  User.mk (new_user_id amb)
    (normalizeEmail (RegisterBody.email b))
    (trim (RegisterBody.firstName b))
    (trim (RegisterBody.lastName b))
    None
    (if freelancer then RegisterBody.bio b else None)
    (if freelancer then option_map parseFloat (RegisterBody.hourlyRate b)
     else None)
    None None role false false (now amb) passwordHash
    (if client then companyName else None)
    (if client
     then (if some_truthy (RegisterBody.companySize b)
           then RegisterBody.companySize b else None)
     else None)
    None None None None 0%Z 0%Z 0%Z 0%Z (now amb) (now amb).

(** The block "Add skills if provided (for freelancers)" of the register
    transaction:
    [if (role === 'FREELANCER' && skills && Array.isArray(skills))
       await tx.userSkill.createMany(...)]. *)
Definition add_skills (role : string) (skills : option JSON)
    (userId : string) (ids : nat -> string) : M unit :=
  match skills with
  | Some (JArr skills) =>
      if String.eqb role "FREELANCER" then
        match skill_rows userId skills with
        | Ok data => prisma.userSkill.createMany ids data
        | Throw e => throw e
        end
      else ret tt
  | _ => ret tt
  end.

Definition register (b : RegisterBody.t) (amb : Ambient) : M Response :=
  match validate_register b with
  | (_ :: _) as errors =>
      throw (AppError "Validation failed" 400 (map JStr errors))
  | [] =>
      let role := RegisterBody.role b in
      let hourlyRate := RegisterBody.hourlyRate b in
      let companyName := option_map trim (RegisterBody.companyName b) in
      if String.eqb role "FREELANCER"
         && negb (match hourlyRate with
                  | Some v => json_truthy v
                  | None => false
                  end)
      then throw (AppError "Hourly rate is required for freelancers" 400 [])
      else if String.eqb role "FREELANCER"
              && negb (some_truthy (RegisterBody.bio b))
      then throw (AppError "Bio is required for freelancers" 400 [])
      else if String.eqb role "CLIENT" && negb (some_truthy companyName)
      then throw (AppError "Company name is required for clients" 400 [])
      else
        await existingUser :=
          prisma.user.findUnique_email
            (normalizeEmail (RegisterBody.email b)) in
        match existingUser with
        | Some _ =>
            throw (AppError
                     "User with this email or username already exists"
                     409 [])
        | None =>
            let passwordHash :=
              AuthService.hashPassword cfg (RegisterBody.password b)
                (salt amb) in
            await user :=
              transaction
                (await newUser :=
                   prisma.user.create (userData b passwordHash amb) in
                 await_ add_skills role (RegisterBody.skills b)
                          (User.id newUser) (new_skill_id amb) in
                 ret newUser) in
            await tokens :=
              AuthService.generateTokenPair cfg (User.id user)
                (User.email user) (User.role user) amb in
            ret (success 201 "User registered successfully"
                   [("data",
                     JObj [("user", JObj (select_registered user));
                           ("accessToken", JStr (accessToken tokens));
                           ("refreshToken", JStr (refreshToken tokens))])])
        end
  end.

Definition validate_login (b : LoginBody.t) : list string :=
  (check (isEmail (LoginBody.email b)) "Valid email is required"
   ++ check (notEmpty (LoginBody.password b)) "Password is required")%list.

Definition login (b : LoginBody.t) (amb : Ambient) : M Response :=
  match validate_login b with
  | (_ :: _) as errors =>
      throw (AppError "Validation failed" 400 (map JStr errors))
  | [] =>
      await user :=
        prisma.user.findUnique_email (normalizeEmail (LoginBody.email b)) in
      match user with
      | None => throw (AppError "Invalid email or password" 401 [])
      | Some user =>
          match AuthService.comparePassword (LoginBody.password b)
                  (User.passwordHash user) with
          | Throw e => throw e
          | Ok false => throw (AppError "Invalid email or password" 401 [])
          | Ok true =>
              await_ prisma.user.update (User.id user)
                       (seen_online (now amb)) in
              await tokens :=
                AuthService.generateTokenPair cfg (User.id user)
                  (User.email user) (User.role user) amb in
              ret (success 200 "Login successful"
                     [("data",
                       JObj [("user",
                              JObj (omit "passwordHash" (user_obj user)));
                             ("accessToken", JStr (accessToken tokens));
                             ("refreshToken", JStr (refreshToken tokens))])])
          end
      end
  end.

Definition forgotPassword (email : string) (amb : Ambient) : M Response :=
  match check (isEmail email) "Valid email is required" with
  | (_ :: _) as errors =>
      throw (AppError "Validation failed" 400 (map JStr errors))
  | [] =>
      await user := prisma.user.findUnique_email (normalizeEmail email) in
      match user with
      | None => throw (AppError "User not found" 404 [])
      | Some user =>
          await resetToken :=
            AuthService.generatePasswordResetToken (User.id user) amb in
          ret (success 200 "Password reset email sent"
                 (opt_field "resetToken"
                    (if eq_env (NODE_ENV cfg) "development"
                     then Some (JStr resetToken) else None)))
      end
  end.



(** [router.post('/refresh', ...)]; the argument is [req.body.refreshToken]. *)
Definition refresh (refreshToken : option string) (amb : Ambient)
  : M Response :=
  if negb (some_truthy refreshToken)
  then throw (AppError "Refresh token is required" 400 [])
  else
    await newAccessToken :=
      AuthService.refreshAccessToken cfg
        (match refreshToken with Some t => t | None => "" end) (now amb) in
    if negb (some_truthy newAccessToken)
    then throw (AppError "Invalid or expired refresh token" 401 [])
    else
      ret (mkResponse 200
             [("success", JBool true);
              ("accessToken", nullable JStr newAccessToken)]).

(** A route behind [authenticate]. [authenticate] catches what it throws:
    the last branch is its catch block. *)
Definition authenticated (req : Request) (amb : Ambient)
    (handler : Request -> M Response) : Store -> Response * Store :=
  fun s =>
    match authenticate cfg req (now amb) s with
    | (Ok (Next req'), s') => asyncHandler cfg (handler req') s'
    | (Ok (Respond res), s') => (res, s')
    | (Throw _, s') => (failure 500 "Authentication error", s')
    end.

(** [data: { isOnline: false }] *)
Definition offline (now : Z) (u : User.t) : User.t :=
  User.mk (User.id u) (User.email u) (User.firstName u) (User.lastName u)
    (User.avatar u) (User.bio u) (User.hourlyRate u) (User.location u)
    (User.timezone u) (User.role u) (User.isEmailVerified u) false
    (User.lastSeen u) (User.passwordHash u) (User.companyName u)
    (User.companySize u) (User.website u) (User.github u) (User.linkedin u)
    (User.portfolioData u) (User.averageRating u) (User.totalReviews u)
    (User.totalEarnings u) (User.totalSpent u) (User.createdAt u) now.

(** The handler of [router.post('/logout', authenticate, ...)]; the second
    argument is [req.body.refreshToken]. *)
Definition logout (req : Request) (refreshToken : option string)
    (amb : Ambient) : M Response :=
  match req_user req with
  | None => throw (TypeError "Cannot read properties of undefined")
  | Some user =>
      let userId := ReqUser.id user in
      await_ prisma.user.update userId (offline (now amb)) in
      await_ (if some_truthy refreshToken
              then AuthService.revokeRefreshToken
                     (match refreshToken with Some t => t | None => "" end)
              else AuthService.revokeAllUserTokens userId) in
      ret (success 200 "Logout successful" [])
  end.

Definition logout_route (req : Request) (refreshToken : option string)
    (amb : Ambient) : Store -> Response * Store :=
  authenticated req amb (fun req' => logout req' refreshToken amb).

(** The handler of [router.get('/me', authenticate, ...)]. [JSON.parse] and
    the table of languages are arguments. The rest object keeps the
    columns in their order; [skills] and [languages] take the place of the
    included rows, and [portfolio] comes last. *)
Definition me (json_parse : string -> Result JSON)
    (languages : list UserLanguage.t) (req : Request) : M Response :=
  match req_user req with
  | None => throw (TypeError "Cannot read properties of undefined")
  | Some ru =>
      await user :=
        prisma.user.findUnique_id_include languages (ReqUser.id ru) in
      match user with
      | None => throw (AppError "User not found" 404 [])
      | Some (user, skills, langs) =>
          let userWithoutPassword := omit "passwordHash" (user_obj user) in
          match
            (if some_truthy (User.portfolioData user)
             then json_parse (match User.portfolioData user with
                              | Some d => d
                              | None => ""
                              end)
             else Ok JNull)
          with
          | Throw e => throw e
          | Ok portfolio =>
              ret (mkResponse 200
                     [("success", JBool true);
                      ("data",
                       JObj (userWithoutPassword
                             ++ [("skills",
                                  JArr (map (fun r => JStr (UserSkill.skill r))
                                          skills));
                                 ("languages",
                                  JArr (map (fun r =>
                                               JStr (UserLanguage.language r))
                                          langs));
                                 ("portfolio", portfolio)])%list)])
          end
      end
  end.

Definition me_route (json_parse : string -> Result JSON)
    (languages : list UserLanguage.t) (req : Request) (amb : Ambient)
  : Store -> Response * Store :=
  authenticated req amb (me json_parse languages).

End Routes.
End Routes.

(** *** Reading a response body *)

Definition data_of (r : Response) : option Obj :=
  match field "data" (body r) with
  | Some (JObj d) => Some d
  | _ => None
  end.

Definition user_of (r : Response) : option Obj :=
  match data_of r with
  | Some d =>
      match field "user" d with
      | Some (JObj u) => Some u
      | _ => None
      end
  | None => None
  end.

(** *** Keeping the unique indexes *)


(** ** An instance of the libraries, to run the model on examples *)

Module Sample.

Fixpoint until (c : ascii) (s : string) : string :=
  match s with
  | EmptyString => EmptyString
  | String a r => if Ascii.eqb a c then EmptyString else String a (until c r)
  end.

Fixpoint after (c : ascii) (s : string) : string :=
  match s with
  | EmptyString => EmptyString
  | String a r => if Ascii.eqb a c then r else after c r
  end.

(** The second of the clock reading, as one character. *)
Definition stamp (now : Z) : string :=
  String (ascii_of_nat (Z.to_nat ((now / 1000) mod 256))) EmptyString.

Definition sign (p : JWTPayload.t) (secret : string) (o : SignOptions)
    (now : Z) : string :=
  secret ++ ":" ++ JWTPayload.userId p ++ "@" ++ stamp now.

Definition verify (token secret : string) (o : VerifyOptions) (now : Z)
  : Result JWTPayload.t :=
  if String.prefix (secret ++ ":") token
  then Ok (JWTPayload.mk (until "@" (after ":" token)) "" "")
  else Throw (OtherError "JsonWebTokenError" "invalid token" None []).

Definition libs : External :=
  mkExternal sign verify
    (fun p _ salt => salt ++ "$" ++ p)
    (fun p h => String.eqb (after "$" h) p)
    (fun s => existsb (Ascii.eqb "@") (list_ascii_of_string s))
    (fun s => s)
    (fun s => s)
    (fun j => match j with JNum n => (5 <=? n)%Z | _ => false end)
    (fun j => match j with JNum n => n | _ => 0%Z end).

Definition cfg (env : string) : Config :=
  mkConfig (Some env) 12 "A" "R" "1h" "7d".

Definition alice : User.t :=
  User.mk "u1" "alice@example.com" "Alice" "A" None None None None None
    "CLIENT" true false 0 "s$Abcdef12" (Some "Acme") None None None None
    None 0 0 0 0 0 0.

Definition row (id token userId : string) (expiresAt : Z) : RefreshToken.t :=
  RefreshToken.mk id token userId expiresAt 0.

(** One user with a live session, a stale one and a pending reset. *)
Definition store : Store :=
  mkStore [alice]
    [row "r1" "R:u1@a" "u1" 5000; row "r2" "R:u1@b" "u1" 100]
    [PasswordResetToken.mk "p1" "reset-1" "u1" 5000 0]
    [].

(** The n-th skill row of a request gets the id "k" followed by n. *)
Definition skill_id (n : nat) : string :=
  "k" ++ String (ascii_of_nat (48 + n)) EmptyString.

Definition amb (now : Z) (id : string) : Ambient :=
  mkAmbient now "u2" id skill_id "reset-2" "s".

Definition request (auth : option string) : Request :=
  mkRequest auth None (Some "10.0.0.1").


Definition bob : User.t :=
  User.mk "u3" "bob@example.com" "Bob" "B" None None None None None
    "FREELANCER" false false 0 "s$Bobspass1" None None None None None
    (Some "{}") 0 0 0 0 0 0.

(** The sample store with a second user and a session of theirs. *)
Definition store2 : Store :=
  mkStore [alice; bob]
    [row "r1" "R:u1@a" "u1" 5000; row "r2" "R:u1@b" "u1" 100;
     row "r5" "R:u3@a" "u3" 5000]
    [PasswordResetToken.mk "p1" "reset-1" "u1" 5000 0]
    [UserSkill.mk "k9" "u3" "coq"].

(** The string of the given bytes. *)
Definition bytes (l : list nat) : string :=
  string_of_list_ascii (map ascii_of_nat l).

End Sample.

(** * Properties *)

(** ** Lists of rows *)

Section Rows.
Context {A B : Type}.
Implicit Types (p q : A -> bool) (l : list A).

Lemma find_none_existsb p l :
  List.find p l = None <-> existsb p l = false.
Proof.
  induction l as [|x l IH]; simpl; [tauto|].
  destruct (p x); simpl; [split; discriminate | exact IH].
Qed.

Lemma find_some_existsb p l x :
  List.find p l = Some x -> existsb p l = true.
Proof.
  intros Hf. destruct (existsb p l) eqn:E; [reflexivity|].
  apply find_none_existsb in E. congruence.
Qed.

Lemma find_app_fresh p l x :
  existsb p l = false -> p x = true ->
  List.find p (l ++ [x])%list = Some x.
Proof.
  induction l as [|y l IH]; simpl; intros Hn Hx.
  - now rewrite Hx.
  - apply orb_false_iff in Hn as [Hy Hl]. rewrite Hy. auto.
Qed.

Lemma find_app_old p l x :
  p x = false -> List.find p (l ++ [x])%list = List.find p l.
Proof.
  intros Hx. induction l as [|y l IH]; simpl.
  - now rewrite Hx.
  - destruct (p y); auto.
Qed.

Lemma existsb_app_one p l x :
  existsb p (l ++ [x])%list = existsb p l || p x.
Proof. rewrite existsb_app. simpl. now rewrite orb_false_r. Qed.

(** Deleting the rows that satisfy [q] does not disturb a lookup that
    [q] never answers. *)
Lemma find_filter_keep p q l :
  (forall x, In x l -> p x = true -> q x = false) ->
  List.find p (List.filter (fun x => negb (q x)) l) = List.find p l.
Proof.
  induction l as [|y l IH]; simpl; intros Hpq; [reflexivity|].
  destruct (p y) eqn:Hp.
  - rewrite (Hpq y (or_introl eq_refl) Hp). simpl. now rewrite Hp.
  - destruct (q y); simpl; [|rewrite Hp]; apply IH; intros; apply Hpq; auto.
Qed.

Lemma find_filter_gone p q l :
  (forall x, In x l -> p x = true -> q x = true) ->
  List.find p (List.filter (fun x => negb (q x)) l) = None.
Proof.
  intros Hpq. apply find_none_existsb.
  destruct (existsb _ _) eqn:E; [|reflexivity].
  apply existsb_exists in E as (x & Hin & Hp).
  apply filter_In in Hin as [Hin Hq].
  rewrite (Hpq x Hin Hp) in Hq. discriminate.
Qed.

Lemma NoDup_map_eq (f : A -> B) l x y :
  NoDup (map f l) -> In x l -> In y l -> f x = f y -> x = y.
Proof.
  induction l as [|z l IH]; simpl; [tauto|].
  intros Hnd Hx Hy Hf. inversion Hnd as [|? ? Hz Hnd']; subst.
  destruct Hx as [->|Hx], Hy as [->|Hy]; auto.
  - exfalso. apply Hz, list_elem_of_In. rewrite Hf. now apply in_map.
  - exfalso. apply Hz, list_elem_of_In. rewrite <- Hf. now apply in_map.
Qed.

End Rows.

(** Closes [wf] of a store that is written out. *)
Ltac wf_by_computation :=
  split; simpl; apply NoDup_ListNoDup;
  repeat (constructor; simpl; try (intuition discriminate)).

Lemma wf_sample : wf Sample.store.
Proof. wf_by_computation. Qed.

(** ** [refreshAccessToken] *)

Section RefreshAccessToken.
Context `{External} (cfg : Config).

Local Abbreviation rt_find tok s :=
  (List.find (prisma.refreshToken.by_token tok) (refreshTokens s)).
Local Abbreviation rt_without_id i :=
  (set_refreshTokens
     (List.filter (fun r => negb (prisma.refreshToken.by_id i r)))).

Lemma refreshAccessToken_absent (s : Store) (now : Z) (tok : string) :
  rt_find tok s = None ->
  AuthService.refreshAccessToken cfg tok now s = (Ok None, s).
Proof.
  intros Hrow. unfold AuthService.refreshAccessToken.
  destruct (AuthService.verifyRefreshToken cfg tok now); [|reflexivity].
  unfold bind, prisma.refreshToken.findUnique_token_include_user.
  now rewrite Hrow.
Qed.

(** Under the unique index on [token], deleting the row found for a token
    by its id leaves no row for that token, and no other row is lost. *)
Lemma delete_found_row (s : Store) (tok : string) (r : RefreshToken.t) :
  wf s -> rt_find tok s = Some r ->
  rt_find tok (rt_without_id (RefreshToken.id r) s) = None
  /\ forall x, In x (refreshTokens (rt_without_id (RefreshToken.id r) s))
               <-> In x (refreshTokens s) /\ x <> r.
Proof.
  intros Hwf Hrow. apply find_some in Hrow as [Hin Htok].
  unfold prisma.refreshToken.by_token in Htok.
  apply String.eqb_eq in Htok. split.
  - simpl. apply find_filter_gone. intros x Hx Hp.
    unfold prisma.refreshToken.by_token in Hp. apply String.eqb_eq in Hp.
    assert (x = r) as ->
      by (eapply NoDup_map_eq; [apply (wf_rt_token s Hwf)|..]; congruence).
    apply String.eqb_refl.
  - intros x. simpl. rewrite filter_In. unfold prisma.refreshToken.by_id.
    split.
    + intros [Hx Hid]. split; [assumption|]. intros ->.
      now rewrite String.eqb_refl in Hid.
    + intros [Hx Hne]. split; [assumption|].
      destruct (String.eqb_spec (RefreshToken.id x) (RefreshToken.id r))
        as [Hid|]; [|reflexivity].
      exfalso. apply Hne.
      eapply NoDup_map_eq; [apply (wf_rt_id s Hwf)|..]; assumption.
Qed.


Lemma refreshAccessToken_expired (s : Store) (now : Z) (tok : string)
    (r : RefreshToken.t) :
  is_Some (AuthService.verifyRefreshToken cfg tok now) ->
  rt_find tok s = Some r -> (RefreshToken.expiresAt r < now)%Z ->
  AuthService.refreshAccessToken cfg tok now s
  = (Ok None, rt_without_id (RefreshToken.id r) s).
Proof.
  intros [p Hv] Hrow Hexp. unfold AuthService.refreshAccessToken.
  rewrite Hv. unfold bind, prisma.refreshToken.findUnique_token_include_user.
  rewrite Hrow. apply Z.ltb_lt in Hexp. rewrite Hexp.
  unfold prisma.refreshToken.delete_id.
  apply find_some in Hrow as [Hin _].
  assert (existsb (prisma.refreshToken.by_id (RefreshToken.id r))
            (refreshTokens s) = true) as ->; [|reflexivity].
  apply existsb_exists. exists r. split; [assumption|].
  apply String.eqb_refl.
Qed.

Lemma refreshAccessToken_valid (s : Store) (now : Z) (tok : string)
    (r : RefreshToken.t) (u : User.t) :
  is_Some (AuthService.verifyRefreshToken cfg tok now) ->
  rt_find tok s = Some r -> (now <= RefreshToken.expiresAt r)%Z ->
  List.find (prisma.user.by_id (RefreshToken.userId r)) (users s) = Some u ->
  AuthService.refreshAccessToken cfg tok now s
  = (Ok (Some (AuthService.generateAccessToken cfg
                 (JWTPayload.mk (User.id u) (User.email u) (User.role u))
                 now)), s).
Proof.
  intros [p Hv] Hrow Hexp Hu. unfold AuthService.refreshAccessToken.
  rewrite Hv. unfold bind, prisma.refreshToken.findUnique_token_include_user.
  rewrite Hrow, Hu.
  destruct (Z.ltb_spec (RefreshToken.expiresAt r) now); [lia | reflexivity].
Qed.

End RefreshAccessToken.

(** C1, as amended. [refreshAccessToken] on a store that satisfies the
    unique indexes. A token that does not verify, a token that has no row,
    and a token whose row is past its stored expiry all give [null] without
    a throw. The signature is checked first: a token that does not verify
    leaves the store as it is, whatever rows it has; when the token
    verifies and its row is past its stored expiry, exactly the found row
    is deleted, and a later call with the same token gives [null] again. A
    token that verifies and has an unexpired row gives an access token
    signed for the id, email and role of the user row that the store holds
    for the row's [userId] now (the foreign key of the schema makes sure
    there is one); the claims carried by the refresh token are not used. *)
Theorem refreshAccessToken_cases `{External} (cfg : Config) (s : Store)
    (now : Z) (tok : string) (Hwf : wf s) :
  let call := AuthService.refreshAccessToken cfg tok now s in
  let found := List.find (prisma.refreshToken.by_token tok) (refreshTokens s) in
  (AuthService.verifyRefreshToken cfg tok now = None -> call = (Ok None, s))
  /\ (found = None -> call = (Ok None, s))
  /\ (forall r, found = Some r -> (RefreshToken.expiresAt r < now)%Z ->
                fst call = Ok None)
  /\ (forall r,
        is_Some (AuthService.verifyRefreshToken cfg tok now) ->
        found = Some r -> (RefreshToken.expiresAt r < now)%Z ->
        fst call = Ok None
        /\ (forall x, In x (refreshTokens (snd call))
                      <-> In x (refreshTokens s) /\ x <> r)
        /\ users (snd call) = users s
        /\ forall now',
             AuthService.refreshAccessToken cfg tok now' (snd call)
             = (Ok None, snd call))
  /\ (forall r u,
        is_Some (AuthService.verifyRefreshToken cfg tok now) ->
        found = Some r -> (now <= RefreshToken.expiresAt r)%Z ->
        List.find (prisma.user.by_id (RefreshToken.userId r)) (users s)
        = Some u ->
        call = (Ok (Some (AuthService.generateAccessToken cfg
                            (JWTPayload.mk (User.id u) (User.email u)
                               (User.role u)) now)), s)).
Proof.
  intros call found. subst call found.
  split; [|split; [|split; [|split]]].
  - intros Hv. unfold AuthService.refreshAccessToken. now rewrite Hv.
  - apply refreshAccessToken_absent.
  - intros r Hrow Hexp.
    destruct (AuthService.verifyRefreshToken cfg tok now) as [p|] eqn:Hv.
    + now rewrite (refreshAccessToken_expired cfg s now tok r)
        by (rewrite ?Hv; eauto).
    + unfold AuthService.refreshAccessToken. now rewrite Hv.
  - intros r Hv Hrow Hexp.
    rewrite (refreshAccessToken_expired cfg s now tok r Hv Hrow Hexp).
    destruct (delete_found_row s tok r Hwf Hrow) as [Hgone Hrest].
    split; [reflexivity|]. split; [exact Hrest|]. split; [reflexivity|].
    intros now'. now apply refreshAccessToken_absent.
  - intros r u. apply refreshAccessToken_valid.
Qed.

(** The four cases of [refreshAccessToken_cases] on the sample store:
    ["garbage"] does not verify, ["R:u1@z"] verifies and has no row,
    ["R:u1@b"] has a row that expired at 100, ["R:u1@a"] has a row that
    is good until 5000. *)
Lemma refreshAccessToken_cases_witness :
  wf Sample.store
  /\ AuthService.refreshAccessToken (H := Sample.libs) (Sample.cfg "test") "garbage" 1000
       Sample.store = (Ok None, Sample.store)
  /\ AuthService.refreshAccessToken (H := Sample.libs) (Sample.cfg "test") "R:u1@z" 1000
       Sample.store = (Ok None, Sample.store)
  /\ fst (AuthService.refreshAccessToken (H := Sample.libs) (Sample.cfg "test") "R:u1@b" 1000
            Sample.store) = Ok None
  /\ AuthService.refreshAccessToken (H := Sample.libs) (Sample.cfg "test") "R:u1@a" 1000
       Sample.store
     = (Ok (Some (AuthService.generateAccessToken (H := Sample.libs) (Sample.cfg "test")
                    (JWTPayload.mk "u1" "alice@example.com" "CLIENT") 1000)),
        Sample.store).
Proof.
  pose proof wf_sample as Hwf.
  split; [exact Hwf|].
  destruct (refreshAccessToken_cases (H := Sample.libs) (Sample.cfg "test")
              Sample.store 1000 "garbage" Hwf) as (Hbad & _).
  destruct (refreshAccessToken_cases (H := Sample.libs) (Sample.cfg "test")
              Sample.store 1000 "R:u1@z" Hwf) as (_ & Habsent & _).
  destruct (refreshAccessToken_cases (H := Sample.libs) (Sample.cfg "test")
              Sample.store 1000 "R:u1@b" Hwf) as (_ & _ & _ & Hstale & _).
  destruct (refreshAccessToken_cases (H := Sample.libs) (Sample.cfg "test")
              Sample.store 1000 "R:u1@a" Hwf) as (_ & _ & _ & _ & Hlive).
  split; [apply Hbad; reflexivity|].
  split; [apply Habsent; reflexivity|].
  split.
  - apply (Hstale (Sample.row "r2" "R:u1@b" "u1" 100));
      [eexists; reflexivity | reflexivity | reflexivity].
  - apply (Hlive (Sample.row "r1" "R:u1@a" "u1" 5000) Sample.alice);
      [eexists; reflexivity | reflexivity | discriminate | reflexivity].
Defined.

(** C1 as stated fails: a row whose stored expiry, 100, has passed at 1000
    and whose token jsonwebtoken does not verify any more. The call
    returns [null] at the signature check and the row is still stored,
    also after a second call. *)
Lemma refreshAccessToken_unverified_row_stays :
  let stale := Sample.row "r7" "expired-jwt" "u1" 100 in
  let s := mkStore [Sample.alice] [stale] [] [] in
  let call :=
    AuthService.refreshAccessToken (H := Sample.libs) (Sample.cfg "test")
      "expired-jwt" 1000 in
  wf s
  /\ List.find (prisma.refreshToken.by_token "expired-jwt") (refreshTokens s)
     = Some stale
  /\ (RefreshToken.expiresAt stale < 1000)%Z
  /\ call s = (Ok None, s)
  /\ refreshTokens (snd (call (snd (call s)))) = [stale].
Proof.
  intros stale s call. split; [subst s stale; wf_by_computation|].
  repeat split.
Qed.

(** ** Issuing and revoking refresh tokens *)

Section Sessions.
Context `{External} (cfg : Config).

Local Abbreviation rt_find tok s :=
  (List.find (prisma.refreshToken.by_token tok) (refreshTokens s)).

(** The row that [generateTokenPair] stores. *)
Local Abbreviation session_row amb tok uid :=
  (RefreshToken.mk (new_token_id amb) tok uid
     (now amb + 7 * 24 * 60 * 60 * 1000) (now amb)).

Lemma generateTokenPair_inv (uid em ro : string) (amb : Ambient)
    (s s' : Store) (p : TokenPair) :
  AuthService.generateTokenPair cfg uid em ro amb s = (Ok p, s') ->
  p = mkTokenPair
        (AuthService.generateAccessToken cfg (JWTPayload.mk uid em ro) (now amb))
        (AuthService.generateRefreshToken cfg (JWTPayload.mk uid em ro) (now amb))
  /\ existsb (prisma.refreshToken.by_id (new_token_id amb)) (refreshTokens s)
     = false
  /\ existsb (prisma.refreshToken.by_token (refreshToken p)) (refreshTokens s)
     = false
  /\ s' = set_refreshTokens
            (fun l => (l ++ [session_row amb (refreshToken p) uid])%list) s.
Proof.
  unfold AuthService.generateTokenPair, bind, prisma.refreshToken.create.
  cbn [RefreshToken.id RefreshToken.token].
  destruct (existsb (prisma.refreshToken.by_id _) _) eqn:Eid;
    [discriminate|].
  destruct (existsb (prisma.refreshToken.by_token _) _) eqn:Etok;
    [discriminate|].
  unfold ret. intros [= <- <-]. auto.
Qed.

Lemma generateTokenPair_fresh (uid em ro : string) (amb : Ambient) (s : Store) :
  existsb (prisma.refreshToken.by_id (new_token_id amb)) (refreshTokens s)
  = false ->
  existsb (prisma.refreshToken.by_token
             (AuthService.generateRefreshToken cfg (JWTPayload.mk uid em ro)
                (now amb))) (refreshTokens s) = false ->
  AuthService.generateTokenPair cfg uid em ro amb s
  = (Ok (mkTokenPair
           (AuthService.generateAccessToken cfg (JWTPayload.mk uid em ro)
              (now amb))
           (AuthService.generateRefreshToken cfg (JWTPayload.mk uid em ro)
              (now amb))),
     set_refreshTokens
       (fun l => (l ++ [session_row amb
                          (AuthService.generateRefreshToken cfg
                             (JWTPayload.mk uid em ro) (now amb)) uid])%list)
       s).
Proof.
  intros Hid Htok.
  unfold AuthService.generateTokenPair, bind, prisma.refreshToken.create.
  cbn [RefreshToken.id RefreshToken.token]. now rewrite Hid, Htok.
Qed.

Lemma revokeRefreshToken_when_eq (down : bool) (tok : string) (s : Store) :
  AuthService.revokeRefreshToken_when down tok s
  = if down || negb (existsb (prisma.refreshToken.by_token tok)
                       (refreshTokens s))
    then (Ok false, s)
    else (Ok true,
          set_refreshTokens
            (List.filter (fun r => negb (prisma.refreshToken.by_token tok r)))
            s).
Proof.
  unfold AuthService.revokeRefreshToken_when, try_catch, bind, unreachable_if,
    prisma.refreshToken.delete_token.
  destruct down; [reflexivity|].
  now destruct (existsb _ _).
Qed.

Lemma revokeAllUserTokens_when_eq (down : bool) (uid : string) (s : Store) :
  AuthService.revokeAllUserTokens_when down uid s
  = if down then (Ok false, s)
    else (Ok true,
          set_refreshTokens
            (List.filter (fun r => negb (prisma.refreshToken.by_userId uid r)))
            s).
Proof.
  unfold AuthService.revokeAllUserTokens_when, try_catch, bind, unreachable_if,
    prisma.refreshToken.deleteMany_userId.
  now destruct down.
Qed.

(** What [refreshAccessToken] answers for a token depends on the row found
    for that token and on the user table only. *)
Lemma refreshAccessToken_answer_ext (tok : string) (t : Z) (sa sb : Store) :
  rt_find tok sa = rt_find tok sb -> users sa = users sb ->
  fst (AuthService.refreshAccessToken cfg tok t sa)
  = fst (AuthService.refreshAccessToken cfg tok t sb).
Proof.
  intros Hrow Hus. unfold AuthService.refreshAccessToken.
  destruct (AuthService.verifyRefreshToken cfg tok t); [|reflexivity].
  unfold bind, prisma.refreshToken.findUnique_token_include_user.
  rewrite Hrow, Hus.
  destruct (rt_find tok sb) as [r|] eqn:Hr; [|reflexivity].
  destruct (RefreshToken.expiresAt r <? t)%Z.
  - unfold prisma.refreshToken.delete_id.
    assert (Hin : forall s0, rt_find tok s0 = Some r ->
              existsb (prisma.refreshToken.by_id (RefreshToken.id r))
                (refreshTokens s0) = true).
    { intros s0 Hs0. apply find_some in Hs0 as [Hs0 _].
      apply existsb_exists. exists r. split; [assumption|].
      apply String.eqb_refl. }
    rewrite (Hin sa) by congruence. now rewrite (Hin sb) by assumption.
  - now destruct (List.find _ (users sb)).
Qed.

Lemma revoke_one_frame (ta tb : string) (s : Store) :
  ta <> tb ->
  rt_find tb
    (set_refreshTokens
       (List.filter (fun r => negb (prisma.refreshToken.by_token ta r))) s)
  = rt_find tb s.
Proof.
  intros Hne. simpl. apply find_filter_keep. intros x _ Hb.
  unfold prisma.refreshToken.by_token in *. apply String.eqb_eq in Hb.
  apply String.eqb_neq. congruence.
Qed.

Lemma revoke_all_gone (uid tok : string) (t : Z) (s : Store) :
  (forall r, In r (refreshTokens s) -> RefreshToken.token r = tok ->
             RefreshToken.userId r = uid) ->
  let s' := set_refreshTokens
              (List.filter
                 (fun r => negb (prisma.refreshToken.by_userId uid r))) s in
  AuthService.refreshAccessToken cfg tok t s' = (Ok None, s').
Proof.
  intros Hown s'. apply refreshAccessToken_absent. subst s'. simpl.
  apply find_filter_gone. intros x Hx Hb.
  unfold prisma.refreshToken.by_token in Hb. apply String.eqb_eq in Hb.
  unfold prisma.refreshToken.by_userId. apply String.eqb_eq. auto.
Qed.

End Sessions.

(** Two token pairs issued one after the other for the same user, both
    issuances having returned.
    The two refresh tokens differ and each has its own row, owned by the
    user and good for seven days from its issue. Revoking the first returns
    [true], removes the row of that token and no other: every other token
    is looked up as before and gets the same answer from
    [refreshAccessToken] as before, so the second token, while it verifies
    and its stored expiry has not passed, still yields an access token.
    After [revokeAllUserTokens], [refreshAccessToken] answers [null] for
    every token whose rows belonged to the user, the two issued ones
    included. *)
Lemma two_issued_token_pairs `{External} (cfg : Config) (uid em ro : string)
    (amb1 amb2 : Ambient) (s s1 s2 : Store) (p1 p2 : TokenPair) :
  AuthService.generateTokenPair cfg uid em ro amb1 s = (Ok p1, s1) ->
  AuthService.generateTokenPair cfg uid em ro amb2 s1 = (Ok p2, s2) ->
  let t1 := refreshToken p1 in
  let t2 := refreshToken p2 in
  let find_row t st :=
    List.find (prisma.refreshToken.by_token t) (refreshTokens st) in
  let week := (7 * 24 * 60 * 60 * 1000)%Z in
  t1 <> t2
  /\ find_row t1 s2
     = Some (RefreshToken.mk (new_token_id amb1) t1 uid (now amb1 + week)
               (now amb1))
  /\ find_row t2 s2
     = Some (RefreshToken.mk (new_token_id amb2) t2 uid (now amb2 + week)
               (now amb2))
  /\ (exists s3,
        AuthService.revokeRefreshToken t1 s2 = (Ok true, s3)
        /\ find_row t1 s3 = None
        /\ (forall t, t <> t1 -> find_row t s3 = find_row t s2)
        /\ (forall t t', t <> t1 ->
              fst (AuthService.refreshAccessToken cfg t t' s3)
              = fst (AuthService.refreshAccessToken cfg t t' s2))
        /\ (forall t' u,
              is_Some (AuthService.verifyRefreshToken cfg t2 t') ->
              (t' <= now amb2 + week)%Z ->
              List.find (prisma.user.by_id uid) (users s) = Some u ->
              AuthService.refreshAccessToken cfg t2 t' s3
              = (Ok (Some (AuthService.generateAccessToken cfg
                             (JWTPayload.mk (User.id u) (User.email u)
                                (User.role u)) t')), s3)))
  /\ (exists s4,
        AuthService.revokeAllUserTokens uid s2 = (Ok true, s4)
        /\ (forall t t',
              (forall r, In r (refreshTokens s2) ->
                         RefreshToken.token r = t ->
                         RefreshToken.userId r = uid) ->
              AuthService.refreshAccessToken cfg t t' s4 = (Ok None, s4))
        /\ (forall t', AuthService.refreshAccessToken cfg t1 t' s4
                       = (Ok None, s4))
        /\ (forall t', AuthService.refreshAccessToken cfg t2 t' s4
                       = (Ok None, s4))).
Proof.
  intros G1 G2 t1 t2 find_row week.
  apply generateTokenPair_inv in G1 as (_ & _ & Hf1 & ->).
  apply generateTokenPair_inv in G2 as (_ & _ & Hf2 & ->).
  fold t1 in Hf1 |- *. fold t2 in Hf2 |- *. simpl in Hf2.
  rewrite existsb_app_one in Hf2. apply orb_false_iff in Hf2 as [Hf2 Hne].
  unfold prisma.refreshToken.by_token in Hne. simpl in Hne.
  apply String.eqb_neq in Hne. change (t1 <> t2) in Hne. clearbody t1 t2.
  assert (Hb : forall a b, prisma.refreshToken.by_token a
                 (RefreshToken.mk (new_token_id amb1) b uid
                    (now amb1 + week) (now amb1)) = String.eqb b a)
    by reflexivity.
  assert (Hb' : forall a b, prisma.refreshToken.by_token a
                  (RefreshToken.mk (new_token_id amb2) b uid
                     (now amb2 + week) (now amb2)) = String.eqb b a)
    by reflexivity.
  assert (Hrow1 : find_row t1
            (set_refreshTokens (fun l => (l ++ [RefreshToken.mk
               (new_token_id amb2) t2 uid (now amb2 + week) (now amb2)])%list)
            (set_refreshTokens (fun l => (l ++ [RefreshToken.mk
               (new_token_id amb1) t1 uid (now amb1 + week) (now amb1)])%list)
             s))
          = Some (RefreshToken.mk (new_token_id amb1) t1 uid
                    (now amb1 + week) (now amb1))).
  { unfold find_row. simpl. rewrite find_app_old.
    - apply find_app_fresh; [assumption|]. rewrite Hb. apply String.eqb_refl.
    - rewrite Hb'. apply String.eqb_neq. congruence. }
  assert (Hrow2 : find_row t2
            (set_refreshTokens (fun l => (l ++ [RefreshToken.mk
               (new_token_id amb2) t2 uid (now amb2 + week) (now amb2)])%list)
            (set_refreshTokens (fun l => (l ++ [RefreshToken.mk
               (new_token_id amb1) t1 uid (now amb1 + week) (now amb1)])%list)
             s))
          = Some (RefreshToken.mk (new_token_id amb2) t2 uid
                    (now amb2 + week) (now amb2))).
  { unfold find_row. simpl. apply find_app_fresh.
    - rewrite existsb_app_one, Hf2, Hb. simpl. apply String.eqb_neq. congruence.
    - rewrite Hb'. apply String.eqb_refl. }
  set (s2 := set_refreshTokens _ (set_refreshTokens _ s)) in *.
  assert (Hown : forall t, t = t1 \/ t = t2 ->
            forall r, In r (refreshTokens s2) -> RefreshToken.token r = t ->
                      RefreshToken.userId r = uid).
  { intros t Ht r Hin Htok. subst s2. simpl in Hin.
    rewrite !in_app_iff in Hin. simpl in Hin.
    destruct Hin as [[Hin|[<-|[]]]|[<-|[]]]; try reflexivity.
    exfalso.
    assert (existsb (prisma.refreshToken.by_token t) (refreshTokens s) = true)
      as Hex.
    { apply existsb_exists. exists r. split; [assumption|].
      unfold prisma.refreshToken.by_token. now apply String.eqb_eq. }
    destruct Ht as [-> | ->]; congruence. }
  split; [congruence|]. split; [exact Hrow1|]. split; [exact Hrow2|]. split.
  - eexists. unfold AuthService.revokeRefreshToken.
    rewrite revokeRefreshToken_when_eq.
    rewrite (find_some_existsb _ _ _ Hrow1). simpl. split; [reflexivity|].
    assert (Hframe : forall t, t <> t1 ->
              find_row t (set_refreshTokens (List.filter (fun r =>
                            negb (prisma.refreshToken.by_token t1 r))) s2)
              = find_row t s2).
    { intros t Ht. apply revoke_one_frame. congruence. }
    split; [|split; [exact Hframe|split]].
    + unfold find_row. simpl. apply find_filter_gone. auto.
    + intros t t' Ht. apply refreshAccessToken_answer_ext;
        [now apply Hframe | reflexivity].
    + intros t' u Hv Hexp Hu.
      apply (refreshAccessToken_valid cfg _ t' t2
               (RefreshToken.mk (new_token_id amb2) t2 uid (now amb2 + week)
                  (now amb2)) u Hv); [|exact Hexp|exact Hu].
      unfold find_row in Hframe. rewrite Hframe by congruence. exact Hrow2.
  - eexists. unfold AuthService.revokeAllUserTokens.
    rewrite revokeAllUserTokens_when_eq. split; [reflexivity|].
    split; [|split].
    + intros t t' Ht. now apply revoke_all_gone.
    + intros t'. apply revoke_all_gone. apply Hown. now left.
    + intros t'. apply revoke_all_gone. apply Hown. now right.
Qed.

(** C5, as amended. Two token pairs issued one after the other for the
    same user, the second refresh token being another string than the
    first (jsonwebtoken signs the same string for the same user within one
    clock second), with generated row ids that differ and neither the ids
    nor the tokens stored before. Both issuances return. Each token has
    its own row, owned by the user and good for seven days from its issue.
    Revoking the first returns [true], removes the row of that token and
    no other: every other token is looked up as before and gets the same
    answer from [refreshAccessToken] as before, so the second token, while
    it verifies and its stored expiry has not passed, still yields an
    access token. After [revokeAllUserTokens], [refreshAccessToken]
    answers [null] for every token whose rows belonged to the user, the
    two issued ones included. *)
Theorem two_token_pairs `{External} (cfg : Config) (uid em ro : string)
    (amb1 amb2 : Ambient) (s : Store) :
  let payload := JWTPayload.mk uid em ro in
  let t1 := AuthService.generateRefreshToken cfg payload (now amb1) in
  let t2 := AuthService.generateRefreshToken cfg payload (now amb2) in
  let find_row t st :=
    List.find (prisma.refreshToken.by_token t) (refreshTokens st) in
  let week := (7 * 24 * 60 * 60 * 1000)%Z in
  t1 <> t2 ->
  new_token_id amb1 <> new_token_id amb2 ->
  existsb (prisma.refreshToken.by_id (new_token_id amb1)) (refreshTokens s)
  = false ->
  existsb (prisma.refreshToken.by_id (new_token_id amb2)) (refreshTokens s)
  = false ->
  existsb (prisma.refreshToken.by_token t1) (refreshTokens s) = false ->
  existsb (prisma.refreshToken.by_token t2) (refreshTokens s) = false ->
  exists p1 s1 p2 s2,
    AuthService.generateTokenPair cfg uid em ro amb1 s = (Ok p1, s1)
    /\ AuthService.generateTokenPair cfg uid em ro amb2 s1 = (Ok p2, s2)
    /\ refreshToken p1 = t1
    /\ refreshToken p2 = t2
    /\ find_row t1 s2
       = Some (RefreshToken.mk (new_token_id amb1) t1 uid (now amb1 + week)
                 (now amb1))
    /\ find_row t2 s2
       = Some (RefreshToken.mk (new_token_id amb2) t2 uid (now amb2 + week)
                 (now amb2))
    /\ (exists s3,
          AuthService.revokeRefreshToken t1 s2 = (Ok true, s3)
          /\ find_row t1 s3 = None
          /\ (forall t, t <> t1 -> find_row t s3 = find_row t s2)
          /\ (forall t t', t <> t1 ->
                fst (AuthService.refreshAccessToken cfg t t' s3)
                = fst (AuthService.refreshAccessToken cfg t t' s2))
          /\ (forall t' u,
                is_Some (AuthService.verifyRefreshToken cfg t2 t') ->
                (t' <= now amb2 + week)%Z ->
                List.find (prisma.user.by_id uid) (users s) = Some u ->
                AuthService.refreshAccessToken cfg t2 t' s3
                = (Ok (Some (AuthService.generateAccessToken cfg
                               (JWTPayload.mk (User.id u) (User.email u)
                                  (User.role u)) t')), s3)))
    /\ (exists s4,
          AuthService.revokeAllUserTokens uid s2 = (Ok true, s4)
          /\ (forall t t',
                (forall r, In r (refreshTokens s2) ->
                           RefreshToken.token r = t ->
                           RefreshToken.userId r = uid) ->
                AuthService.refreshAccessToken cfg t t' s4 = (Ok None, s4))
          /\ (forall t', AuthService.refreshAccessToken cfg t1 t' s4
                         = (Ok None, s4))
          /\ (forall t', AuthService.refreshAccessToken cfg t2 t' s4
                         = (Ok None, s4))).
Proof.
  intros payload t1 t2 find_row week Hne Hids Hid1 Hid2 Htok1 Htok2.
  pose proof (generateTokenPair_fresh cfg uid em ro amb1 s Hid1 Htok1) as G1.
  match type of G1 with _ = (Ok ?p, ?st) => set (p1 := p) in *;
                                           set (s1 := st) in * end.
  assert (G2 : exists p2 s2,
             AuthService.generateTokenPair cfg uid em ro amb2 s1 = (Ok p2, s2)
             /\ refreshToken p2 = t2).
  { assert (Hb2 : existsb (prisma.refreshToken.by_id (new_token_id amb2))
                    (refreshTokens s1) = false).
    { subst s1. simpl. rewrite existsb_app_one.
      apply orb_false_iff. split; [assumption|].
      unfold prisma.refreshToken.by_id. simpl. now apply String.eqb_neq. }
    assert (Ht2 : existsb (prisma.refreshToken.by_token t2)
                    (refreshTokens s1) = false).
    { subst s1. simpl. rewrite existsb_app_one.
      apply orb_false_iff. split; [assumption|].
      unfold prisma.refreshToken.by_token. simpl. now apply String.eqb_neq. }
    pose proof (generateTokenPair_fresh cfg uid em ro amb2 s1 Hb2 Ht2) as G2.
    eexists _, _. split; [exact G2|reflexivity]. }
  destruct G2 as (p2 & s2 & G2 & Hp2).
  exists p1, s1, p2, s2.
  split; [exact G1|]. split; [exact G2|]. split; [reflexivity|].
  split; [exact Hp2|].
  destruct (two_issued_token_pairs cfg uid em ro amb1 amb2 s s1 s2 p1 p2
              G1 G2) as (_ & Hr1 & Hr2 & Hrevoke & Hall).
  rewrite Hp2 in Hr2, Hrevoke, Hall.
  split; [exact Hr1|]. split; [exact Hr2|]. split; [exact Hrevoke|exact Hall].
Qed.

(** Two logins of the sample user, at 49 s and at 50 s: after the first
    refresh token is revoked, the second one is still exchanged for an
    access token at 60 s. *)
Lemma two_token_pairs_witness :
  let issue amb :=
    AuthService.generateTokenPair (H := Sample.libs) (Sample.cfg "test")
      "u1" "alice@example.com" "CLIENT" amb in
  exists p1 s1 p2 s2 s3,
    issue (Sample.amb 49000 "r3") Sample.store = (Ok p1, s1)
    /\ issue (Sample.amb 50000 "r4") s1 = (Ok p2, s2)
    /\ refreshToken p1 <> refreshToken p2
    /\ AuthService.revokeRefreshToken (refreshToken p1) s2 = (Ok true, s3)
    /\ AuthService.refreshAccessToken (H := Sample.libs) (Sample.cfg "test")
         (refreshToken p2) 60000 s3
       = (Ok (Some (AuthService.generateAccessToken (H := Sample.libs)
                      (Sample.cfg "test")
                      (JWTPayload.mk "u1" "alice@example.com" "CLIENT")
                      60000)), s3).
Proof.
  intros issue.
  destruct (two_token_pairs (H := Sample.libs) (Sample.cfg "test")
              "u1" "alice@example.com" "CLIENT"
              (Sample.amb 49000 "r3") (Sample.amb 50000 "r4")
              Sample.store ltac:(discriminate) ltac:(discriminate)
              eq_refl eq_refl eq_refl eq_refl)
    as (p1 & s1 & p2 & s2 & G1 & G2 & Hp1 & Hp2 & _ & _
        & (s3 & Hrev & _ & _ & _ & Huse) & _).
  exists p1, s1, p2, s2, s3.
  split; [exact G1|]. split; [exact G2|].
  split; [rewrite Hp1, Hp2; discriminate|].
  split; [rewrite Hp1; exact Hrev|]. rewrite Hp2.
  apply (Huse 60000%Z Sample.alice);
    [eexists; reflexivity | discriminate | reflexivity].
Defined.

(** A second issuance for the same user at the clock reading of the first
    signs the same refresh token, whatever jsonwebtoken is: it throws on
    the unique index and stores no second row. *)
Lemma generateTokenPair_twice_at_once `{External} (cfg : Config)
    (uid em ro : string) (amb1 amb2 : Ambient) (s s1 : Store)
    (p1 : TokenPair) :
  AuthService.generateTokenPair cfg uid em ro amb1 s = (Ok p1, s1) ->
  now amb2 = now amb1 ->
  exists tg, AuthService.generateTokenPair cfg uid em ro amb2 s1
             = (Throw (P2002 tg), s1).
Proof.
  intros G1 Hnow. apply generateTokenPair_inv in G1 as (-> & _ & _ & ->).
  unfold AuthService.generateTokenPair, bind, prisma.refreshToken.create.
  cbn [RefreshToken.id RefreshToken.token refreshTokens set_refreshTokens
       refreshToken].
  destruct (existsb (prisma.refreshToken.by_id _) _); [eauto|].
  rewrite Hnow, existsb_app_one. unfold prisma.refreshToken.by_token at 2.
  cbn [RefreshToken.token]. rewrite String.eqb_refl, orb_true_r. eauto.
Qed.

(** C5 as stated fails: two issuances for the sample user at 49.0 s and
    49.4 s, in the same second. The first stores its row; the second signs
    the same token string, the unique index on the token refuses its row,
    and the call throws: there is one new row, not two. *)
Lemma second_token_pair_in_the_same_second_throws :
  let issue amb :=
    AuthService.generateTokenPair (H := Sample.libs) (Sample.cfg "test")
      "u1" "alice@example.com" "CLIENT" amb in
  let first := issue (Sample.amb 49000 "r3") Sample.store in
  let second := issue (Sample.amb 49400 "r4") (snd first) in
  option_map refreshToken
    (match fst first with Ok p => Some p | Throw _ => None end)
  = Some "R:u1@1"
  /\ second = (Throw (P2002 ["token"]), snd first)
  /\ map RefreshToken.id (refreshTokens (snd second)) = ["r1"; "r2"; "r3"].
Proof. repeat split. Qed.

(** C7, as amended. [revokeRefreshToken] returns [false], and leaves the
    store as it was, exactly when the store call fails or no row holds the
    token; otherwise it returns [true] and deletes the row of that token
    and no other. [revokeAllUserTokens] returns [false] only when the store
    call fails; otherwise it returns [true] and deletes the rows of the
    user, also when there is none. *)
Theorem revoke_results (down : bool) (token userId : string) (s : Store) :
  let held :=
    existsb (prisma.refreshToken.by_token token) (refreshTokens s) in
  let one := AuthService.revokeRefreshToken_when down token s in
  let all := AuthService.revokeAllUserTokens_when down userId s in
  fst one = Ok (negb down && held)
  /\ (forall r, In r (refreshTokens (snd one))
                <-> In r (refreshTokens s)
                    /\ (negb down && held = true ->
                        RefreshToken.token r <> token))
  /\ (negb down && held = false -> snd one = s)
  /\ fst all = Ok (negb down)
  /\ (forall r, In r (refreshTokens (snd all))
                <-> In r (refreshTokens s)
                    /\ (down = false -> RefreshToken.userId r <> userId))
  /\ (down = true -> snd all = s)
  /\ users (snd one) = users s /\ users (snd all) = users s
  /\ passwordResetTokens (snd one) = passwordResetTokens s
  /\ passwordResetTokens (snd all) = passwordResetTokens s.
Proof.
  intros held one all. subst one all.
  rewrite revokeRefreshToken_when_eq, revokeAllUserTokens_when_eq.
  fold held.
  assert (Hneq : forall a b, negb (String.eqb a b) = true <-> a <> b).
  { intros a b. rewrite negb_true_iff. apply String.eqb_neq. }
  destruct down; simpl.
  - repeat split; try tauto; intros; discriminate.
  - destruct held; simpl.
    + repeat split; try discriminate; try tauto.
      * apply filter_In in H. tauto.
      * apply filter_In in H. intros _. now apply Hneq.
      * intros [Hin Hne]. apply filter_In. split; [assumption|].
        apply Hneq. auto.
      * apply filter_In in H. tauto.
      * apply filter_In in H. intros _. now apply Hneq.
      * intros [Hin Hne]. apply filter_In. split; [assumption|].
        apply Hneq. auto.
    + repeat split; try discriminate; try tauto.
      * apply filter_In in H. tauto.
      * apply filter_In in H. intros _. now apply Hneq.
      * intros [Hin Hne]. apply filter_In. split; [assumption|].
        apply Hneq. auto.
Qed.

(** C7 as stated fails: the sample store holds no refresh token of user
    ["u9"], and [revokeAllUserTokens "u9"] returns [true]. *)
Lemma revokeAllUserTokens_no_row_true :
  List.filter (prisma.refreshToken.by_userId "u9") (refreshTokens Sample.store)
  = []
  /\ AuthService.revokeAllUserTokens "u9" Sample.store
     = (Ok true, Sample.store).
Proof. split; reflexivity. Qed.

(** A witness of [revoke_results]: a token that no row holds, and a user
    without rows. *)
Lemma revoke_results_witness :
  fst (AuthService.revokeRefreshToken_when false "nope" Sample.store)
  = Ok false
  /\ fst (AuthService.revokeAllUserTokens_when false "u9" Sample.store)
     = Ok true.
Proof.
  destruct (revoke_results false "nope" "u9" Sample.store)
    as (Hone & _ & _ & Hall & _).
  split; [exact Hone | exact Hall].
Defined.

(** ** The two authentication middlewares *)

(** C6. [authenticate] ends the request with 401 and "Access token
    required" when there is no bearer token, with 401 and "Invalid or
    expired token" when the token does not verify, and with 401 and "User
    not found" when no user row has the id of the token; otherwise it calls
    [next()] with the id, email, first and last name, role and verified
    flag of that row attached. [optionalAuth] attaches the same identity in
    the last case and calls [next()] with the request untouched in the
    three others. Neither writes to the store. *)
Theorem auth_middleware `{External} (cfg : Config) (req : Request) (t : Z)
    (s : Store) :
  let required := authenticate cfg req t s in
  let optional := optionalAuth cfg req t s in
  (bearer (authorization req) = None ->
   required = (Ok (Respond (failure 401 "Access token required")), s)
   /\ optional = (Ok (Next req), s))
  /\ (forall token,
        bearer (authorization req) = Some token ->
        AuthService.verifyAccessToken cfg token t = None ->
        required = (Ok (Respond (failure 401 "Invalid or expired token")), s)
        /\ optional = (Ok (Next req), s))
  /\ (forall token payload,
        bearer (authorization req) = Some token ->
        AuthService.verifyAccessToken cfg token t = Some payload ->
        List.find (prisma.user.by_id (JWTPayload.userId payload)) (users s)
        = None ->
        required = (Ok (Respond (failure 401 "User not found")), s)
        /\ optional = (Ok (Next req), s))
  /\ (forall token payload u,
        bearer (authorization req) = Some token ->
        AuthService.verifyAccessToken cfg token t = Some payload ->
        List.find (prisma.user.by_id (JWTPayload.userId payload)) (users s)
        = Some u ->
        let identity :=
          ReqUser.mk (User.id u) (User.email u) (User.firstName u)
            (User.lastName u) (User.role u) (User.isEmailVerified u) in
        let req' := mkRequest (authorization req) (Some identity) (ip req) in
        required = (Ok (Next req'), s) /\ optional = (Ok (Next req'), s)).
Proof.
  intros required optional. subst required optional.
  unfold authenticate, optionalAuth, try_catch, bind,
    prisma.user.findUnique_id, ret.
  split; [|split; [|split]].
  - intros ->. split; reflexivity.
  - intros token -> ->. split; reflexivity.
  - intros token payload -> -> ->. split; reflexivity.
  - intros token payload u -> -> ->. split; reflexivity.
Qed.

(** The four cases of [auth_middleware] on the sample store, at 49 s. *)
Lemma auth_middleware_witness :
  let run auth :=
    authenticate (H := Sample.libs) (Sample.cfg "test") (Sample.request auth)
      49000 Sample.store in
  run None = (Ok (Respond (failure 401 "Access token required")), Sample.store)
  /\ run (Some "Bearer garbage")
     = (Ok (Respond (failure 401 "Invalid or expired token")), Sample.store)
  /\ run (Some "Bearer A:u7@1")
     = (Ok (Respond (failure 401 "User not found")), Sample.store)
  /\ run (Some "Bearer A:u1@1")
     = (Ok (Next (mkRequest (Some "Bearer A:u1@1")
                    (Some (ReqUser.mk "u1" "alice@example.com" "Alice" "A"
                             "CLIENT" true))
                    (Some "10.0.0.1"))), Sample.store).
Proof.
  intros run. subst run.
  pose proof (fun auth =>
    auth_middleware (H := Sample.libs) (Sample.cfg "test")
      (Sample.request auth) 49000 Sample.store) as M. cbv zeta in M.
  split; [apply (M None); reflexivity|].
  split; [apply (M (Some "Bearer garbage")) with (token := "garbage");
          reflexivity|].
  split.
  - apply (M (Some "Bearer A:u7@1"))
      with (token := "A:u7@1") (payload := JWTPayload.mk "u7" "" "");
      reflexivity.
  - apply (M (Some "Bearer A:u1@1"))
      with (token := "A:u1@1") (payload := JWTPayload.mk "u1" "" "")
           (u := Sample.alice); reflexivity.
Defined.

(** ** What [errorHandler] makes of the errors of the routes *)

Lemma errorHandler_AppError (cfg : Config) (m : string) (c : Z) :
  truthy m = true -> c <> 0%Z -> c <> 500%Z ->
  errorHandler cfg (AppError m c []) = failure c m.
Proof.
  intros Hm H0 H500. unfold errorHandler. cbn.
  rewrite Hm.
  destruct (Z.eqb_spec c 0); [contradiction|].
  destruct (Z.eqb_spec c 500); [contradiction|].
  now rewrite andb_false_r.
Qed.

Lemma errorHandler_status (cfg : Config) (e : JsError) :
  status (errorHandler cfg e)
  = match e with
    | AppError _ c _ => if (c =? 0)%Z then 500%Z else c
    | PrismaClientKnownRequestError code _ _ =>
        if String.eqb code "P2002" then 409%Z
        else if String.eqb code "P2025" then 404%Z
        else if String.eqb code "P2003" then 400%Z
        else 500%Z
    | PrismaClientValidationError _ => 400%Z
    | TypeError _ => 500%Z
    | OtherError n _ sc _ =>
        if String.eqb n "MulterError" then 400%Z
        else if String.eqb n "ValidationError" then 400%Z
        else if String.eqb n "TokenExpiredError" then 401%Z
        else if String.eqb n "JsonWebTokenError" then 401%Z
        else match sc with
             | Some c => if (c =? 0)%Z then 500%Z else c
             | None => 500%Z
             end
    end.
Proof.
  unfold errorHandler. destruct e as [m c l|code tg m|m|m|n m sc l]; cbn.
  - now destruct (eq_env _ _ && _).
  - destruct (String.eqb code "P2002"); [now destruct (eq_env _ _ && _)|].
    destruct (String.eqb code "P2025"); [now destruct (eq_env _ _ && _)|].
    destruct (String.eqb code "P2003"); now destruct (eq_env _ _ && _).
  - now destruct (eq_env _ _ && _).
  - now destruct (eq_env _ _ && _).
  - destruct (String.eqb n "JsonWebTokenError"),
             (String.eqb n "TokenExpiredError"),
             (String.eqb n "ValidationError"),
             (String.eqb n "MulterError"); cbn;
      now destruct (eq_env _ _ && _).
Qed.

Arguments errorHandler : simpl never.

(** ** Login *)


(** C3, as amended. A login request with an email that passes validation
    and a password that is a non-empty string, whose email matches no user
    or whose password bcrypt does not accept against the stored hash of the
    user it matches, is answered with status 401 and the body
    [{success: false, message: "Invalid email or password"}], the same in
    both cases, and the store is left as it was. *)
Theorem login_rejection_is_generic `{External} (cfg : Config)
    (b : LoginBody.t) (amb : Ambient) (s : Store) (p : string) :
  isEmail (LoginBody.email b) = true ->
  LoginBody.password b = JStr p ->
  p <> "" ->
  let found :=
    List.find (prisma.user.by_email (normalizeEmail (LoginBody.email b)))
      (users s) in
  (found = None
   \/ exists u, found = Some u
                /\ AuthService.comparePassword (LoginBody.password b)
                     (User.passwordHash u) = Ok false) ->
  asyncHandler cfg (Routes.login cfg b amb) s
  = (mkResponse 401
       [("success", JBool false);
        ("message", JStr "Invalid email or password")], s).
Proof.
  intros Hmail Hstr Hpw found Hcase. subst found.
  unfold asyncHandler, Routes.login, Routes.validate_login.
  rewrite Hmail, Hstr in *. apply String.eqb_neq in Hpw.
  unfold notEmpty, stringifies_empty, truthy. rewrite Hpw.
  cbn [check negb app]. unfold bind, prisma.user.findUnique_email.
  destruct Hcase as [-> | (u & -> & Hcmp)].
  - cbn. now rewrite errorHandler_AppError.
  - rewrite Hcmp. cbn. now rewrite errorHandler_AppError.
Qed.

(** The two cases of [login_rejection_is_generic] on the sample store: an
    email that nobody has, and the sample user's email with a wrong
    password. *)
Lemma login_rejection_is_generic_witness :
  let login b :=
    asyncHandler (Sample.cfg "production")
      (Routes.login (H := Sample.libs) (Sample.cfg "production") b
         (Sample.amb 49000 "r3")) Sample.store in
  login (LoginBody.mk "bob@example.com" (JStr "Abcdef12"))
  = login (LoginBody.mk "alice@example.com" (JStr "wrong"))
  /\ fst (login (LoginBody.mk "alice@example.com" (JStr "wrong")))
     = failure 401 "Invalid email or password".
Proof.
  intros login. subst login. cbv beta.
  rewrite (login_rejection_is_generic (H := Sample.libs)
             (Sample.cfg "production")
             (LoginBody.mk "bob@example.com" (JStr "Abcdef12"))
             (Sample.amb 49000 "r3") Sample.store "Abcdef12");
    [|reflexivity|reflexivity|discriminate|left; reflexivity].
  rewrite (login_rejection_is_generic (H := Sample.libs)
             (Sample.cfg "production")
             (LoginBody.mk "alice@example.com" (JStr "wrong"))
             (Sample.amb 49000 "r3") Sample.store "wrong");
    [|reflexivity|reflexivity|discriminate
     |right; exists Sample.alice; split; reflexivity].
  split; reflexivity.
Defined.

(** C3 as stated fails: the password [123], a number, passes [notEmpty()]
    with either email. With an email that nobody has the answer is the
    401; with the sample user's email bcryptjs rejects its argument and
    the answer is a 500, in production and elsewhere, so the two answers
    tell whether the email has an account. *)
Lemma login_number_password_tells_apart :
  let login env email :=
    fst (asyncHandler (Sample.cfg env)
           (Routes.login (H := Sample.libs) (Sample.cfg env)
              (LoginBody.mk email (JNum 123)) (Sample.amb 49000 "r3"))
           Sample.store) in
  Routes.validate_login (H := Sample.libs)
    (LoginBody.mk "bob@example.com" (JNum 123)) = []
  /\ Routes.validate_login (H := Sample.libs)
       (LoginBody.mk "alice@example.com" (JNum 123)) = []
  /\ List.find (prisma.user.by_email "bob@example.com") (users Sample.store)
     = None
  /\ List.find (prisma.user.by_email "alice@example.com")
       (users Sample.store) = Some Sample.alice
  /\ login "production" "bob@example.com"
     = failure 401 "Invalid email or password"
  /\ login "production" "alice@example.com"
     = failure 500 "Something went wrong"
  /\ login "development" "alice@example.com"
     = failure 500 "Illegal arguments: number, string".
Proof. repeat split. Qed.

(** ** Forgot password *)

(** C8, as amended. For an email that passes validation: when no user has
    it, the route answers 404 "User not found" and writes nothing; when a
    user has it (and the generated row id and uuid are new), the route
    stores a reset token for that user, good for one hour, and answers 200;
    the response carries the token exactly when [NODE_ENV] is
    ["development"], so it is absent in production and in every other
    environment. *)
Theorem forgotPassword_cases `{External} (cfg : Config) (email : string)
    (amb : Ambient) (s : Store) :
  isEmail email = true ->
  let found :=
    List.find (prisma.user.by_email (normalizeEmail email)) (users s) in
  let answer := asyncHandler cfg (Routes.forgotPassword cfg email amb) s in
  (found = None -> answer = (failure 404 "User not found", s))
  /\ (forall u,
        found = Some u ->
        existsb (prisma.passwordResetToken.by_id (new_token_id amb))
          (passwordResetTokens s) = false ->
        existsb (prisma.passwordResetToken.by_token (uuid amb))
          (passwordResetTokens s) = false ->
        status (fst answer) = 200%Z
        /\ field "success" (body (fst answer)) = Some (JBool true)
        /\ snd answer
           = set_passwordResetTokens
               (fun l => (l ++ [PasswordResetToken.mk (new_token_id amb)
                                  (uuid amb) (User.id u)
                                  (now amb + 60 * 60 * 1000) (now amb)])%list)
               s
        /\ field "resetToken" (body (fst answer))
           = (if eq_env (NODE_ENV cfg) "development"
              then Some (JStr (uuid amb)) else None)
        /\ (NODE_ENV cfg = Some "production" ->
            field "resetToken" (body (fst answer)) = None)).
Proof.
  intros Hmail found answer. subst found answer.
  unfold asyncHandler, Routes.forgotPassword. rewrite Hmail.
  cbn [check]. unfold bind, prisma.user.findUnique_email.
  split.
  - intros ->. cbn. now rewrite errorHandler_AppError.
  - intros u -> Hid Htok.
    unfold AuthService.generatePasswordResetToken, bind,
      prisma.passwordResetToken.create.
    cbn [PasswordResetToken.id PasswordResetToken.token].
    rewrite Hid, Htok. cbn.
    repeat split.
    + now destruct (eq_env (NODE_ENV cfg) "development").
    + intros ->. reflexivity.
Qed.

(** [forgotPassword_cases] for the sample user, in development. *)
Lemma forgotPassword_cases_witness :
  let answer :=
    asyncHandler (Sample.cfg "development")
      (Routes.forgotPassword (H := Sample.libs) (Sample.cfg "development")
         "alice@example.com" (Sample.amb 49000 "p2")) Sample.store in
  status (fst answer) = 200%Z
  /\ field "resetToken" (body (fst answer)) = Some (JStr "reset-2").
Proof.
  intros answer. subst answer.
  destruct (forgotPassword_cases (H := Sample.libs) (Sample.cfg "development")
              "alice@example.com" (Sample.amb 49000 "p2") Sample.store
              eq_refl) as [_ Hfound].
  destruct (Hfound Sample.alice eq_refl eq_refl eq_refl)
    as (Hst & _ & _ & Htok & _).
  split; [exact Hst | exact Htok].
Defined.

(** C8 as stated fails: with [NODE_ENV] set to ["test"], which is not a
    production build, the route answers 200 for the sample user and the
    response carries no reset token. *)
Lemma forgotPassword_test_build_hides_token :
  let cfg := Sample.cfg "test" in
  let answer :=
    asyncHandler cfg
      (Routes.forgotPassword (H := Sample.libs) cfg "alice@example.com"
         (Sample.amb 49000 "p2")) Sample.store in
  NODE_ENV cfg <> Some "production"
  /\ status (fst answer) = 200%Z
  /\ List.length (passwordResetTokens (snd answer)) = 2%nat
  /\ field "resetToken" (body (fst answer)) = None.
Proof. repeat split. discriminate. Qed.

(** ** Reset password *)

Section ResetPassword.
Context `{External} (cfg : Config).

Lemma verifyPasswordResetToken_live (tok : string) (t : Z) (s : Store)
    (r : PasswordResetToken.t) (u : option User.t) :
  List.find (prisma.passwordResetToken.by_token tok) (passwordResetTokens s)
  = Some r ->
  (t <= PasswordResetToken.expiresAt r)%Z ->
  List.find (prisma.user.by_id (PasswordResetToken.userId r)) (users s) = u ->
  AuthService.verifyPasswordResetToken tok t s = (Ok u, s).
Proof.
  intros Hr Hexp Hu.
  unfold AuthService.verifyPasswordResetToken, bind,
    prisma.passwordResetToken.findUnique_token_include_user.
  rewrite Hr, Hu.
  destruct (Z.ltb_spec (PasswordResetToken.expiresAt r) t); [lia|reflexivity].
Qed.

End ResetPassword.

(** The three calls of the reset route write to three different tables:
    the store they leave does not depend on the order in which they run. *)
Lemma reset_calls_commute (out : Outage) (uid tok hash : string) (t : Z)
    (s : Store) :
  let update :=
    unreachable_if (update_down out)
      (prisma.user.update uid (with_passwordHash hash t)) in
  let consume :=
    AuthService.consumePasswordResetToken_when (consume_down out) tok in
  let revoke := AuthService.revokeAllUserTokens_when (revoke_down out) uid in
  snd (promise_all3 update consume revoke s)
  = snd (promise_all3 revoke consume update s)
  /\ snd (promise_all3 update consume revoke s)
     = snd (promise_all3 consume revoke update s).
Proof.
  unfold promise_all3, unreachable_if, prisma.user.update,
    AuthService.consumePasswordResetToken_when,
    AuthService.revokeAllUserTokens_when, try_catch, bind, unreachable_if,
    prisma.passwordResetToken.delete_token,
    prisma.refreshToken.deleteMany_userId.
  destruct (List.find (prisma.user.by_id uid) (users s)) eqn:Eu;
    destruct (existsb (prisma.passwordResetToken.by_token tok)
                (passwordResetTokens s)) eqn:Et;
    destruct out as [[] [] []]; cbn;
    repeat (rewrite ?Eu, ?Et; cbn); split; reflexivity.
Qed.




(** ** The per-user rate limiter *)

Section RateLimiter.
Import RateLimit.
Variables maxRequests windowMs : Z.

Local Abbreviation step := (rateLimitByUser maxRequests windowMs).
Local Abbreviation steps := (run maxRequests windowMs).

Lemma key_cases (req : Request) :
  key req
  = match req_user req with
    | Some u =>
        if truthy (ReqUser.id u) then ReqUser.id u
        else match ip req with
             | Some a => if truthy a then a else "anonymous"
             | None => "anonymous"
             end
    | None =>
        match ip req with
        | Some a => if truthy a then a else "anonymous"
        | None => "anonymous"
        end
    end.
Proof.
  unfold key, js_or.
  destruct (req_user req) as [u|]; simpl;
    [destruct (truthy (ReqUser.id u)) eqn:Eu; [now rewrite Eu|]|];
    (destruct (ip req) as [a|]; [|reflexivity]);
    destruct (truthy a) eqn:Ea; now rewrite ?Ea.
Qed.

Lemma step_other_key (requests : gmap string Entry) (req : Request) (t : Z)
    (k : string) :
  key req <> k -> snd (step requests req t) !! k = requests !! k.
Proof.
  intros Hne. unfold rateLimitByUser.
  destruct (requests !! key req) as [e|]; simpl.
  - destruct (resetTime e <? t)%Z; simpl; [now rewrite lookup_insert_ne|].
    destruct (maxRequests <=? count e)%Z; simpl;
      [reflexivity | now rewrite lookup_insert_ne].
  - now rewrite lookup_insert_ne.
Qed.

(** A call inside the window of its key: refused when the count has reached
    [maxRequests], passed and counted otherwise. *)
Lemma step_in_window (requests : gmap string Entry) (req : Request) (t : Z)
    (c reset : Z) :
  requests !! key req = Some (mkEntry c reset) -> (t <= reset)%Z ->
  step requests req t
  = if (maxRequests <=? c)%Z
    then (TooMany (failure 429 "Too many requests"), requests)
    else (Pass, <[key req := mkEntry (c + 1) reset]> requests).
Proof.
  intros He Ht. unfold rateLimitByUser. rewrite He. simpl.
  destruct (Z.ltb_spec reset t); [lia|reflexivity].
Qed.

(** A call that finds no entry for its key, or an entry whose reset time
    has passed, opens a window. *)
Lemma step_opens_window (requests : gmap string Entry) (req : Request)
    (t : Z) :
  (forall e, requests !! key req = Some e -> (resetTime e < t)%Z) ->
  step requests req t
  = (Pass, <[key req := mkEntry 1 (t + windowMs)]> requests).
Proof.
  intros Hopen. unfold rateLimitByUser.
  destruct (requests !! key req) as [e|]; [|reflexivity].
  specialize (Hopen e eq_refl).
  destruct (Z.ltb_spec (resetTime e) t); [reflexivity|lia].
Qed.

(** Inside a window the count of the entry grows by the number of calls
    passed on, and never beyond [maxRequests] once it is below it. *)
Lemma steps_in_window (k : string) (reset : Z) (calls : list (Request * Z)) :
  forall (requests : gmap string Entry) (c : Z),
    requests !! k = Some (mkEntry c reset) ->
    within k reset calls ->
    snd (steps requests calls) !! k
    = Some (mkEntry (c + passed k calls (fst (steps requests calls))) reset)
    /\ (0 <= passed k calls (fst (steps requests calls)))%Z
    /\ (c + passed k calls (fst (steps requests calls))
        <= Z.max c maxRequests)%Z.
Proof.
  induction calls as [|[req t] calls IH]; intros requests c He Hin.
  - simpl. rewrite Z.add_0_r. repeat split; [assumption|lia..].
  - inversion Hin as [|? ? Ht Hin']; subst. simpl in Ht. simpl.
    destruct (step requests req t) as [v r1] eqn:Estep.
    destruct (steps r1 calls) as [vs r2] eqn:Erun. simpl.
    destruct (String.eqb_spec (key req) k) as [Hk|Hk].
    + specialize (Ht Hk). subst k.
      rewrite (step_in_window requests req t c reset He Ht) in Estep.
      destruct (Z.leb_spec maxRequests c).
      * injection Estep as <- <-. simpl.
        destruct (IH requests c He Hin') as (IH1 & IH2 & IH3).
        rewrite Erun in IH1, IH2, IH3. simpl in *.
        repeat split; [assumption|lia..].
      * injection Estep as <- <-. simpl.
        destruct (IH (<[key req := mkEntry (c + 1) reset]> requests) (c + 1)%Z
                    (lookup_insert_eq _ _ _) Hin') as (IH1 & IH2 & IH3).
        rewrite Erun in IH1, IH2, IH3. simpl in *.
        rewrite IH1. repeat split; [f_equal; f_equal; lia|lia..].
    + assert (Hr1 : r1 !! k = Some (mkEntry c reset)).
      { replace r1 with (snd (step requests req t)) by now rewrite Estep.
        now rewrite step_other_key. }
      destruct (IH r1 c Hr1 Hin') as (IH1 & IH2 & IH3).
      rewrite Erun in IH1, IH2, IH3. simpl in *.
      repeat split; [assumption|lia..].
Qed.

End RateLimiter.

(** C10, as amended. With [maxRequests] at least 1: a call that finds no
    entry for its key, or an entry whose reset time has passed, is passed
    on and opens a window with count 1 that ends [windowMs] later. Among
    any later calls, of this key and of others, in which those of this key
    arrive no later than the end of the window, the calls of this key that
    are passed on, the opening one included, number at most [maxRequests],
    and the entry holds that number. Once it is [maxRequests], a further
    call of the key inside the window gets 429 and leaves the map as it
    is; the first call of the key after the end of the window is passed on
    and opens a new window with count 1. *)
Theorem rate_limit_window (maxRequests windowMs : Z)
    (requests : gmap string RateLimit.Entry) (req : Request) (t : Z)
    (calls : list (Request * Z)) :
  (1 <= maxRequests)%Z ->
  let k := RateLimit.key req in
  (forall e, requests !! k = Some e -> (RateLimit.resetTime e < t)%Z) ->
  RateLimit.within k (t + windowMs) calls ->
  let first := RateLimit.rateLimitByUser maxRequests windowMs requests req t in
  let rest := RateLimit.run maxRequests windowMs (snd first) calls in
  let n := (1 + RateLimit.passed k calls (fst rest))%Z in
  fst first = RateLimit.Pass
  /\ snd first !! k = Some (RateLimit.mkEntry 1 (t + windowMs))
  /\ snd rest !! k = Some (RateLimit.mkEntry n (t + windowMs))
  /\ (1 <= n <= maxRequests)%Z
  /\ (forall req' t',
        RateLimit.key req' = k -> (t' <= t + windowMs)%Z ->
        RateLimit.rateLimitByUser maxRequests windowMs (snd rest) req' t'
        = if (n <? maxRequests)%Z
          then (RateLimit.Pass,
                <[k := RateLimit.mkEntry (n + 1) (t + windowMs)]> (snd rest))
          else (RateLimit.TooMany (failure 429 "Too many requests"),
                snd rest))
  /\ (forall req' t',
        RateLimit.key req' = k -> (t + windowMs < t')%Z ->
        RateLimit.rateLimitByUser maxRequests windowMs (snd rest) req' t'
        = (RateLimit.Pass,
           <[k := RateLimit.mkEntry 1 (t' + windowMs)]> (snd rest))).
Proof.
  intros Hmax k Hopen Hin first rest n.
  assert (Hfirst : first
            = (RateLimit.Pass,
               <[k := RateLimit.mkEntry 1 (t + windowMs)]> requests))
    by now apply step_opens_window.
  assert (H1 : snd first !! k = Some (RateLimit.mkEntry 1 (t + windowMs)))
    by (rewrite Hfirst; apply lookup_insert_eq).
  destruct (steps_in_window maxRequests windowMs k (t + windowMs) calls
              (snd first) 1%Z H1 Hin) as (Hn & Hpos & Hle).
  fold rest in Hn, Hpos, Hle. fold n in Hn, Hle.
  split; [now rewrite Hfirst|]. split; [exact H1|]. split; [exact Hn|].
  split; [unfold n; lia|]. split.
  - intros req' t' Hk Ht'. rewrite <- Hk in Hn |- *.
    rewrite (step_in_window _ _ _ req' t' n (t + windowMs) Hn Ht').
    destruct (Z.leb_spec maxRequests n), (Z.ltb_spec n maxRequests);
      try lia; reflexivity.
  - intros req' t' Hk Ht'. rewrite <- Hk in Hn |- *.
    apply step_opens_window. intros e He. rewrite Hn in He.
    injection He as <-. simpl. lia.
Qed.

(** A limit of two calls per second: of four calls from one address inside
    the window, the first two are passed on and the last two get 429; a
    call from another address in between is passed on. *)
Lemma rate_limit_window_witness :
  let a := Sample.request None in
  let b := mkRequest None None (Some "10.0.0.2") in
  let calls := [(a, 10%Z); (b, 20%Z); (a, 30%Z); (a, 1000%Z)] in
  let first := RateLimit.rateLimitByUser 2 1000 ∅ a 0 in
  let rest := RateLimit.run 2 1000 (snd first) calls in
  map RateLimit.is_pass (fst rest) = [true; true; false; false]
  /\ snd rest !! "10.0.0.1" = Some (RateLimit.mkEntry 2 1000)
  /\ fst (RateLimit.rateLimitByUser 2 1000 (snd rest) a 1001) = RateLimit.Pass.
Proof.
  intros a b calls first rest.
  assert (Hin : RateLimit.within (RateLimit.key a) (0 + 1000) calls).
  { subst calls. repeat constructor; simpl; intros; lia. }
  destruct (rate_limit_window 2 1000 ∅ a 0 calls ltac:(lia)
              ltac:(intros e He; rewrite lookup_empty in He; discriminate)
              Hin) as (_ & _ & Hn & _ & _ & Hnew).
  split; [reflexivity|]. split; [exact Hn|].
  fold first rest in Hnew. now rewrite (Hnew a 1001%Z eq_refl ltac:(lia)).
Defined.

(** C10 as stated fails for a limit of zero: the call that opens a window
    is passed on, so one call gets through in a window that allows none. *)
Lemma rate_limit_zero_passes_one :
  let a := Sample.request None in
  let calls := [(a, 0%Z); (a, 1%Z); (a, 2%Z)] in
  let verdicts := fst (RateLimit.run 0 1000 ∅ calls) in
  RateLimit.within (RateLimit.key a) 1000 calls
  /\ map RateLimit.is_pass verdicts = [true; false; false]
  /\ (RateLimit.passed (RateLimit.key a) calls verdicts > 0)%Z.
Proof.
  split; [repeat constructor; simpl; intros; lia|].
  split; reflexivity.
Qed.

(** ** Registration, then login *)

Section Registration.
Context `{External} (cfg : Config).

Lemma insert_rows_outcome (rows : list UserSkill.t) :
  forall s,
    match prisma.userSkill.insert_rows rows s with
    | (Ok _, s') => users s' = users s /\ refreshTokens s' = refreshTokens s
    | (Throw e, _) => exists tg, e = P2002 tg
    end.
Proof.
  induction rows as [|r rows IH]; intros s; simpl; [auto|].
  destruct (existsb _ _); [eauto|].
  destruct (existsb _ _); [eauto|].
  specialize (IH (set_userSkills (fun l => (l ++ [r])%list) s)).
  destruct (prisma.userSkill.insert_rows rows _) as [[ok|e] s']; auto.
Qed.

Lemma createMany_outcome (ids : nat -> string)
    (data : list (string * string)) (s : Store) :
  match prisma.userSkill.createMany ids data s with
  | (Ok _, s') => users s' = users s /\ refreshTokens s' = refreshTokens s
  | (Throw e, _) => exists tg, e = P2002 tg
  end.
Proof.
  unfold prisma.userSkill.createMany.
  pose proof (insert_rows_outcome (prisma.userSkill.rows_of ids 0 data) s).
  now destruct (prisma.userSkill.insert_rows _ s) as [[ok|e] s'].
Qed.

Lemma skill_rows_throws (uid : string) (l : list JSON) (e : JsError) :
  skill_rows uid l = Throw e -> exists m, e = TypeError m.
Proof.
  induction l as [|j l IH]; simpl; [discriminate|].
  destruct j; try (intros [= <-]; eauto).
  destruct (skill_rows uid l); [discriminate|].
  intros [= <-]. now apply IH.
Qed.

Lemma add_skills_outcome (role : string) (skills : option JSON)
    (uid : string) (ids : nat -> string) (s : Store) :
  match Routes.add_skills role skills uid ids s with
  | (Ok _, s') => users s' = users s /\ refreshTokens s' = refreshTokens s
  | (Throw e, _) => status (errorHandler cfg e) <> 201%Z
  end.
Proof.
  unfold Routes.add_skills.
  destruct skills as [[| | | | |l|]|]; try (simpl; auto).
  destruct (String.eqb role "FREELANCER"); [|simpl; auto].
  destruct (skill_rows uid l) as [rows|e] eqn:Erows.
  - pose proof (createMany_outcome ids rows s) as Hc.
    destruct (prisma.userSkill.createMany ids rows s) as [[ok|e] s']; auto.
    destruct Hc as [tg ->]. rewrite errorHandler_status. simpl. lia.
  - apply skill_rows_throws in Erows as [m ->]. simpl.
    rewrite errorHandler_status. lia.
Qed.

Lemma generateTokenPair_throws (uid em ro : string) (amb : Ambient)
    (s s' : Store) (e : JsError) :
  AuthService.generateTokenPair cfg uid em ro amb s = (Throw e, s') ->
  exists tg, e = P2002 tg.
Proof.
  unfold AuthService.generateTokenPair, bind, prisma.refreshToken.create.
  destruct (existsb _ _); [intros [= <- _]; eauto|].
  destruct (existsb _ _); [intros [= <- _]; eauto|].
  discriminate.
Qed.

Lemma userData_id (b : RegisterBody.t) (h : string) (amb : Ambient) :
  User.id (Routes.userData b h amb) = new_user_id amb.
Proof. reflexivity. Qed.

Lemma userData_email (b : RegisterBody.t) (h : string) (amb : Ambient) :
  User.email (Routes.userData b h amb) = normalizeEmail (RegisterBody.email b).
Proof. reflexivity. Qed.

Lemma userData_passwordHash (b : RegisterBody.t) (h : string) (amb : Ambient) :
  User.passwordHash (Routes.userData b h amb) = h.
Proof. reflexivity. Qed.

Lemma bind_ok {A B : Type} (m : M A) (k : A -> M B) (s s' : Store) (a : A) :
  m s = (Ok a, s') -> bind m k s = k a s'.
Proof. unfold bind. now intros ->. Qed.

Lemma bind_throw {A B : Type} (m : M A) (k : A -> M B) (s s' : Store)
    (e : JsError) :
  m s = (Throw e, s') -> bind m k s = (Throw e, s').
Proof. unfold bind. now intros ->. Qed.

(** The transaction of the register route: it inserts the user row, or
    throws and leaves the store as it was. *)
Lemma create_user_outcome (role : string) (skills : option JSON) (u : User.t)
    (ids : nat -> string) (s : Store) :
  match transaction
          (await newUser := prisma.user.create u in
           await_ Routes.add_skills role skills (User.id newUser) ids in
           ret newUser) s with
  | (Ok a, s1) =>
      a = u
      /\ existsb (prisma.user.by_id (User.id u)) (users s) = false
      /\ existsb (prisma.user.by_email (User.email u)) (users s) = false
      /\ users s1 = (users s ++ [u])%list
      /\ refreshTokens s1 = refreshTokens s
  | (Throw e, s1) => s1 = s /\ status (errorHandler cfg e) <> 201%Z
  end.
Proof.
  unfold transaction, bind, prisma.user.create.
  destruct (existsb (prisma.user.by_id _) _);
    [rewrite errorHandler_status; simpl; split; [reflexivity|lia]|].
  destruct (existsb (prisma.user.by_email _) _);
    [rewrite errorHandler_status; simpl; split; [reflexivity|lia]|].
  pose proof (add_skills_outcome role skills (User.id u) ids
                (set_users (fun l => (l ++ [u])%list) s)) as Hsk.
  destruct (Routes.add_skills _ _ _ _) as [[[]|e] s1]; [|auto].
  destruct Hsk as [Hus Hrt]. simpl in *. auto.
Qed.

(** What a completed registration has checked, written and answered; a
    registration that throws is never answered with 201. *)
Lemma register_outcome (b : RegisterBody.t) (amb : Ambient) (s : Store) :
  match Routes.register cfg b amb s with
  | (Ok resp, s1) =>
      let u :=
        Routes.userData b
          (AuthService.hashPassword cfg (RegisterBody.password b) (salt amb))
          amb in
      let payload := JWTPayload.mk (User.id u) (User.email u) (User.role u) in
      Routes.validate_register b = []
      /\ existsb (prisma.user.by_email (User.email u)) (users s) = false
      /\ existsb (prisma.user.by_id (User.id u)) (users s) = false
      /\ users s1 = (users s ++ [u])%list
      /\ refreshTokens s1
         = (refreshTokens s
            ++ [RefreshToken.mk (new_token_id amb)
                  (AuthService.generateRefreshToken cfg payload (now amb))
                  (User.id u) (now amb + 7 * 24 * 60 * 60 * 1000)
                  (now amb)])%list
      /\ resp
         = success 201 "User registered successfully"
             [("data",
               JObj [("user", JObj (select_registered u));
                     ("accessToken",
                      JStr (AuthService.generateAccessToken cfg payload
                              (now amb)));
                     ("refreshToken",
                      JStr (AuthService.generateRefreshToken cfg payload
                              (now amb)))])]
  | (Throw e, _) => status (errorHandler cfg e) <> 201%Z
  end.
Proof.
  unfold Routes.register.
  destruct (Routes.validate_register b) as [|m ms] eqn:V;
    [|unfold throw; rewrite errorHandler_status; simpl; lia].
  destruct (_ && negb (match RegisterBody.hourlyRate b with
                       | Some v => json_truthy v
                       | None => false
                       end));
    [unfold throw; rewrite errorHandler_status; simpl; lia|].
  destruct (_ && negb (some_truthy (RegisterBody.bio b)));
    [unfold throw; rewrite errorHandler_status; simpl; lia|].
  destruct (_ && negb (some_truthy _));
    [unfold throw; rewrite errorHandler_status; simpl; lia|].
  unfold bind at 1. unfold prisma.user.findUnique_email.
  destruct (List.find _ (users s)) as [existing|] eqn:F;
    [unfold throw; rewrite errorHandler_status; simpl; lia|].
  set (u := Routes.userData b _ amb).
  pose proof (create_user_outcome (RegisterBody.role b)
                (RegisterBody.skills b) u (new_skill_id amb) s) as Htx.
  destruct (transaction _ s) as [[a|e] s1] eqn:Etx.
  - destruct Htx as (-> & Hid & Hem & Hus & Hrt).
    rewrite (bind_ok _ _ _ _ _ Etx).
    destruct (AuthService.generateTokenPair cfg (User.id u) (User.email u)
                (User.role u) amb s1) as [[p|e] s2] eqn:G.
    + rewrite (bind_ok _ _ _ _ _ G).
      apply generateTokenPair_inv in G as (-> & _ & _ & ->). simpl.
      rewrite Hus, Hrt. repeat split; assumption.
    + rewrite (bind_throw _ _ _ _ _ G).
      apply generateTokenPair_throws in G as [tg ->].
      rewrite errorHandler_status. simpl. lia.
  - rewrite (bind_throw _ _ _ _ _ Etx). apply Htx.
Qed.



End Registration.




(** * Further properties of the code *)

(** ** The bearer header *)

Lemma substring_all (s : string) : String.substring 0 (String.length s) s = s.
Proof. induction s as [|a s IH]; simpl; [reflexivity|now rewrite IH]. Qed.

Lemma prefix_cons (a b : ascii) (p s : string) :
  String.prefix (String a p) (String b s) = true ->
  a = b /\ String.prefix p s = true.
Proof. simpl. destruct (ascii_dec a b); [auto|discriminate]. Qed.

Lemma bearer_inv (h t : string) :
  bearer (Some h) = Some t -> h = "Bearer " ++ t.
Proof.
  unfold bearer. destruct (truthy h && String.prefix "Bearer " h) eqn:E;
    [|discriminate].
  apply andb_true_iff in E as [_ E]. intros [= <-].
  do 7 (destruct h as [|? h]; [discriminate|];
        apply prefix_cons in E as [<- E]).
  simpl. rewrite Nat.sub_0_r. now rewrite substring_all.
Qed.

(** X1. The token that the middlewares verify is what follows the exact
    prefix "Bearer " of the header, whatever it is (the empty string
    included); [authenticate] answers "Access token required" exactly for
    the headers that do not have this form. *)
Theorem bearer_roundtrip `{External} (cfg : Config) (req : Request) (t : Z)
    (s : Store) :
  (forall tok, bearer (authorization req) = Some tok
               <-> authorization req = Some ("Bearer " ++ tok))
  /\ (fst (authenticate cfg req t s)
      = Ok (Respond (failure 401 "Access token required"))
      <-> forall tok, authorization req <> Some ("Bearer " ++ tok)).
Proof.
  assert (Hiff : forall tok, bearer (authorization req) = Some tok
                   <-> authorization req = Some ("Bearer " ++ tok)).
  { intros tok. split.
    - destruct (authorization req) as [h|]; [|discriminate].
      intros Hb. f_equal. now apply bearer_inv.
    - intros ->. unfold bearer. simpl.
      change (String.app "" tok) with tok.
      replace (String.prefix "" tok) with true by now destruct tok.
      now rewrite Nat.sub_0_r, substring_all. }
  split; [exact Hiff|].
  unfold authenticate, try_catch, bind, prisma.user.findUnique_id, ret.
  destruct (bearer (authorization req)) as [tok|] eqn:Hb.
  - split.
    + destruct (AuthService.verifyAccessToken cfg tok t); simpl;
        [destruct (List.find _ _); simpl|]; discriminate.
    + intros Hno. exfalso. apply (Hno tok). now apply Hiff.
  - split; [|reflexivity]. intros _ tok Hh. apply Hiff in Hh. congruence.
Qed.

(** ** The guards *)

Lemma existsb_eqb_In (x : string) (l : list string) :
  existsb (String.eqb x) l = true <-> In x l.
Proof.
  rewrite existsb_exists. split.
  - intros (y & Hin & Heq). apply String.eqb_eq in Heq. now subst.
  - intros Hin. exists x. split; [assumption|apply String.eqb_refl].
Qed.

(** X2. [authorize(roles)] lets a request through, unchanged, exactly when
    it carries an identity whose role is in the list; it answers 401
    without an identity and 403 otherwise. A list that is the
    concatenation of two lets through what either list lets through, so
    [freelancerOrClient] is the union of [freelancerOnly] and
    [clientOnly]. *)
Theorem authorize_decides (roles more : list string) (req : Request) :
  (authorize roles req = Next req
   <-> exists u, req_user req = Some u /\ In (ReqUser.role u) roles)
  /\ (forall req', authorize roles req = Next req' -> req' = req)
  /\ (req_user req = None ->
      authorize roles req = Respond (failure 401 "Authentication required"))
  /\ (forall u, req_user req = Some u -> ~ In (ReqUser.role u) roles ->
                authorize roles req
                = Respond (failure 403 "Insufficient permissions"))
  /\ (authorize (roles ++ more)%list req = Next req
      <-> authorize roles req = Next req \/ authorize more req = Next req)
  /\ (freelancerOrClient req = Next req
      <-> freelancerOnly req = Next req \/ clientOnly req = Next req).
Proof.
  assert (Hdec : forall l, authorize l req = Next req
                   <-> exists u, req_user req = Some u
                                 /\ In (ReqUser.role u) l).
  { intros l. unfold authorize. destruct (req_user req) as [u|].
    - destruct (existsb _ l) eqn:E.
      + apply existsb_eqb_In in E. split; eauto.
      + split; [discriminate|]. intros (u' & [= <-] & Hin).
        apply existsb_eqb_In in Hin. congruence.
    - split; [discriminate|]. intros (u & Hu & _). discriminate. }
  assert (Happ : forall l1 l2, authorize (l1 ++ l2)%list req = Next req
                   <-> authorize l1 req = Next req
                       \/ authorize l2 req = Next req).
  { intros l1 l2. rewrite !Hdec. split.
    - intros (u & Hu & Hin). apply in_app_iff in Hin as [Hin|Hin]; eauto.
    - intros [(u & Hu & Hin)|(u & Hu & Hin)]; exists u;
        (split; [assumption|apply in_app_iff; auto]). }
  split; [apply Hdec|]. split.
  { unfold authorize. destruct (req_user req); [destruct (existsb _ _)|];
      intros req' [= <-]; reflexivity. }
  split; [unfold authorize; now intros ->|]. split.
  { intros u Hu Hnot. unfold authorize. rewrite Hu.
    destruct (existsb _ roles) eqn:E; [|reflexivity].
    apply existsb_eqb_In in E. contradiction. }
  split; [apply Happ|]. apply (Happ ["FREELANCER"] ["CLIENT"]).
Qed.

(** X3. What the guards see after [authenticate] is the user row of the
    store, not the claims of the token: the role guard lets the request
    through exactly when the stored role is in the list, the verified
    guard exactly when the stored flag is set, and the ownership guard
    always, whatever the parameters and the resource. *)
Theorem guards_after_authenticate `{External} (cfg : Config) (req : Request)
    (t : Z) (s : Store) (token : string) (payload : JWTPayload.t)
    (u : User.t) :
  bearer (authorization req) = Some token ->
  AuthService.verifyAccessToken cfg token t = Some payload ->
  List.find (prisma.user.by_id (JWTPayload.userId payload)) (users s)
  = Some u ->
  exists req',
    authenticate cfg req t s = (Ok (Next req'), s)
    /\ (forall roles, authorize roles req' = Next req'
                      <-> In (User.role u) roles)
    /\ (verifiedOnly req' = Next req' <-> User.isEmailVerified u = true)
    /\ (forall resourceIdParam userIdField params,
          checkOwnership resourceIdParam userIdField params req' = Next req').
Proof.
  intros Hb Hv Hu. eexists. split.
  - unfold authenticate, try_catch, bind, prisma.user.findUnique_id, ret.
    now rewrite Hb, Hv, Hu.
  - split; [|split].
    + intros roles. unfold authorize. simpl.
      destruct (existsb _ roles) eqn:E.
      * apply existsb_eqb_In in E. tauto.
      * split; [discriminate|]. intros Hin. apply existsb_eqb_In in Hin.
        congruence.
    + unfold verifiedOnly. simpl.
      destruct (User.isEmailVerified u); split; congruence.
    + intros p f params. unfold checkOwnership. simpl.
      now destruct (String.eqb (User.role u) "ADMIN").
Qed.

(** The sample user, whose stored role is CLIENT, with a token whose claims
    name no role: [adminOnly] refuses, [clientOnly] lets through. *)
Lemma guards_after_authenticate_witness :
  exists req',
    authenticate (H := Sample.libs) (Sample.cfg "test")
      (Sample.request (Some "Bearer A:u1@1")) 49000 Sample.store
    = (Ok (Next req'), Sample.store)
    /\ adminOnly req' = Respond (failure 403 "Insufficient permissions")
    /\ clientOnly req' = Next req'
    /\ checkOwnership "id" "userId" [("id", "task-of-somebody-else")] req'
       = Next req'.
Proof.
  destruct (guards_after_authenticate (H := Sample.libs) (Sample.cfg "test")
              (Sample.request (Some "Bearer A:u1@1")) 49000 Sample.store
              "A:u1@1" (JWTPayload.mk "u1" "" "") Sample.alice
              eq_refl eq_refl eq_refl) as (req' & Hauth & _ & _ & Hown).
  exists req'. split; [exact Hauth|].
  injection Hauth as <-. split; [reflexivity|]. split; [reflexivity|].
  apply Hown.
Defined.

(** ** The error handler *)

Ltac split_conditions :=
  repeat match goal with
         | |- context [if ?b then _ else _] => destruct b eqn:?; cbn
         | |- context [match ?o with Some _ => _ | None => _ end] =>
             destruct o eqn:?; cbn
         | |- context [match ?l with [] => _ | _ :: _ => _ end] =>
             destruct l eqn:?; cbn
         end.

(** X4. Every answer of [errorHandler] says [success: false] and carries a
    message. In production an answer with status 500 is exactly
    [{success: false, message: "Something went wrong"}]: neither the
    message nor the [errors] of what was thrown get out. A
    [PrismaClientKnownRequestError] is answered with 400, 404, 409 or 500
    and its own message never gets out, in any environment. An error of
    another class, whose name is not one of the four that the handler
    knows, is answered with its own [statusCode] when it has one that is
    not 0, as body-parser's 413, and with 500 otherwise. *)
Theorem errorHandler_answers (cfg : Config) (e : JsError) :
  field "success" (body (errorHandler cfg e)) = Some (JBool false)
  /\ (exists m, field "message" (body (errorHandler cfg e)) = Some (JStr m))
  /\ (NODE_ENV cfg = Some "production" ->
      status (errorHandler cfg e) = 500%Z ->
      errorHandler cfg e = failure 500 "Something went wrong")
  /\ (forall code tg m,
        e = PrismaClientKnownRequestError code tg m ->
        In (status (errorHandler cfg e)) [400; 404; 409; 500]%Z
        /\ forall m',
             errorHandler cfg (PrismaClientKnownRequestError code tg m')
             = errorHandler cfg e)
  /\ (forall n m sc l,
        e = OtherError n m sc l ->
        ~ In n ["JsonWebTokenError"; "TokenExpiredError"; "ValidationError";
                "MulterError"] ->
        status (errorHandler cfg e)
        = match sc with
          | Some c => if (c =? 0)%Z then 500%Z else c
          | None => 500%Z
          end).
Proof.
  split; [|split; [|split; [|split]]].
  - unfold errorHandler. destruct e as [? ? ?|? ? ?|?|?|? ? [?|] ?]; cbn;
      split_conditions; reflexivity.
  - unfold errorHandler. destruct e as [? ? ?|? ? ?|?|?|? ? [?|] ?]; cbn;
      split_conditions; eauto.
  - intros Hprod. unfold errorHandler. rewrite Hprod.
    destruct e as [? ? ?|? ? ?|?|?|? ? [?|] ?]; cbn; split_conditions;
      intros Hs; try reflexivity; try discriminate;
      repeat match goal with
             | Hz : (_ =? _)%Z = true |- _ => apply Z.eqb_eq in Hz
             | Hz : (_ =? _)%Z = false |- _ => apply Z.eqb_neq in Hz
             end; try lia; subst; try reflexivity.
  - intros code tg m ->. split.
    + rewrite errorHandler_status. split_conditions; simpl; auto 10.
    + intros m'. unfold errorHandler. cbn. split_conditions; reflexivity.
  - intros n m sc l -> Hn. rewrite errorHandler_status.
    destruct (String.eqb_spec n "MulterError"); [exfalso; apply Hn; subst; simpl; auto 6|].
    destruct (String.eqb_spec n "ValidationError"); [exfalso; apply Hn; subst; simpl; auto 6|].
    destruct (String.eqb_spec n "TokenExpiredError"); [exfalso; apply Hn; subst; simpl; auto 6|].
    destruct (String.eqb_spec n "JsonWebTokenError"); [exfalso; apply Hn; subst; simpl; auto 6|].
    reflexivity.
Qed.

(** A store error with its own message, thrown in production, and a body
    that is too large, as body-parser reports it. *)
Lemma errorHandler_answers_witness :
  errorHandler (Sample.cfg "production")
    (PrismaClientKnownRequestError "P1234" None "relation users is locked")
  = failure 500 "Something went wrong"
  /\ status (errorHandler (Sample.cfg "production")
               (OtherError "PayloadTooLargeError" "request entity too large"
                  (Some 413%Z) []))
     = 413%Z.
Proof.
  destruct (errorHandler_answers (Sample.cfg "production")
              (PrismaClientKnownRequestError "P1234" None
                 "relation users is locked")) as (_ & _ & Hhide & _).
  destruct (errorHandler_answers (Sample.cfg "production")
              (OtherError "PayloadTooLargeError" "request entity too large"
                 (Some 413%Z) [])) as (_ & _ & _ & _ & Hown).
  split; [now apply Hhide|].
  apply (Hown _ _ _ _ eq_refl). simpl. intuition discriminate.
Defined.

(** ** The unique indexes are kept *)

Section KeepsWf.
Context {A B : Type}.
Implicit Types (f : A -> B) (p : A -> bool) (l : list A).



Lemma map_map_if f p (g : A -> A) l :
  (forall x, f (g x) = f x) ->
  map f (map (fun x => if p x then g x else x) l) = map f l.
Proof.
  intros Hg. induction l as [|x l IH]; simpl; [reflexivity|].
  rewrite IH. now destruct (p x); rewrite ?Hg.
Qed.

End KeepsWf.

Lemma existsb_false_neq {A : Type} (key : A -> string) (k : string)
    (l : list A) :
  existsb (fun x => String.eqb (key x) k) l = false ->
  forall y, In y l -> key y <> k.
Proof.
  intros Hex y Hin Heq.
  assert (existsb (fun x => String.eqb (key x) k) l = true) as Ht.
  { apply existsb_exists. exists y. split; [assumption|].
    now apply String.eqb_eq. }
  congruence.
Qed.





















Section HandlersKeepWf.
Context `{External} (cfg : Config).




End HandlersKeepWf.






(** ** The sweep of expired tokens *)

Section Sweep.
Context {A : Type}.
Implicit Types (p q : A -> bool) (l : list A).

Lemma filter_idem p l : List.filter p (List.filter p l) = List.filter p l.
Proof.
  induction l as [|x l IH]; simpl; [reflexivity|].
  destruct (p x) eqn:E; simpl; [rewrite E, IH|]; auto.
Qed.

Lemma filter_all p l :
  (forall x, In x l -> p x = true) -> List.filter p l = l.
Proof.
  induction l as [|x l IH]; simpl; intros Hall; [reflexivity|].
  rewrite (Hall x (or_introl eq_refl)), IH; auto.
Qed.

Lemma find_filter_some p q l x :
  List.find p l = Some x -> q x = true ->
  List.find p (List.filter q l) = Some x.
Proof.
  induction l as [|y l IH]; simpl; [discriminate|].
  destruct (p y) eqn:Ep.
  - intros [= ->] Hq. rewrite Hq. simpl. now rewrite Ep.
  - intros Hf Hq. destruct (q y); simpl; [rewrite Ep|]; auto.
Qed.

Lemma find_filter_none p q l :
  List.find p l = None -> List.find p (List.filter q l) = None.
Proof.
  intros Hn. apply find_none_existsb.
  destruct (existsb p (List.filter q l)) eqn:E; [|reflexivity].
  apply existsb_exists in E as (x & Hin & Hp).
  apply filter_In in Hin as [Hin _].
  now rewrite (find_none _ _ Hn x Hin) in Hp.
Qed.

End Sweep.

Lemma cleanupExpiredTokens_eq (t : Z) (s : Store) :
  AuthService.cleanupExpiredTokens t s
  = (Ok tt,
     set_passwordResetTokens
       (List.filter (fun r => negb (PasswordResetToken.expiresAt r <? t)%Z))
       (set_refreshTokens
          (List.filter (fun r => negb (RefreshToken.expiresAt r <? t)%Z)) s)).
Proof. reflexivity. Qed.

(** X6. [cleanupExpiredTokens] run at time [t] does not throw; it keeps
    exactly the refresh-token rows and the reset-token rows whose expiry
    is [t] or later, and touches nothing else. Running it again, at [t]
    or at an earlier time, changes nothing more. *)
Theorem cleanupExpiredTokens_sweeps (t : Z) (s : Store) :
  let s' := snd (AuthService.cleanupExpiredTokens t s) in
  fst (AuthService.cleanupExpiredTokens t s) = Ok tt
  /\ (forall r, In r (refreshTokens s')
                <-> In r (refreshTokens s) /\ (t <= RefreshToken.expiresAt r)%Z)
  /\ (forall r, In r (passwordResetTokens s')
                <-> In r (passwordResetTokens s)
                    /\ (t <= PasswordResetToken.expiresAt r)%Z)
  /\ users s' = users s /\ userSkills s' = userSkills s
  /\ (forall t', (t' <= t)%Z ->
                 snd (AuthService.cleanupExpiredTokens t' s') = s').
Proof.
  intros s'. subst s'. rewrite cleanupExpiredTokens_eq. simpl.
  split; [reflexivity|]. split; [|split; [|split; [|split]]];
    try reflexivity.
  - intros r. rewrite filter_In, negb_true_iff, Z.ltb_ge. tauto.
  - intros r. rewrite filter_In, negb_true_iff, Z.ltb_ge. tauto.
  - intros t' Ht.
    unfold set_passwordResetTokens, set_refreshTokens. simpl.
    f_equal; apply filter_all; intros r Hin;
      apply filter_In in Hin as [_ Hin];
      rewrite negb_true_iff, Z.ltb_ge in *; lia.
Qed.

Section SweepIsTransparent.
Context `{External} (cfg : Config).

Lemma verifyPasswordResetToken_answer_ext (tok : string) (t : Z)
    (sa sb : Store) :
  List.find (prisma.passwordResetToken.by_token tok) (passwordResetTokens sa)
  = List.find (prisma.passwordResetToken.by_token tok)
      (passwordResetTokens sb) ->
  users sa = users sb ->
  fst (AuthService.verifyPasswordResetToken tok t sa)
  = fst (AuthService.verifyPasswordResetToken tok t sb).
Proof.
  intros Hrow Hus.
  unfold AuthService.verifyPasswordResetToken, bind,
    prisma.passwordResetToken.findUnique_token_include_user.
  rewrite Hrow, Hus.
  destruct (List.find _ (passwordResetTokens sb)) as [r|] eqn:Hr;
    [|reflexivity].
  destruct (PasswordResetToken.expiresAt r <? t)%Z; [|reflexivity].
  unfold prisma.passwordResetToken.delete_id.
  assert (Hin : forall s0,
            List.find (prisma.passwordResetToken.by_token tok)
              (passwordResetTokens s0) = Some r ->
            existsb (prisma.passwordResetToken.by_id (PasswordResetToken.id r))
              (passwordResetTokens s0) = true).
  { intros s0 Hs0. apply find_some in Hs0 as [Hs0 _].
    apply existsb_exists. exists r. split; [assumption|].
    apply String.eqb_refl. }
  rewrite (Hin sa) by congruence. now rewrite (Hin sb) by assumption.
Qed.

End SweepIsTransparent.

(** X7. The sweep is not observable through the token checks: on a store
    that satisfies the unique indexes, [refreshAccessToken] and
    [verifyPasswordResetToken] give, at any time from the sweep on, the
    same answer for every token after the sweep as they would have given
    without it. *)
Theorem cleanup_is_transparent `{External} (cfg : Config) (t t' : Z)
    (s : Store) (tok : string) :
  wf s -> (t <= t')%Z ->
  let s' := snd (AuthService.cleanupExpiredTokens t s) in
  fst (AuthService.refreshAccessToken cfg tok t' s')
  = fst (AuthService.refreshAccessToken cfg tok t' s)
  /\ fst (AuthService.verifyPasswordResetToken tok t' s')
     = fst (AuthService.verifyPasswordResetToken tok t' s).
Proof.
  intros Hwf Ht s'. subst s'. rewrite cleanupExpiredTokens_eq. simpl. split.
  - destruct (List.find (prisma.refreshToken.by_token tok) (refreshTokens s))
      as [r|] eqn:Hr.
    + destruct (Z.ltb_spec (RefreshToken.expiresAt r) t) as [Hexp|Hexp].
      * rewrite refreshAccessToken_absent.
        -- unfold AuthService.refreshAccessToken.
           destruct (AuthService.verifyRefreshToken cfg tok t') eqn:Hv;
             [|reflexivity].
           unfold bind, prisma.refreshToken.findUnique_token_include_user.
           rewrite Hr.
           destruct (Z.ltb_spec (RefreshToken.expiresAt r) t'); [|lia].
           unfold prisma.refreshToken.delete_id.
           assert (existsb (prisma.refreshToken.by_id (RefreshToken.id r))
                     (refreshTokens s) = true) as ->; [|reflexivity].
           apply existsb_exists. exists r.
           split; [now apply find_some in Hr|apply String.eqb_refl].
        -- simpl. apply find_none_existsb.
           destruct (existsb _ _) eqn:E; [|reflexivity].
           apply existsb_exists in E as (x & Hin & Hp).
           apply filter_In in Hin as [Hin Hkeep].
           apply find_some in Hr as [Hrin Hrp].
           unfold prisma.refreshToken.by_token in *.
           apply String.eqb_eq in Hp, Hrp.
           assert (x = r) as ->
             by (eapply NoDup_map_eq;
                 [apply (wf_rt_token s Hwf)|..]; congruence).
           rewrite negb_true_iff, Z.ltb_ge in Hkeep. lia.
      * apply refreshAccessToken_answer_ext; [|reflexivity]. simpl.
        rewrite Hr. apply find_filter_some; [assumption|].
        rewrite negb_true_iff, Z.ltb_ge. lia.
    + apply refreshAccessToken_answer_ext; [|reflexivity]. simpl.
      rewrite Hr. now apply find_filter_none.
  - destruct (List.find (prisma.passwordResetToken.by_token tok)
                (passwordResetTokens s)) as [r|] eqn:Hr.
    + destruct (Z.ltb_spec (PasswordResetToken.expiresAt r) t) as [Hexp|Hexp].
      * unfold AuthService.verifyPasswordResetToken, bind,
          prisma.passwordResetToken.findUnique_token_include_user.
        simpl. rewrite Hr.
        assert (List.find (prisma.passwordResetToken.by_token tok)
                  (List.filter
                     (fun r0 => negb (PasswordResetToken.expiresAt r0 <? t)%Z)
                     (passwordResetTokens s)) = None) as ->.
        { apply find_none_existsb.
          destruct (existsb _ _) eqn:E; [|reflexivity].
          apply existsb_exists in E as (x & Hin & Hp).
          apply filter_In in Hin as [Hin Hkeep].
          apply find_some in Hr as [Hrin Hrp].
          unfold prisma.passwordResetToken.by_token in *.
          apply String.eqb_eq in Hp, Hrp.
          assert (x = r) as ->
            by (eapply NoDup_map_eq;
                [apply (wf_prt_token s Hwf)|..]; congruence).
          rewrite negb_true_iff, Z.ltb_ge in Hkeep. lia. }
        destruct (Z.ltb_spec (PasswordResetToken.expiresAt r) t'); [|lia].
        unfold prisma.passwordResetToken.delete_id.
        assert (existsb
                  (prisma.passwordResetToken.by_id (PasswordResetToken.id r))
                  (passwordResetTokens s) = true) as ->; [|reflexivity].
        apply existsb_exists. exists r.
        split; [now apply find_some in Hr|apply String.eqb_refl].
      * apply verifyPasswordResetToken_answer_ext; [|reflexivity]. simpl.
        rewrite Hr. apply find_filter_some; [assumption|].
        rewrite negb_true_iff, Z.ltb_ge. lia.
    + apply verifyPasswordResetToken_answer_ext; [|reflexivity]. simpl.
      rewrite Hr. now apply find_filter_none.
Qed.

(** On the sample store, swept at 1 s: the stale token and the live one
    get, at 2 s, the answers they got before. *)
Lemma cleanup_is_transparent_witness :
  let s' := snd (AuthService.cleanupExpiredTokens 1000 Sample.store) in
  List.length (refreshTokens s') = 1%nat
  /\ fst (AuthService.refreshAccessToken (H := Sample.libs)
            (Sample.cfg "test") "R:u1@b" 2000 s') = Ok None
  /\ fst (AuthService.refreshAccessToken (H := Sample.libs)
            (Sample.cfg "test") "R:u1@a" 2000 s')
     = fst (AuthService.refreshAccessToken (H := Sample.libs)
              (Sample.cfg "test") "R:u1@a" 2000 Sample.store).
Proof.
  intros s'. subst s'. split; [reflexivity|].
  destruct (cleanup_is_transparent (H := Sample.libs) (Sample.cfg "test")
              1000 2000 Sample.store "R:u1@b" wf_sample ltac:(lia))
    as [Hstale _].
  destruct (cleanup_is_transparent (H := Sample.libs) (Sample.cfg "test")
              1000 2000 Sample.store "R:u1@a" wf_sample ltac:(lia))
    as [Hlive _].
  split; [now rewrite Hstale | exact Hlive].
Defined.

(** ** The life of a password-reset token *)

Lemma filter_snoc_fresh {A : Type} (key : A -> string) (l : list A) (x : A) :
  existsb (fun y => String.eqb (key y) (key x)) l = false ->
  List.filter (fun y => negb (String.eqb (key y) (key x))) (l ++ [x])%list = l.
Proof.
  intros Hfresh. rewrite List.filter_app. simpl. rewrite String.eqb_refl.
  simpl. rewrite app_nil_r. apply filter_all. intros y Hin.
  apply negb_true_iff, String.eqb_neq.
  now apply (existsb_false_neq key (key x) l Hfresh).
Qed.

(** X8. A reset token issued for a user at a time when the generated row id
    and uuid are new is the uuid; it is stored with an expiry one hour
    later and the tokens stored before are found as before. Up to and
    including that instant [verifyPasswordResetToken] returns the user and
    writes nothing; after it, it returns [null] and deletes the row, which
    puts the store back as it was. [consumePasswordResetToken] returns
    [true] and puts the store back as it was; after that the token
    verifies no more and a second consumption returns [false]. *)
Theorem reset_token_lifecycle (uid : string) (amb : Ambient) (s : Store)
    (u : User.t) :
  existsb (prisma.passwordResetToken.by_id (new_token_id amb))
    (passwordResetTokens s) = false ->
  existsb (prisma.passwordResetToken.by_token (uuid amb))
    (passwordResetTokens s) = false ->
  List.find (prisma.user.by_id uid) (users s) = Some u ->
  let issued := AuthService.generatePasswordResetToken uid amb s in
  let s1 := snd issued in
  let hour := (60 * 60 * 1000)%Z in
  fst issued = Ok (uuid amb)
  /\ (forall tok, tok <> uuid amb ->
        List.find (prisma.passwordResetToken.by_token tok)
          (passwordResetTokens s1)
        = List.find (prisma.passwordResetToken.by_token tok)
            (passwordResetTokens s))
  /\ (forall t, (t <= now amb + hour)%Z ->
        AuthService.verifyPasswordResetToken (uuid amb) t s1
        = (Ok (Some u), s1))
  /\ (forall t, (now amb + hour < t)%Z ->
        AuthService.verifyPasswordResetToken (uuid amb) t s1 = (Ok None, s))
  /\ AuthService.consumePasswordResetToken (uuid amb) s1 = (Ok true, s)
  /\ (forall t, AuthService.verifyPasswordResetToken (uuid amb) t s
                = (Ok None, s))
  /\ AuthService.consumePasswordResetToken (uuid amb) s = (Ok false, s).
Proof.
  intros Hid Htok Hu issued s1 hour. subst issued s1.
  unfold AuthService.generatePasswordResetToken, bind,
    prisma.passwordResetToken.create.
  cbn [PasswordResetToken.id PasswordResetToken.token]. rewrite Hid, Htok.
  cbn [fst snd ret].
  set (r := PasswordResetToken.mk (new_token_id amb) (uuid amb) uid
              (now amb + 60 * 60 * 1000) (now amb)).
  assert (Hfind : List.find (prisma.passwordResetToken.by_token (uuid amb))
                    (passwordResetTokens s ++ [r])%list = Some r)
    by (apply find_app_fresh; [assumption|apply String.eqb_refl]).
  assert (Hnone : List.find (prisma.passwordResetToken.by_token (uuid amb))
                    (passwordResetTokens s) = None)
    by now apply find_none_existsb.
  assert (Hback_id :
            set_passwordResetTokens
              (List.filter
                 (fun x => negb (prisma.passwordResetToken.by_id
                                   (PasswordResetToken.id r) x)))
              (set_passwordResetTokens (fun l => (l ++ [r])%list) s) = s).
  { destruct s as [us rts prts sk]. unfold set_passwordResetTokens. simpl.
    f_equal. apply (filter_snoc_fresh PasswordResetToken.id prts r Hid). }
  assert (Hback_tok :
            set_passwordResetTokens
              (List.filter
                 (fun x => negb (prisma.passwordResetToken.by_token
                                   (uuid amb) x)))
              (set_passwordResetTokens (fun l => (l ++ [r])%list) s) = s).
  { destruct s as [us rts prts sk]. unfold set_passwordResetTokens. simpl.
    f_equal. apply (filter_snoc_fresh PasswordResetToken.token prts r Htok). }
  split; [reflexivity|]. split; [|split; [|split; [|split; [|split]]]].
  - intros tok Hne. simpl. apply find_app_old.
    apply String.eqb_neq. simpl. congruence.
  - intros t Ht. now apply (verifyPasswordResetToken_live _ _ _ r (Some u)).
  - intros t Ht.
    unfold AuthService.verifyPasswordResetToken, bind,
      prisma.passwordResetToken.findUnique_token_include_user.
    cbn [passwordResetTokens set_passwordResetTokens]. rewrite Hfind.
    cbn [PasswordResetToken.expiresAt r].
    destruct (Z.ltb_spec (now amb + 60 * 60 * 1000) t); [|lia].
    unfold prisma.passwordResetToken.delete_id.
    cbn [passwordResetTokens set_passwordResetTokens].
    assert (existsb (prisma.passwordResetToken.by_id (PasswordResetToken.id r))
              (passwordResetTokens s ++ [r])%list = true) as ->
      by (rewrite existsb_app_one; unfold prisma.passwordResetToken.by_id;
          rewrite String.eqb_refl; apply orb_true_r).
    unfold ret. now rewrite Hback_id.
  - unfold AuthService.consumePasswordResetToken,
      AuthService.consumePasswordResetToken_when, try_catch, bind,
      unreachable_if, prisma.passwordResetToken.delete_token.
    cbn [passwordResetTokens set_passwordResetTokens].
    rewrite (find_some_existsb _ _ _ Hfind). unfold ret.
    now rewrite Hback_tok.
  - intros t.
    unfold AuthService.verifyPasswordResetToken, bind,
      prisma.passwordResetToken.findUnique_token_include_user.
    now rewrite Hnone.
  - unfold AuthService.consumePasswordResetToken,
      AuthService.consumePasswordResetToken_when, try_catch, bind,
      unreachable_if, prisma.passwordResetToken.delete_token.
    now rewrite Htok.
Qed.

(** A reset token for the sample user, issued at 1 s: good at one hour and
    one second sharp, gone a millisecond later. *)
Lemma reset_token_lifecycle_witness :
  let s1 :=
    snd (AuthService.generatePasswordResetToken "u1" (Sample.amb 1000 "p2")
           Sample.store) in
  AuthService.verifyPasswordResetToken "reset-2" 3601000 s1
  = (Ok (Some Sample.alice), s1)
  /\ AuthService.verifyPasswordResetToken "reset-2" 3601001 s1
     = (Ok None, Sample.store).
Proof.
  intros s1. subst s1.
  destruct (reset_token_lifecycle "u1" (Sample.amb 1000 "p2") Sample.store
              Sample.alice eq_refl eq_refl eq_refl)
    as (_ & _ & Hlive & Hdead & _).
  split; [apply Hlive | apply Hdead]; simpl; lia.
Defined.

(** ** After a password reset *)

Lemma find_map_same {A : Type} (p : A -> bool) (g : A -> A) (l : list A) :
  (forall x, p (g x) = p x) ->
  List.find p (map g l) = option_map g (List.find p l).
Proof.
  intros Hg. induction l as [|x l IH]; simpl; [reflexivity|].
  rewrite Hg. now destruct (p x).
Qed.



(** ** The refresh route and the logout route *)

Section RefreshAndLogout.
Context `{External} (cfg : Config).

(** An access token comes out of [refreshAccessToken] only through the
    branch that writes nothing. *)
Lemma refreshAccessToken_some_inv (tok : string) (t : Z) (s s' : Store)
    (a : string) :
  AuthService.refreshAccessToken cfg tok t s = (Ok (Some a), s') ->
  s' = s
  /\ exists r u,
       List.find (prisma.refreshToken.by_token tok) (refreshTokens s) = Some r
       /\ (t <= RefreshToken.expiresAt r)%Z
       /\ List.find (prisma.user.by_id (RefreshToken.userId r)) (users s)
          = Some u
       /\ a = AuthService.generateAccessToken cfg
                (JWTPayload.mk (User.id u) (User.email u) (User.role u)) t.
Proof.
  unfold AuthService.refreshAccessToken.
  destruct (AuthService.verifyRefreshToken cfg tok t); [|discriminate].
  unfold bind, prisma.refreshToken.findUnique_token_include_user.
  destruct (List.find _ (refreshTokens s)) as [r|] eqn:Hr; [|discriminate].
  destruct (Z.ltb_spec (RefreshToken.expiresAt r) t).
  - unfold prisma.refreshToken.delete_id. destruct (existsb _ _); discriminate.
  - destruct (List.find _ (users s)) as [u|] eqn:Hu; [|discriminate].
    intros [= <- <-]. split; [reflexivity|]. exists r, u. auto.
Qed.

Lemma refresh_absent_401 (tok : string) (amb : Ambient) (s : Store) :
  tok <> "" ->
  List.find (prisma.refreshToken.by_token tok) (refreshTokens s) = None ->
  asyncHandler cfg (Routes.refresh cfg (Some tok) amb) s
  = (failure 401 "Invalid or expired refresh token", s).
Proof.
  intros Hne Hnone. apply String.eqb_neq in Hne.
  unfold asyncHandler, Routes.refresh. simpl. unfold truthy. rewrite Hne.
  simpl. unfold bind. rewrite refreshAccessToken_absent by assumption. simpl.
  now rewrite errorHandler_AppError.
Qed.

End RefreshAndLogout.

(** X10. The refresh route answers 400 when the body has no refresh token
    or an empty one, and 401 when [refreshAccessToken] returns [null].
    When it answers with an access token, that token is signed for the
    user row the store holds for the token's row, and the route has
    written nothing: the refresh token is not rotated, its row stays as it
    is and the same request can be made again. *)
Theorem refresh_route_answers `{External} (cfg : Config)
    (refreshToken : option string) (amb : Ambient) (s : Store) :
  let answer := asyncHandler cfg (Routes.refresh cfg refreshToken amb) s in
  (some_truthy refreshToken = false ->
   answer = (failure 400 "Refresh token is required", s))
  /\ (forall tok s1,
        refreshToken = Some tok -> tok <> "" ->
        AuthService.refreshAccessToken cfg tok (now amb) s = (Ok None, s1) ->
        answer = (failure 401 "Invalid or expired refresh token", s1))
  /\ (forall tok a s1,
        refreshToken = Some tok -> tok <> "" ->
        AuthService.refreshAccessToken cfg tok (now amb) s
        = (Ok (Some a), s1) -> a <> "" ->
        answer
        = (mkResponse 200 [("success", JBool true); ("accessToken", JStr a)],
           s)
        /\ asyncHandler cfg (Routes.refresh cfg refreshToken amb) (snd answer)
           = answer
        /\ exists r u,
             List.find (prisma.refreshToken.by_token tok) (refreshTokens s)
             = Some r
             /\ List.find (prisma.user.by_id (RefreshToken.userId r)) (users s)
                = Some u
             /\ a = AuthService.generateAccessToken cfg
                      (JWTPayload.mk (User.id u) (User.email u) (User.role u))
                      (now amb)).
Proof.
  intros answer. subst answer. unfold asyncHandler, Routes.refresh.
  split; [|split].
  - intros ->. simpl. now rewrite errorHandler_AppError.
  - intros tok s1 -> Hne Hcall. apply String.eqb_neq in Hne.
    simpl. unfold truthy. rewrite Hne. simpl. unfold bind. rewrite Hcall.
    simpl. now rewrite errorHandler_AppError.
  - intros tok a s1 -> Hne Hcall Ha.
    apply String.eqb_neq in Hne, Ha.
    destruct (refreshAccessToken_some_inv cfg tok (now amb) s s1 a Hcall)
      as (-> & r & u & Hr & _ & Hu & Hsigned).
    simpl. unfold truthy. rewrite Hne. simpl. unfold bind. rewrite Hcall.
    simpl. unfold truthy. rewrite Ha. simpl.
    split; [reflexivity|]. split; [|eauto 10].
    unfold truthy. rewrite Hcall. simpl. unfold truthy. now rewrite Ha.
Qed.

(** The live token of the sample store, exchanged twice at 1 s. *)
Lemma refresh_route_answers_witness :
  let cfg := Sample.cfg "test" in
  let answer :=
    asyncHandler cfg
      (Routes.refresh (H := Sample.libs) cfg (Some "R:u1@a")
         (Sample.amb 1000 "x")) Sample.store in
  status (fst answer) = 200%Z /\ snd answer = Sample.store.
Proof.
  intros cfg answer.
  destruct (refresh_route_answers (H := Sample.libs) cfg (Some "R:u1@a")
              (Sample.amb 1000 "x") Sample.store) as (_ & _ & Hok).
  destruct (Hok "R:u1@a" _ Sample.store eq_refl ltac:(discriminate) eq_refl
              ltac:(discriminate)) as (Hanswer & _).
  fold answer in Hanswer. rewrite Hanswer. split; reflexivity.
Defined.

(** X11. Logout by a request that [authenticate] lets through. The answer
    is 200 "Logout successful" in every case, also when the supplied
    refresh token is unknown. The user row is marked offline. With a
    non-empty refresh token in the body, the row holding that token is
    deleted, whoever owns it, and no other; the refresh route then answers
    401 for it. Without one, all refresh-token rows of the user are
    deleted. The access token is not affected: presented again while it
    still verifies, it is let through with the same identity. *)
Theorem logout_effects `{External} (cfg : Config) (req : Request)
    (refreshToken : option string) (amb : Ambient) (s : Store)
    (token : string) (payload : JWTPayload.t) (u : User.t) :
  bearer (authorization req) = Some token ->
  AuthService.verifyAccessToken cfg token (now amb) = Some payload ->
  List.find (prisma.user.by_id (JWTPayload.userId payload)) (users s)
  = Some u ->
  let answer := Routes.logout_route cfg req refreshToken amb s in
  let s' := snd answer in
  fst answer = success 200 "Logout successful" []
  /\ users s'
     = map (fun x => if prisma.user.by_id (User.id u) x
                     then Routes.offline (now amb) x else x) (users s)
  /\ passwordResetTokens s' = passwordResetTokens s
  /\ (forall tok, refreshToken = Some tok -> tok <> "" ->
        refreshTokens s'
        = List.filter (fun r => negb (prisma.refreshToken.by_token tok r))
            (refreshTokens s)
        /\ forall amb',
             asyncHandler cfg (Routes.refresh cfg (Some tok) amb') s'
             = (failure 401 "Invalid or expired refresh token", s'))
  /\ (some_truthy refreshToken = false ->
      refreshTokens s'
      = List.filter (fun r => negb (prisma.refreshToken.by_userId (User.id u) r))
          (refreshTokens s))
  /\ (forall t', AuthService.verifyAccessToken cfg token t' = Some payload ->
        authenticate cfg req t' s'
        = (Ok (Next (with_user req (select_identity u))), s')).
Proof.
  intros Hb Hv Hu answer s'.
  assert (Hid : User.id u = JWTPayload.userId payload).
  { apply find_some in Hu as [_ Hu]. now apply String.eqb_eq in Hu. }
  assert (Hu' : List.find (prisma.user.by_id (User.id u)) (users s) = Some u)
    by now rewrite Hid.
  set (upd := fun x => if prisma.user.by_id (User.id u) x
                       then Routes.offline (now amb) x else x).
  assert (Hanswer : exists rts,
            answer = (success 200 "Logout successful" [],
                      set_refreshTokens (fun _ => rts) (set_users (map upd) s))
            /\ (forall tok, refreshToken = Some tok -> tok <> "" ->
                  rts = List.filter
                          (fun r => negb (prisma.refreshToken.by_token tok r))
                          (refreshTokens s))
            /\ (some_truthy refreshToken = false ->
                rts = List.filter
                        (fun r => negb (prisma.refreshToken.by_userId
                                          (User.id u) r))
                        (refreshTokens s))).
  { subst answer. unfold Routes.logout_route, Routes.authenticated.
    unfold authenticate, try_catch, bind, prisma.user.findUnique_id, ret.
    rewrite Hb, Hv, Hu. unfold asyncHandler, Routes.logout. simpl.
    unfold bind, prisma.user.update. rewrite Hu'.
    destruct (some_truthy refreshToken) eqn:Etok.
    - destruct refreshToken as [tok|]; [|discriminate]. simpl in Etok.
      unfold AuthService.revokeRefreshToken.
      rewrite revokeRefreshToken_when_eq. simpl.
      destruct (existsb _ _) eqn:Eheld; simpl.
      + eexists. split; [reflexivity|]. split; [|discriminate].
        now intros ? [= <-] _.
      + exists (refreshTokens s). split.
        * unfold set_refreshTokens, set_users. now destruct s.
        * split; [|discriminate]. intros ? [= <-] _. symmetry.
          apply filter_all. intros r Hin. apply negb_true_iff.
          destruct (prisma.refreshToken.by_token tok r) eqn:E; [|reflexivity].
          assert (existsb (prisma.refreshToken.by_token tok) (refreshTokens s)
                  = true) by (apply existsb_exists; eauto).
          congruence.
    - unfold AuthService.revokeAllUserTokens.
      rewrite revokeAllUserTokens_when_eq. simpl.
      eexists. split; [reflexivity|]. split; [|reflexivity].
      intros tok -> Hne. apply String.eqb_neq in Hne. simpl in Etok.
      unfold truthy in Etok. rewrite Hne in Etok. discriminate. }
  destruct Hanswer as (rts & Hanswer & Hone & Hall).
  subst s'. rewrite Hanswer. cbn [fst snd].
  split; [reflexivity|]. split; [reflexivity|]. split; [reflexivity|].
  split; [|split].
  - intros tok Htok Hne. split; [now apply Hone|].
    intros amb'. apply refresh_absent_401; [assumption|]. simpl.
    rewrite (Hone tok Htok Hne). apply find_filter_gone. auto.
  - exact Hall.
  - intros t' Hv'.
    unfold authenticate, try_catch, bind, prisma.user.findUnique_id, ret.
    rewrite Hb, Hv'. simpl. rewrite find_map_same.
    + rewrite Hu. simpl. subst upd. simpl. unfold prisma.user.by_id.
      now rewrite String.eqb_refl.
    + intros x. subst upd. simpl.
      now destruct (prisma.user.by_id (User.id u) x).
Qed.

(** The sample user logs out and hands in the refresh token of the other
    user: that session is gone, the two of the sample user are still
    stored, and the access token is still let through. *)
Lemma logout_effects_witness :
  let cfg := Sample.cfg "test" in
  let req := Sample.request (Some "Bearer A:u1@1") in
  let answer :=
    Routes.logout_route (H := Sample.libs) cfg req (Some "R:u3@a")
      (Sample.amb 49000 "x") Sample.store2 in
  status (fst answer) = 200%Z
  /\ map RefreshToken.token (refreshTokens (snd answer)) = ["R:u1@a"; "R:u1@b"]
  /\ fst (authenticate (H := Sample.libs) cfg req 50000 (snd answer))
     = Ok (Next (with_user req (select_identity Sample.alice))).
Proof.
  intros cfg req answer.
  destruct (logout_effects (H := Sample.libs) cfg req (Some "R:u3@a")
              (Sample.amb 49000 "x") Sample.store2 "A:u1@1"
              (JWTPayload.mk "u1" "" "") Sample.alice eq_refl eq_refl eq_refl)
    as (Hst & _ & _ & Hone & _ & Hstill).
  fold answer in Hst, Hone, Hstill.
  destruct (Hone "R:u3@a" eq_refl ltac:(discriminate)) as [Hrts _].
  split; [now rewrite Hst|]. split; [now rewrite Hrts|].
  now rewrite (Hstill 50000%Z eq_refl).
Defined.

(** ** What login and a failed registration leave in the store *)

(** [refreshAccessToken] reads the id, the email and the role of the
    user row and nothing else of it. *)
Lemma refreshAccessToken_answer_users `{External} (cfg : Config)
    (tok : string) (t : Z) (sa sb : Store) (g : User.t -> User.t) :
  List.find (prisma.refreshToken.by_token tok) (refreshTokens sa)
  = List.find (prisma.refreshToken.by_token tok) (refreshTokens sb) ->
  users sa = map g (users sb) ->
  (forall x, User.id (g x) = User.id x) ->
  (forall x, User.email (g x) = User.email x) ->
  (forall x, User.role (g x) = User.role x) ->
  fst (AuthService.refreshAccessToken cfg tok t sa)
  = fst (AuthService.refreshAccessToken cfg tok t sb).
Proof.
  intros Hrow Hus Hid Hem Hro. unfold AuthService.refreshAccessToken.
  destruct (AuthService.verifyRefreshToken cfg tok t); [|reflexivity].
  unfold bind, prisma.refreshToken.findUnique_token_include_user.
  rewrite Hrow, Hus.
  destruct (List.find _ (refreshTokens sb)) as [r|] eqn:Hr; [|reflexivity].
  destruct (RefreshToken.expiresAt r <? t)%Z.
  - unfold prisma.refreshToken.delete_id.
    assert (Hin : forall s0,
              List.find (prisma.refreshToken.by_token tok) (refreshTokens s0)
              = Some r ->
              existsb (prisma.refreshToken.by_id (RefreshToken.id r))
                (refreshTokens s0) = true).
    { intros s0 Hs0. apply find_some in Hs0 as [Hs0 _].
      apply existsb_exists. exists r. split; [assumption|].
      apply String.eqb_refl. }
    rewrite (Hin sa) by congruence. now rewrite (Hin sb) by assumption.
  - rewrite find_map_same
      by (intros x; unfold prisma.user.by_id; now rewrite Hid).
    destruct (List.find _ (users sb)) as [u|]; [|reflexivity].
    simpl. now rewrite Hid, Hem, Hro.
Qed.

(** X12. A login with a string password that is answered with 200, the
    generated row id and the signed refresh token being new to the store,
    adds exactly one refresh-token row, for the user, good for seven days,
    and deletes none; every other refresh token gets from
    [refreshAccessToken], at any time, the answer that it got before the
    login. The login marks the user online, and changes neither the
    password hash of any user nor the reset tokens. The user object of the
    answer is the row as it was read before the update. *)
Theorem login_adds_a_session `{External} (cfg : Config) (b : LoginBody.t)
    (amb : Ambient) (s : Store) (u : User.t) (p : string) :
  isEmail (LoginBody.email b) = true ->
  LoginBody.password b = JStr p ->
  p <> "" ->
  List.find (prisma.user.by_email (normalizeEmail (LoginBody.email b)))
    (users s) = Some u ->
  AuthService.comparePassword (LoginBody.password b) (User.passwordHash u)
  = Ok true ->
  let token :=
    AuthService.generateRefreshToken cfg
      (JWTPayload.mk (User.id u) (User.email u) (User.role u)) (now amb) in
  existsb (prisma.refreshToken.by_id (new_token_id amb)) (refreshTokens s)
  = false ->
  existsb (prisma.refreshToken.by_token token) (refreshTokens s) = false ->
  let answer := asyncHandler cfg (Routes.login cfg b amb) s in
  let s' := snd answer in
  status (fst answer) = 200%Z
  /\ user_of (fst answer) = Some (omit "passwordHash" (user_obj u))
  /\ refreshTokens s'
     = (refreshTokens s
        ++ [RefreshToken.mk (new_token_id amb) token (User.id u)
              (now amb + 7 * 24 * 60 * 60 * 1000) (now amb)])%list
  /\ (forall tok t, tok <> token ->
        fst (AuthService.refreshAccessToken cfg tok t s')
        = fst (AuthService.refreshAccessToken cfg tok t s))
  /\ users s'
     = map (fun x => if prisma.user.by_id (User.id u) x
                     then seen_online (now amb) x else x) (users s)
  /\ map User.passwordHash (users s') = map User.passwordHash (users s)
  /\ passwordResetTokens s' = passwordResetTokens s.
Proof.
  intros Hmail Hstr Hpw Hu Hcmp token Hid Htok answer s'.
  apply String.eqb_neq in Hpw.
  assert (Hup : exists u', List.find (prisma.user.by_id (User.id u)) (users s)
                           = Some u').
  { destruct (List.find (prisma.user.by_id (User.id u)) (users s)) eqn:E;
      [eauto|].
    apply find_some in Hu as [Hin _]. eapply find_none in E; [|exact Hin].
    unfold prisma.user.by_id in E. now rewrite String.eqb_refl in E. }
  destruct Hup as [u' Hu'].
  set (upd := fun x => if prisma.user.by_id (User.id u) x
                       then seen_online (now amb) x else x).
  set (row := RefreshToken.mk (new_token_id amb) token (User.id u)
                (now amb + 7 * 24 * 60 * 60 * 1000) (now amb)).
  assert (Hanswer : Routes.login cfg b amb s
            = (Ok (success 200 "Login successful"
                     [("data",
                       JObj [("user", JObj (omit "passwordHash" (user_obj u)));
                             ("accessToken",
                              JStr (AuthService.generateAccessToken cfg
                                      (JWTPayload.mk (User.id u) (User.email u)
                                         (User.role u)) (now amb)));
                             ("refreshToken", JStr token)])]),
               set_refreshTokens (fun l => (l ++ [row])%list)
                 (set_users (map upd) s))).
  { unfold Routes.login, Routes.validate_login. rewrite Hmail.
    replace (notEmpty (LoginBody.password b)) with true
      by (rewrite Hstr; simpl; unfold truthy; now rewrite Hpw).
    cbn [check app].
    rewrite (bind_ok _ _ s s (Some u))
      by (unfold prisma.user.findUnique_email; now rewrite Hu).
    rewrite Hcmp.
    erewrite bind_ok by (unfold prisma.user.update; now rewrite Hu').
    erewrite bind_ok by (now apply generateTokenPair_fresh).
    reflexivity. }
  subst answer s'. unfold asyncHandler. rewrite Hanswer. cbn [fst snd].
  split; [reflexivity|]. split; [reflexivity|]. split; [reflexivity|].
  split; [|split; [reflexivity|split; [|reflexivity]]].
  - intros tok t Hne.
    apply (refreshAccessToken_answer_users cfg tok t _ s upd);
      [|reflexivity|intros x; unfold upd; now destruct (prisma.user.by_id _ x)..].
    simpl. apply find_app_old. apply String.eqb_neq. simpl. congruence.
  - simpl. apply map_map_if. reflexivity.
Qed.

(** The sample user logs in at 49 s: the two earlier sessions are still
    stored, followed by the new one, and the earlier live token is
    exchanged as before. *)
Lemma login_adds_a_session_witness :
  let answer :=
    asyncHandler (Sample.cfg "test")
      (Routes.login (H := Sample.libs) (Sample.cfg "test")
         (LoginBody.mk "alice@example.com" (JStr "Abcdef12"))
         (Sample.amb 49000 "r3"))
      Sample.store in
  status (fst answer) = 200%Z
  /\ map RefreshToken.id (refreshTokens (snd answer)) = ["r1"; "r2"; "r3"]
  /\ fst (AuthService.refreshAccessToken (H := Sample.libs)
            (Sample.cfg "test") "R:u1@a" 4000 (snd answer))
     = fst (AuthService.refreshAccessToken (H := Sample.libs)
              (Sample.cfg "test") "R:u1@a" 4000 Sample.store).
Proof.
  intros answer.
  destruct (login_adds_a_session (H := Sample.libs) (Sample.cfg "test")
              (LoginBody.mk "alice@example.com" (JStr "Abcdef12"))
              (Sample.amb 49000 "r3") Sample.store Sample.alice "Abcdef12"
              eq_refl eq_refl ltac:(discriminate) eq_refl eq_refl eq_refl
              eq_refl)
    as (Hst & _ & Hrts & Hold & _).
  fold answer in Hst, Hrts, Hold. split; [exact Hst|].
  split; [now rewrite Hrts|]. apply Hold. discriminate.
Defined.

Section RegisterFailure.
Context `{External} (cfg : Config).

(** The transaction of the register route throws what the store or the
    mapping of the skills throws. *)
Lemma create_user_throws (role : string) (skills : option JSON) (u : User.t)
    (ids : nat -> string) (s s1 : Store) (e : JsError) :
  transaction
    (await newUser := prisma.user.create u in
     await_ Routes.add_skills role skills (User.id newUser) ids in
     ret newUser) s = (Throw e, s1) ->
  s1 = s /\ ((exists tg, e = P2002 tg) \/ (exists m, e = TypeError m)).
Proof.
  unfold transaction, bind, prisma.user.create.
  destruct (existsb (prisma.user.by_id _) _); [intros [= <- <-]; eauto|].
  destruct (existsb (prisma.user.by_email _) _); [intros [= <- <-]; eauto|].
  destruct (Routes.add_skills _ _ _ _ _) as [[[]|e0] s0] eqn:Esk;
    [discriminate|].
  intros [= <- <-]. split; [reflexivity|].
  unfold Routes.add_skills in Esk.
  destruct skills as [[| | | | |l|]|]; try discriminate.
  destruct (String.eqb role "FREELANCER"); [|discriminate].
  destruct (skill_rows _ l) as [data|e1] eqn:Edata.
  - pose proof (createMany_outcome ids data
                  (set_users (fun l0 => (l0 ++ [u])%list) s)) as Hc.
    rewrite Esk in Hc. now left.
  - injection Esk as <- _. right. eapply skill_rows_throws; eassumption.
Qed.

Lemma register_throw_outcome (b : RegisterBody.t) (amb : Ambient) (s : Store) :
  existsb (prisma.refreshToken.by_id (new_token_id amb)) (refreshTokens s)
  = false ->
  existsb (prisma.refreshToken.by_token
             (AuthService.generateRefreshToken cfg
                (JWTPayload.mk (new_user_id amb)
                   (normalizeEmail (RegisterBody.email b))
                   (RegisterBody.role b)) (now amb)))
    (refreshTokens s) = false ->
  match Routes.register cfg b amb s with
  | (Ok resp, _) => status resp = 201%Z
  | (Throw e, s') =>
      s' = s /\ In (status (errorHandler cfg e)) [400; 409; 500]%Z
  end.
Proof.
  intros Hid Htok. unfold Routes.register.
  destruct (Routes.validate_register b) as [|m ms] eqn:V;
    [|unfold throw; split; [reflexivity|];
      rewrite errorHandler_status; simpl; auto].
  destruct (String.eqb (RegisterBody.role b) "FREELANCER"
            && negb (match RegisterBody.hourlyRate b with
                     | Some v => json_truthy v
                     | None => false
                     end)) eqn:C1;
    [unfold throw; split; [reflexivity|];
     rewrite errorHandler_status; simpl; auto|].
  destruct (String.eqb (RegisterBody.role b) "FREELANCER"
            && negb (some_truthy (RegisterBody.bio b))) eqn:C2;
    [unfold throw; split; [reflexivity|];
     rewrite errorHandler_status; simpl; auto|].
  destruct (String.eqb (RegisterBody.role b) "CLIENT"
            && negb (some_truthy
                       (option_map trim (RegisterBody.companyName b))))
    eqn:C3; [unfold throw; split; [reflexivity|];
     rewrite errorHandler_status; simpl; auto|].
  unfold bind at 1. unfold prisma.user.findUnique_email.
  destruct (List.find _ (users s)) as [existing|] eqn:F;
    [unfold throw; split; [reflexivity|];
     rewrite errorHandler_status; simpl; auto|].
  set (u := Routes.userData b _ amb).
  pose proof (create_user_outcome cfg (RegisterBody.role b)
                (RegisterBody.skills b) u (new_skill_id amb) s) as Htx.
  destruct (transaction _ s) as [[a|e] s1] eqn:Etx.
  - destruct Htx as (-> & _ & _ & _ & Hrt).
    rewrite (bind_ok _ _ _ _ _ Etx).
    erewrite bind_ok
      by (apply generateTokenPair_fresh; rewrite Hrt; assumption).
    reflexivity.
  - rewrite (bind_throw _ _ _ _ _ Etx).
    apply create_user_throws in Etx as [-> [[tg ->]|[m ->]]];
      (split; [reflexivity|]); rewrite errorHandler_status; simpl; auto.
Qed.

End RegisterFailure.

(** X13. A registration for which the generated id of the refresh-token
    row is new and the refresh token that it would sign, for the id of the
    new user, is not stored, and that is not answered with 201, is
    answered with 400, 409 or 500 and leaves the store exactly as it was:
    no user row, no skill row and no token. This holds for every
    validation failure, for an email or a user id that is taken, and for
    skills that the store refuses or that are not strings, which roll the
    user row back with them. *)
Theorem register_failure_effects `{External} (cfg : Config)
    (b : RegisterBody.t) (amb : Ambient) (s : Store) :
  existsb (prisma.refreshToken.by_id (new_token_id amb)) (refreshTokens s)
  = false ->
  existsb (prisma.refreshToken.by_token
             (AuthService.generateRefreshToken cfg
                (JWTPayload.mk (new_user_id amb)
                   (normalizeEmail (RegisterBody.email b))
                   (RegisterBody.role b)) (now amb)))
    (refreshTokens s) = false ->
  let answer := asyncHandler cfg (Routes.register cfg b amb) s in
  status (fst answer) <> 201%Z ->
  snd answer = s /\ In (status (fst answer)) [400; 409; 500]%Z.
Proof.
  intros Hid Htok answer Hnot. subst answer.
  pose proof (register_throw_outcome cfg b amb s Hid Htok) as Hout.
  unfold asyncHandler in Hnot |- *.
  destruct (Routes.register cfg b amb s) as [[resp|e] s1]; simpl in *;
    [contradiction|exact Hout].
Qed.

(** A freelancer registers on the sample store with the same skill twice:
    the unique index on (userId, skill) refuses the second row, the answer
    is 409 and neither the first skill row nor the user row stays. *)
Lemma register_failure_effects_witness :
  let cfg := Sample.cfg "test" in
  let b :=
    RegisterBody.mk "a@b.com" "Abcdef12" "A" "B" "FREELANCER"
      (Some (JNum 40))
      (Some "I prove programs correct, one lemma at a time, since 2010.")
      (Some (JArr [JStr "coq"; JStr "coq"])) None None in
  let answer :=
    asyncHandler cfg
      (Routes.register (H := Sample.libs) cfg b (Sample.amb 49000 "r3"))
      Sample.store in
  fst answer = failure 409 "userId already exists"
  /\ snd answer = Sample.store.
Proof.
  intros cfg b answer.
  destruct (register_failure_effects (H := Sample.libs) cfg b
              (Sample.amb 49000 "r3") Sample.store eq_refl eq_refl)
    as [Hsame _]; [discriminate|].
  split; [reflexivity|exact Hsame].
Defined.

(** ** The rate limiter, over any sequence of calls *)

Section RateLimiterRuns.
Import RateLimit.
Variables maxRequests windowMs : Z.

Local Abbreviation step := (rateLimitByUser maxRequests windowMs).
Local Abbreviation steps := (run maxRequests windowMs).

(** What a call gets, and what it leaves for its key, depends on the entry
    of its key only. *)
Lemma step_local (r1 r2 : gmap string Entry) (req : Request) (t : Z) :
  r1 !! key req = r2 !! key req ->
  fst (step r1 req t) = fst (step r2 req t)
  /\ snd (step r1 req t) !! key req = snd (step r2 req t) !! key req.
Proof.
  intros Heq. unfold rateLimitByUser. rewrite Heq.
  destruct (r2 !! key req) as [e|] eqn:He; simpl.
  - destruct (resetTime e <? t)%Z; simpl;
      [now rewrite !lookup_insert_eq|].
    destruct (maxRequests <=? count e)%Z; simpl;
      [split; congruence | now rewrite !lookup_insert_eq].
  - now rewrite !lookup_insert_eq.
Qed.

Lemma step_bounded (requests : gmap string Entry) (req : Request) (t : Z) :
  bounded maxRequests requests ->
  bounded maxRequests (snd (step requests req t)).
Proof.
  intros Hb k e. unfold rateLimitByUser.
  assert (Hnew : forall c r (m : gmap string Entry),
            (1 <= c <= Z.max 1 maxRequests)%Z ->
            <[key req := mkEntry c r]> m !! k = Some e ->
            bounded maxRequests m ->
            (1 <= count e <= Z.max 1 maxRequests)%Z).
  { intros c r m Hc Hl Hm. destruct (decide (key req = k)) as [<-|Hne].
    - rewrite lookup_insert_eq in Hl. now injection Hl as <-.
    - rewrite lookup_insert_ne in Hl by assumption. eapply Hm; eassumption. }
  destruct (requests !! key req) as [e0|] eqn:He; simpl.
  - destruct (resetTime e0 <? t)%Z; simpl;
      [intros Hl; refine (Hnew _ _ _ _ Hl Hb); lia|].
    destruct (Z.leb_spec maxRequests (count e0)); simpl; [apply Hb|].
    intros Hl. pose proof (Hb _ _ He) as Hc.
    refine (Hnew _ _ _ _ Hl Hb). simpl in Hc. lia.
  - intros Hl. refine (Hnew _ _ _ _ Hl Hb). lia.
Qed.

End RateLimiterRuns.

(** X14. The counts that the limiter keeps stay between 1 and
    [maxRequests] (or 1 when [maxRequests] is smaller) over any sequence
    of calls, from any keys and at any times, in particular from the
    empty map the middleware starts with. *)
Theorem rate_limit_counts_bounded (maxRequests windowMs : Z)
    (requests : gmap string RateLimit.Entry) (calls : list (Request * Z)) :
  RateLimit.bounded maxRequests requests ->
  RateLimit.bounded maxRequests
    (snd (RateLimit.run maxRequests windowMs requests calls))
  /\ RateLimit.bounded maxRequests
       (snd (RateLimit.run maxRequests windowMs ∅ calls)).
Proof.
  assert (Hrun : forall calls r,
            RateLimit.bounded maxRequests r ->
            RateLimit.bounded maxRequests
              (snd (RateLimit.run maxRequests windowMs r calls))).
  { clear. induction calls as [|[req t] calls IH]; intros r Hb; simpl;
      [exact Hb|].
    pose proof (step_bounded maxRequests windowMs r req t Hb) as Hstep.
    destruct (RateLimit.rateLimitByUser _ _ r req t) as [v r1].
    specialize (IH r1 Hstep).
    now destruct (RateLimit.run _ _ r1 calls) as [vs r2]. }
  intros Hb. split; [now apply Hrun|]. apply Hrun.
  intros k e Hl. rewrite lookup_empty in Hl. discriminate.
Qed.

(** A limit of two: after five calls from one address the count is 2. *)
Lemma rate_limit_counts_bounded_witness :
  let a := Sample.request None in
  let final :=
    snd (RateLimit.run 2 1000 ∅ [(a, 0%Z); (a, 1%Z); (a, 2%Z); (a, 3%Z);
                                 (a, 4%Z)]) in
  final !! "10.0.0.1" = Some (RateLimit.mkEntry 2 1000)
  /\ RateLimit.bounded 2 final.
Proof.
  intros a final. split; [reflexivity|].
  apply (rate_limit_counts_bounded 2 1000 ∅).
  intros k e Hl. rewrite lookup_empty in Hl. discriminate.
Defined.

(** X15. The keys do not interfere: the verdicts that the calls of one key
    get in a sequence of calls, and the entry the sequence leaves for that
    key, are those that the calls of that key alone would have got and
    left. *)
Theorem rate_limit_keys_independent (maxRequests windowMs : Z)
    (requests : gmap string RateLimit.Entry) (calls : list (Request * Z))
    (k : string) :
  let all := RateLimit.run maxRequests windowMs requests calls in
  let alone :=
    RateLimit.run maxRequests windowMs requests (RateLimit.calls_of k calls) in
  RateLimit.verdicts_for k calls (fst all) = fst alone
  /\ snd all !! k = snd alone !! k.
Proof.
  cbv zeta.
  assert (Hgen : forall calls r1 r2,
            r1 !! k = r2 !! k ->
            RateLimit.verdicts_for k calls
              (fst (RateLimit.run maxRequests windowMs r1 calls))
            = fst (RateLimit.run maxRequests windowMs r2
                     (RateLimit.calls_of k calls))
            /\ snd (RateLimit.run maxRequests windowMs r1 calls) !! k
               = snd (RateLimit.run maxRequests windowMs r2
                        (RateLimit.calls_of k calls)) !! k).
  { clear. induction calls as [|[req t] calls IH]; intros r1 r2 Heq; simpl;
      [auto|].
    destruct (String.eqb_spec (RateLimit.key req) k) as [Hk|Hk]; simpl.
    - subst k.
      destruct (step_local maxRequests windowMs r1 r2 req t Heq)
        as [Hv Hnext].
      destruct (RateLimit.rateLimitByUser _ _ r1 req t) as [v1 r1'].
      destruct (RateLimit.rateLimitByUser _ _ r2 req t) as [v2 r2'].
      simpl in Hv, Hnext. subst v2. specialize (IH r1' r2' Hnext).
      destruct (RateLimit.run _ _ r1' calls) as [vs1 r1''].
      destruct (RateLimit.run _ _ r2' _) as [vs2 r2''].
      simpl in *. destruct IH as [-> ->]. auto.
    - pose proof (step_other_key maxRequests windowMs r1 req t k Hk) as Hframe.
      destruct (RateLimit.rateLimitByUser _ _ r1 req t) as [v1 r1'].
      simpl in Hframe.
      specialize (IH r1' r2 ltac:(congruence)).
      destruct (RateLimit.run _ _ r1' calls) as [vs1 r1''].
      simpl in *. destruct (String.eqb_spec (RateLimit.key req) k);
        [contradiction|]. exact IH. }
  now apply Hgen.
Qed.

(** ** The profile route *)

Lemma errorHandler_no_data (cfg : Config) (e : JsError) :
  data_of (errorHandler cfg e) = None.
Proof.
  unfold data_of, errorHandler. destruct e; cbn; split_conditions; reflexivity.
Qed.

Lemma find_by_id_again (i : string) (l : list User.t) (u : User.t) :
  List.find (prisma.user.by_id i) l = Some u ->
  List.find (prisma.user.by_id (User.id u)) l = Some u.
Proof.
  intros Hf. destruct (find_some _ _ Hf) as [_ Hid].
  unfold prisma.user.by_id in Hid. apply String.eqb_eq in Hid.
  now rewrite Hid.
Qed.

(** X16. [GET /me] writes nothing. When it answers with a [data] object,
    the status is 200, the bearer token of the request verifies and names a
    user of the store, and the object has that user's id and e-mail
    address, the skills of that user's rows of the skill table in their
    order, and no [passwordHash]. *)
Theorem me_route_profile `{External} (cfg : Config)
    (json_parse : string -> Result JSON) (languages : list UserLanguage.t)
    (req : Request) (amb : Ambient) (s : Store) :
  let out := Routes.me_route cfg json_parse languages req amb s in
  snd out = s
  /\ forall d, data_of (fst out) = Some d ->
       status (fst out) = 200%Z
       /\ field "passwordHash" d = None
       /\ exists tok p u,
            bearer (authorization req) = Some tok
            /\ AuthService.verifyAccessToken cfg tok (now amb) = Some p
            /\ List.find (prisma.user.by_id (JWTPayload.userId p)) (users s)
               = Some u
            /\ field "id" d = Some (JStr (User.id u))
            /\ field "email" d = Some (JStr (User.email u))
            /\ field "skills" d
               = Some (JArr (map (fun r => JStr (UserSkill.skill r))
                               (List.filter
                                  (fun r => String.eqb (UserSkill.userId r)
                                              (User.id u))
                                  (userSkills s)))).
Proof.
  cbv zeta.
  unfold Routes.me_route, Routes.authenticated, authenticate, try_catch, bind,
    prisma.user.findUnique_id, ret.
  destruct (bearer (authorization req)) as [tok|] eqn:Hb;
    [|split; [reflexivity|discriminate]].
  destruct (AuthService.verifyAccessToken cfg tok (now amb)) as [p|] eqn:Hp;
    [|split; [reflexivity|discriminate]].
  destruct (List.find (prisma.user.by_id (JWTPayload.userId p)) (users s))
    as [u|] eqn:Hu; [|split; [reflexivity|discriminate]].
  unfold asyncHandler, Routes.me, bind, prisma.user.findUnique_id_include,
    ret, throw. cbn [req_user with_user select_identity ReqUser.id].
  rewrite (find_by_id_again _ _ _ Hu).
  destruct (if some_truthy (User.portfolioData u) then _ else _)
    as [portfolio|e]; cbn [fst snd].
  - split; [reflexivity|]. intros d Hd. injection Hd as <-.
    split; [reflexivity|]. split; [reflexivity|].
    exists tok, p, u. repeat split; auto.
  - split; [reflexivity|]. intros d Hd.
    now rewrite errorHandler_no_data in Hd.
Qed.

(** The second sample user asks for their profile. *)
Lemma me_route_profile_witness :
  let out :=
    Routes.me_route (H := Sample.libs) (Sample.cfg "production")
      (fun _ => Ok (JObj [])) [] (Sample.request (Some "Bearer A:u3@1"))
      (Sample.amb 49000 "r9") Sample.store2 in
  exists d, data_of (fst out) = Some d
            /\ field "passwordHash" d = None
            /\ field "skills" d = Some (JArr [JStr "coq"])
            /\ field "portfolio" d = Some (JObj []).
Proof.
  intros out. eexists. split; [reflexivity|].
  destruct (me_route_profile (H := Sample.libs) (Sample.cfg "production")
              (fun _ => Ok (JObj [])) [] (Sample.request (Some "Bearer A:u3@1"))
              (Sample.amb 49000 "r9") Sample.store2) as [_ Hd].
  destruct (Hd _ eq_refl) as (_ & Hhash & _).
  split; [exact Hhash|]. split; reflexivity.
Defined.

(** ** What a registration stores *)

Section RegisterProfile.
Context `{External} (cfg : Config).

Lemma insert_rows_appends (rows : list UserSkill.t) :
  forall s s', prisma.userSkill.insert_rows rows s = (Ok tt, s') ->
               userSkills s' = (userSkills s ++ rows)%list.
Proof.
  induction rows as [|r rows IH]; intros s s'; simpl.
  - unfold ret. intros [= <-]. now rewrite app_nil_r.
  - destruct (existsb _ _); [discriminate|].
    destruct (existsb _ _); [discriminate|].
    intros Hc. apply IH in Hc. rewrite Hc. simpl.
    now rewrite <- app_assoc.
Qed.

Lemma createMany_appends (ids : nat -> string)
    (data : list (string * string)) (s s' : Store) :
  prisma.userSkill.createMany ids data s = (Ok tt, s') ->
  userSkills s'
  = (userSkills s ++ prisma.userSkill.rows_of ids 0 data)%list.
Proof.
  unfold prisma.userSkill.createMany.
  destruct (prisma.userSkill.insert_rows _ s) as [[[]|e] s0] eqn:E;
    [|discriminate].
  intros [= <-]. now apply insert_rows_appends.
Qed.

Lemma skill_rows_strings (uid : string) (names : list string) :
  skill_rows uid (map JStr names)
  = Ok (map (fun n => (uid, trim n)) names).
Proof. induction names as [|n names IH]; simpl; [|rewrite IH]; reflexivity. Qed.

Lemma check_inv (ok : bool) (m : string) : check ok m = [] -> ok = true.
Proof. now destruct ok. Qed.

(** The skill rows that the transaction of the register route adds. *)
Lemma register_skills (b : RegisterBody.t) (amb : Ambient) (s s1 : Store)
    (resp : Response) :
  Routes.register cfg b amb s = (Ok resp, s1) ->
  (forall names,
     RegisterBody.role b = "FREELANCER" ->
     RegisterBody.skills b = Some (JArr (map JStr names)) ->
     userSkills s1
     = (userSkills s
        ++ prisma.userSkill.rows_of (new_skill_id amb) 0
             (map (fun n => (new_user_id amb, trim n)) names))%list)
  /\ (RegisterBody.role b <> "FREELANCER" -> userSkills s1 = userSkills s)
  /\ (RegisterBody.skills b = None -> userSkills s1 = userSkills s).
Proof.
  unfold Routes.register.
  destruct (Routes.validate_register b) as [|m ms]; [|discriminate].
  destruct (_ && negb (match RegisterBody.hourlyRate b with
                       | Some v => json_truthy v
                       | None => false
                       end)); [discriminate|].
  destruct (_ && negb (some_truthy (RegisterBody.bio b))); [discriminate|].
  destruct (_ && negb (some_truthy _)); [discriminate|].
  unfold bind at 1. unfold prisma.user.findUnique_email.
  destruct (List.find _ (users s)) as [existing|]; [discriminate|].
  set (u := Routes.userData b _ amb).
  match goal with
  | |- context [bind (transaction ?m) _ s] =>
      destruct (transaction m s) as [[a|e] s0] eqn:Etx
  end;
    [rewrite (bind_ok _ _ _ _ _ Etx)
    |rewrite (bind_throw _ _ _ _ _ Etx); discriminate].
  destruct (AuthService.generateTokenPair cfg (User.id a) (User.email a)
              (User.role a) amb s0) as [[p|e] s2] eqn:G;
    [rewrite (bind_ok _ _ _ _ _ G)
    |rewrite (bind_throw _ _ _ _ _ G); discriminate].
  apply generateTokenPair_inv in G as (_ & _ & _ & ->).
  unfold ret. intros [= _ <-]. cbn [userSkills set_refreshTokens].
  revert Etx. unfold transaction, bind, prisma.user.create.
  destruct (existsb (prisma.user.by_id _) _); [discriminate|].
  destruct (existsb (prisma.user.by_email _) _); [discriminate|].
  destruct (Routes.add_skills _ _ _ _ _) as [[[]|e] s3] eqn:Esk;
    [|discriminate].
  unfold ret. intros [= _ <-]. unfold Routes.add_skills in Esk.
  cbn [User.id u Routes.userData] in Esk.
  split; [|split].
  - intros names Hrole Hsk. rewrite Hrole, Hsk in Esk.
    change (String.eqb "FREELANCER" "FREELANCER") with true in Esk.
    rewrite skill_rows_strings in Esk.
    now apply createMany_appends in Esk.
  - intros Hrole.
    destruct (String.eqb_spec (RegisterBody.role b) "FREELANCER");
      [contradiction|].
    destruct (RegisterBody.skills b) as [[| | | | |l|]|];
      unfold ret in Esk; now injection Esk as <-.
  - intros Hsk. rewrite Hsk in Esk. unfold ret in Esk.
    now injection Esk as <-.
Qed.

End RegisterProfile.

(** X17. A registration that is answered with 201 has stored one user
    row, with role FREELANCER or CLIENT, never ADMIN, and not verified:
    [adminOnly] and [verifiedOnly] answer 403 to that identity. A client's
    row has a non-empty company name and neither bio nor hourly rate, and
    no skill is stored for a client, whatever the body held. A
    freelancer's row has a bio whose length, as validator.js counts it
    (characters, not bytes, without the variation selectors), is between
    50 and 1000, the hourly rate read from a value that passed the minimum
    of 5 and no company, and the skills of the body, when they are
    strings, are stored trimmed, in their order, under the generated ids,
    after the rows that were there. *)
Theorem register_profile_rules `{External} (cfg : Config)
    (b : RegisterBody.t) (amb : Ambient) (s : Store) :
  let answer := asyncHandler cfg (Routes.register cfg b amb) s in
  let s1 := snd answer in
  let u :=
    Routes.userData b
      (AuthService.hashPassword cfg (RegisterBody.password b) (salt amb))
      amb in
  status (fst answer) = 201%Z ->
  users s1 = (users s ++ [u])%list
  /\ (RegisterBody.role b = "FREELANCER" \/ RegisterBody.role b = "CLIENT")
  /\ (forall req,
        adminOnly (with_user req (select_identity u))
        = Respond (failure 403 "Insufficient permissions")
        /\ verifiedOnly (with_user req (select_identity u))
           = Respond (failure 403 "Email verification required"))
  /\ (RegisterBody.role b = "CLIENT" ->
      User.bio u = None /\ User.hourlyRate u = None
      /\ userSkills s1 = userSkills s
      /\ exists c, RegisterBody.companyName b = Some c
                   /\ trim c <> ""
                   /\ User.companyName u = Some (trim c))
  /\ (RegisterBody.role b = "FREELANCER" ->
      User.companyName u = None /\ User.companySize u = None
      /\ (exists bio, User.bio u = Some bio
                      /\ (50 <= validator_length bio <= 1000)%nat)
      /\ (exists r, RegisterBody.hourlyRate b = Some r
                    /\ isFloat_min5 r = true
                    /\ User.hourlyRate u = Some (parseFloat r))
      /\ forall names,
           RegisterBody.skills b = Some (JArr (map JStr names)) ->
           userSkills s1
           = (userSkills s
              ++ prisma.userSkill.rows_of (new_skill_id amb) 0
                   (map (fun n => (new_user_id amb, trim n)) names))%list).
Proof.
  intros answer s1 u H201.
  pose proof (register_outcome cfg b amb s) as Hout.
  subst answer s1. unfold asyncHandler in *.
  destruct (Routes.register cfg b amb s) as [[resp|e] s'] eqn:Ereg;
    cbn [fst snd] in *; [|contradiction].
  destruct Hout as (V & _ & _ & Hus & _).
  destruct (register_skills cfg b amb s s' resp Ereg) as (Hfr & Hnot & _).
  unfold Routes.register in Ereg. rewrite V in Ereg.
  destruct (_ && negb (match RegisterBody.hourlyRate b with
                       | Some v => json_truthy v
                       | None => false
                       end)) eqn:Crate in Ereg; [discriminate|].
  destruct (_ && negb (some_truthy (RegisterBody.bio b))) eqn:Cbio in Ereg;
    [discriminate|].
  destruct (_ && negb (some_truthy _)) eqn:Ccomp in Ereg; [discriminate|].
  clear Ereg. unfold Routes.validate_register in V.
  apply app_eq_nil in V as [_ V]. apply app_eq_nil in V as [_ V].
  apply app_eq_nil in V as [_ V]. apply app_eq_nil in V as [_ V].
  apply app_eq_nil in V as [Vrole V]. apply app_eq_nil in V as [Vrate V].
  apply app_eq_nil in V as [Vbio _].
  apply check_inv in Vrole. unfold isIn in Vrole. cbn [existsb] in Vrole.
  assert (Hrole : RegisterBody.role b = "FREELANCER"
                  \/ RegisterBody.role b = "CLIENT").
  { destruct (String.eqb_spec (RegisterBody.role b) "FREELANCER"); [auto|].
    destruct (String.eqb_spec (RegisterBody.role b) "CLIENT"); [auto|].
    discriminate. }
  split; [exact Hus|]. split; [exact Hrole|]. split; [|split].
  - intros req. unfold adminOnly, authorize, verifiedOnly.
    cbn [req_user with_user select_identity ReqUser.role
         ReqUser.isEmailVerified u Routes.userData User.role
         User.isEmailVerified existsb].
    destruct Hrole as [-> | ->]; split; reflexivity.
  - intros Hc. rewrite Hc in *.
    change (String.eqb "CLIENT" "CLIENT") with true in Ccomp.
    cbn [andb] in Ccomp. apply negb_false_iff in Ccomp.
    subst u. unfold Routes.userData. rewrite Hc.
    change (String.eqb "CLIENT" "FREELANCER") with false.
    change (String.eqb "CLIENT" "CLIENT") with true.
    cbn [User.bio User.hourlyRate User.companyName andb].
    split; [reflexivity|]. split; [reflexivity|].
    split; [apply Hnot; discriminate|].
    destruct (RegisterBody.companyName b) as [c|]; [|discriminate].
    exists c. cbn [option_map some_truthy] in *. rewrite Ccomp.
    split; [reflexivity|]. split; [|reflexivity].
    intros Hempty. rewrite Hempty in Ccomp. discriminate.
  - intros Hf. rewrite Hf in *.
    change (String.eqb "FREELANCER" "FREELANCER") with true in *.
    cbn [andb] in Crate, Cbio.
    apply negb_false_iff in Crate. apply negb_false_iff in Cbio.
    subst u. unfold Routes.userData. rewrite Hf.
    change (String.eqb "FREELANCER" "FREELANCER") with true.
    change (String.eqb "FREELANCER" "CLIENT") with false.
    cbn [User.bio User.hourlyRate User.companyName User.companySize andb].
    split; [reflexivity|]. split; [reflexivity|]. split; [|split].
    + destruct (RegisterBody.bio b) as [bio|]; [|discriminate].
      exists bio. split; [reflexivity|].
      cbn [optional] in Vbio. apply check_inv in Vbio.
      unfold isLength in Vbio. apply andb_true_iff in Vbio as [Hlo Hhi].
      apply Nat.leb_le in Hlo. apply Nat.leb_le in Hhi. lia.
    + destruct (RegisterBody.hourlyRate b) as [r|]; [|discriminate].
      exists r. cbn [optional option_map] in *. apply check_inv in Vrate.
      auto.
    + intros names Hsk. now apply Hfr.
Qed.

(** The sample registration, of a client whose body also carries what only
    a freelancer's row would keep. *)
Lemma register_profile_rules_witness :
  let b :=
    RegisterBody.mk "a@b.com" "Abcdef12" "A" "B" "CLIENT" (Some (JNum 40))
      None (Some (JArr [JStr "coq"])) (Some "Acme") None in
  let answer :=
    asyncHandler (Sample.cfg "test")
      (Routes.register (H := Sample.libs) (Sample.cfg "test") b
         (Sample.amb 49000 "r3")) Sample.store in
  status (fst answer) = 201%Z
  /\ userSkills (snd answer) = []
  /\ length (users (snd answer)) = 2%nat.
Proof.
  intros b answer.
  destruct (register_profile_rules (H := Sample.libs) (Sample.cfg "test") b
              (Sample.amb 49000 "r3") Sample.store eq_refl)
    as (Hus & _ & _ & Hclient & _).
  destruct (Hclient eq_refl) as (_ & _ & Hsk & _).
  split; [reflexivity|]. split; [exact Hsk|].
  subst answer. now rewrite Hus.
Defined.

(** ** The validators on text outside ASCII, and the answer to a body that
    fails validation *)

(** [isLength] counts characters: "e" with an acute accent (two bytes), an
    emoji outside the basic plane (four bytes, a surrogate pair in JS) and
    a heart followed by U+FE0F (six bytes) each count 1. *)
Lemma validator_length_counts_characters :
  validator_length (Sample.bytes [195; 169]) = 1%nat
  /\ validator_length (Sample.bytes [240; 159; 152; 128]) = 1%nat
  /\ validator_length (Sample.bytes [226; 157; 164; 239; 184; 143]) = 1%nat
  /\ isLength 8 None (Sample.bytes [195; 169; 195; 169; 195; 169; 195; 169])
     = false.
Proof. repeat split. Qed.

(** The password pattern looks at the first line only, and U+2028 ends
    it as a line feed does. *)
Lemma matches_complexity_first_line :
  matches_complexity ("a" ++ Sample.bytes [226; 128; 168] ++ "B1") = false
  /\ matches_complexity ("a" ++ Sample.bytes [10] ++ "B1") = false
  /\ matches_complexity ("a" ++ Sample.bytes [226; 128; 167] ++ "B1") = true.
Proof. repeat split. Qed.

(** A body that fails validation is answered with 400 and every message,
    in the order of the chains. *)
Lemma validation_failure_lists_every_error :
  fst (asyncHandler (Sample.cfg "test")
         (Routes.login (H := Sample.libs) (Sample.cfg "test")
            (LoginBody.mk "nobody" JNull) (Sample.amb 49000 "r3"))
         Sample.store)
  = mkResponse 400
      [("success", JBool false); ("message", JStr "Validation failed");
       ("errors", JArr [JStr "Valid email is required";
                        JStr "Password is required"])]
  /\ fst (asyncHandler (Sample.cfg "test")
            (Routes.forgotPassword (H := Sample.libs) (Sample.cfg "test")
               "nobody" (Sample.amb 49000 "r3")) Sample.store)
     = mkResponse 400
         [("success", JBool false); ("message", JStr "Validation failed");
          ("errors", JArr [JStr "Valid email is required"])].
Proof. split; reflexivity. Qed.
